(** * QuickBooks Migrator: the transformation and reconciliation engine

    A shallow embedding of [quickbooks_migrator.py] (class [QuickBooksMigrator]).

    - Python floats are idealised as exact rationals ([Q]); [frappe.utils.flt]
      is the identity on them and [flt(x, 2)] rounds to two decimals.
    - A Python [dict] with optional keys is a record with [option] fields; a
      key the code indexes unconditionally is a plain field.
    - Exceptions are values of [exn]; code that can raise returns a [result].
    - The Frappe database is an explicit [Database] value; code that only
      reads it is a function of it, code that writes it returns the new one. *)

From Stdlib Require Import String Ascii List Bool ZArith QArith Qround Qabs Qminmax Lia.
From Stdlib Require Import DecimalString.
Import ListNotations.
Open Scope string_scope.

(** ** Exceptions and results *)

Inductive exn : Set :=
| IndexError          (* [xs[0]] on an empty list *)
| KeyError            (* [d[k]] on a missing key *)
| UnboundLocalError   (* a local variable read before assignment *)
| StopIteration       (* [next] on an exhausted iterator *)
| ZeroDivisionError
| DoesNotExistError   (* [frappe.get_doc] on a missing document *)
| ValidationError     (* raised by the storage collaborator *)
| TokenError          (* raised by the OAuth session on refresh *)
| RecursionError      (* the interpreter's recursion limit *)
| TransportError.     (* the error the specification asks for after one retry *)

Inductive result (A : Type) : Type :=
| Ok (a : A)
| Raise (e : exn).
Arguments Ok {A} a.
Arguments Raise {A} e.

Definition bind {A B : Type} (c : result A) (k : A -> result B) : result B :=
  match c with
  | Ok a => k a
  | Raise e => Raise e
  end.

Notation "x <- c ;; k" := (bind c (fun x => k))
  (at level 61, c at next level, right associativity).

(** A local variable that may still be unassigned when it is read. *)
Definition read_local {A : Type} (v : option A) : result A :=
  match v with
  | Some a => Ok a
  | None => Raise UnboundLocalError
  end.

(** [xs[0]] *)
Definition first {A : Type} (xs : list A) : result A :=
  match xs with
  | x :: _ => Ok x
  | [] => Raise IndexError
  end.

(** [d[k]] on a dictionary kept as an association list; a dictionary
    literal that repeats a key keeps the last value, insertion keeps the
    first position, so lookups go through [dict_get]. *)
Fixpoint dict_get {V : Type} (d : list (string * V)) (k : string) : option V :=
  match d with
  | [] => None
  | (k', v) :: d' => if String.eqb k k' then Some v else dict_get d' k
  end.

Definition dict_index {V : Type} (d : list (string * V)) (k : string) : result V :=
  match dict_get d k with
  | Some v => Ok v
  | None => Raise KeyError
  end.

(** ** Numbers *)

Definition round_half_even (x : Q) : Z :=
  let f := Qfloor x in
  match Qcompare (x - inject_Z f) (1 # 2) with
  | Lt => f
  | Gt => (f + 1)%Z
  | Eq => if Z.even f then f else (f + 1)%Z
  end.

(** [flt(x, 2)]: [frappe.utils.flt] is imported, not defined in this
    repository; on exact rationals it is rounding to two decimals. *)
Definition flt2 (x : Q) : Q := inject_Z (round_half_even (x * 100)) / 100.

(** Python truthiness of a float and of a string. *)
Definition truthy (x : Q) : bool := negb (Qeq_bool x 0).
Definition nonempty (s : string) : bool := negb (String.eqb s "").

(** ** The posting line (NormalizedLine)

    One element of a Journal Entry's ["accounts"] list: a Python dict whose
    keys are present or absent depending on the transformer that built it. *)

Record AccountLine := {
  account : option string;
  party_type : option string;
  party : option string;
  reference_type : option string;
  reference_name : option string;
  exchange_rate : option Q;
  debit_in_account_currency : option Q;
  credit_in_account_currency : option Q;
  cost_center : option string;
  user_remark : option string
}.

(** [acc.get(key, default)] *)
Definition get_or {A : Type} (v : option A) (default : A) : A :=
  match v with Some a => a | None => default end.

(** sum(debit_in_account_currency * exchange_rate) over the lines, with the
    defaults of the (commented-out) totals at lines 1010-1011. *)
Definition total_debit (accounts : list AccountLine) : Q :=
  fold_right (fun acc s =>
    get_or (debit_in_account_currency acc) 0 * get_or (exchange_rate acc) 1 + s)
    0 accounts.

Definition total_credit (accounts : list AccountLine) : Q :=
  fold_right (fun acc s =>
    get_or (credit_in_account_currency acc) 0 * get_or (exchange_rate acc) 1 + s)
    0 accounts.

(** The two totals agree once rounded to two decimal places. *)
Definition balancedb (accounts : list AccountLine) : bool :=
  Qeq_bool (flt2 (total_debit accounts)) (flt2 (total_credit accounts)).

Definition balanced (accounts : list AccountLine) : Prop :=
  flt2 (total_debit accounts) == flt2 (total_credit accounts).

(** ** The persisted documents

    The fields of each doctype that the engine reads or writes.  Every list
    is kept in the order [frappe.get_all] returns it, newest first. *)

Module AccountDoc.
Record t := {
  name : string;
  quickbooks_id : option string;
  company : string;
  account_type : option string;
  account_currency : string;
  tax_rate : option Q
}.
End AccountDoc.

Module JournalEntryDoc.
Record t := {
  name : string;
  quickbooks_id : string;
  company : string;
  posting_date : string;
  accounts : list AccountLine;
  docstatus : nat            (* 0 draft, 1 submitted *)
}.
End JournalEntryDoc.

Module SalesInvoiceDoc.
Record t := {
  name : string;
  quickbooks_id : string;
  company : string;
  customer : string;
  debit_to : string;
  outstanding_amount : Q;
  conversion_rate : Q;
  docstatus : nat
}.
End SalesInvoiceDoc.

Module PurchaseInvoiceDoc.
Record t := {
  name : string;
  quickbooks_id : string;
  company : string;
  supplier : string;
  credit_to : string;
  grand_total : Q;
  outstanding_amount : Q;
  conversion_rate : Q
}.
End PurchaseInvoiceDoc.

Module ItemDoc.
Record t := {
  quickbooks_id : string;
  company : string;
  item_defaults : list (option string)   (* the rows' [expense_account] *)
}.
End ItemDoc.

(** One Error Log document written by [_log_error]: the exception and the
    identity of the payload dumped with it (the JSON text is not modelled). *)
Record ErrorLog := {
  log_exception : exn;
  log_data : string
}.

Record Database := {
  Accounts : list AccountDoc.t;
  JournalEntries : list JournalEntryDoc.t;
  SalesInvoices : list SalesInvoiceDoc.t;
  PurchaseInvoices : list PurchaseInvoiceDoc.t;
  Items : list ItemDoc.t;
  ErrorLogs : list ErrorLog
}.

(** [self._log_error(e, data)] *)
Definition _log_error (e : exn) (data : string) (db : Database) : Database :=
  {| Accounts := Accounts db;
     JournalEntries := JournalEntries db;
     SalesInvoices := SalesInvoices db;
     PurchaseInvoices := PurchaseInvoices db;
     Items := Items db;
     ErrorLogs := {| log_exception := e; log_data := data |} :: ErrorLogs db |}.

Definition set_JournalEntries (jes : list JournalEntryDoc.t) (db : Database) : Database :=
  {| Accounts := Accounts db;
     JournalEntries := jes;
     SalesInvoices := SalesInvoices db;
     PurchaseInvoices := PurchaseInvoices db;
     Items := Items db;
     ErrorLogs := ErrorLogs db |}.

Definition set_SalesInvoices (sis : list SalesInvoiceDoc.t) (db : Database) : Database :=
  {| Accounts := Accounts db;
     JournalEntries := JournalEntries db;
     SalesInvoices := sis;
     PurchaseInvoices := PurchaseInvoices db;
     Items := Items db;
     ErrorLogs := ErrorLogs db |}.

(** A statement that may write the database and may raise. *)
Definition Proc : Type := Database -> Database * result unit.

(** ** The General Ledger report, as [_fetch_general_ledger] indexes it

    [credit] and [debit] are stored after [flt]; the home amounts are stored
    as the report gives them and read through [flt] at every use, which is
    the identity here.  A row without a transaction id is kept under the
    text [None] that formatting it yields. *)

Module GLLine.
Record t := {
  account : option string;
  date : string;
  type : string;
  id : string;
  credit : Q;
  debit : Q;
  customer : string;
  vendor : string;
  memo : string;
  currency : string;
  debt_home_amt : Q;
  credit_home_amt : Q
}.
End GLLine.

Module LedgerEntry.
Record t := {
  id : string;
  date : string;
  lines : list GLLine.t
}.
End LedgerEntry.

(** The fields of [self] the transformers read. [company_currency] stands
    for [get_company_currency(self.company)]. *)
Record QuickBooksMigrator := {
  company : string;
  company_currency : string;
  default_cost_center : option string;
  undeposited_funds_account : option string;
  general_ledger : list (string * list (string * LedgerEntry.t))
}.

(** ** The storage collaborator

    [insert()] and [submit()] of a document run the doctype's validation,
    which lives in the ledger application and not in this repository: each
    is a verdict on the document in the current database, and the name the
    new document gets. *)

Class StorageCollaborator := {
  je_insert_ok : Database -> JournalEntryDoc.t -> bool;
  je_submit_ok : Database -> JournalEntryDoc.t -> bool;
  je_autoname : Database -> string;
  si_insert_ok : Database -> SalesInvoiceDoc.t -> bool;
  si_submit_ok : Database -> SalesInvoiceDoc.t -> bool;
  si_autoname : Database -> string
}.

(** ** Queries *)

Definition opt_eqb (a : option string) (b : string) : bool :=
  match a with
  | Some a' => String.eqb a' b
  | None => false
  end.

Definition opt_opt_eqb (a b : option string) : bool :=
  match a, b with
  | Some a', Some b' => String.eqb a' b'
  | None, None => true
  | _, _ => false
  end.

Definition in_strings (s : string) (l : list string) : bool :=
  existsb (String.eqb s) l.

(** [self._get_account_name_by_id(quickbooks_id)] *)
Definition _get_account_name_by_id (self : QuickBooksMigrator) (db : Database)
    (quickbooks_id : option string) : result string :=
  a <- first (filter (fun a =>
         opt_opt_eqb (AccountDoc.quickbooks_id a) quickbooks_id
         && String.eqb (AccountDoc.company a) (company self)) (Accounts db)) ;;
  Ok (AccountDoc.name a).

(** [frappe.db.get_value("Account", name, "account_currency")] *)
Definition get_account_currency (db : Database) (name : option string) : option string :=
  match name with
  | Some n =>
      option_map AccountDoc.account_currency
        (find (fun a => String.eqb (AccountDoc.name a) n) (Accounts db))
  | None => None
  end.

(** [frappe.get_all("Account", filters=[account_type in types], pluck="name")] *)
Definition account_names_of_type (db : Database) (types : list string) : list string :=
  map AccountDoc.name
    (filter (fun a =>
       match AccountDoc.account_type a with
       | Some t => in_strings t types
       | None => false
       end) (Accounts db)).

(** [frappe.get_all("Account", filters={"account_type": "Tax", "tax_rate":
    percent, "company": self.company})[0]["name"]] *)
Definition tax_account_name (self : QuickBooksMigrator) (db : Database)
    (percent : Q) : result string :=
  a <- first (filter (fun a =>
         opt_eqb (AccountDoc.account_type a) "Tax"
         && match AccountDoc.tax_rate a with
            | Some r => Qeq_bool r percent
            | None => false
            end
         && String.eqb (AccountDoc.company a) (company self)) (Accounts db)) ;;
  Ok (AccountDoc.name a).

Definition je_matches (quickbooks_id company : string) (je : JournalEntryDoc.t) : bool :=
  String.eqb (JournalEntryDoc.quickbooks_id je) quickbooks_id
  && String.eqb (JournalEntryDoc.company je) company.

(** [frappe.db.exists({"doctype": "Journal Entry", "quickbooks_id": ...,
    "company": ...})] *)
Definition exists_journal_entry (db : Database) (quickbooks_id company : string) : bool :=
  existsb (je_matches quickbooks_id company) (JournalEntries db).

Definition si_matches (quickbooks_id company : string) (si : SalesInvoiceDoc.t) : bool :=
  String.eqb (SalesInvoiceDoc.quickbooks_id si) quickbooks_id
  && String.eqb (SalesInvoiceDoc.company si) company.

Definition exists_sales_invoice (db : Database) (quickbooks_id company : string) : bool :=
  existsb (si_matches quickbooks_id company) (SalesInvoices db).

Definition pi_matches (quickbooks_id company : string) (pi : PurchaseInvoiceDoc.t) : bool :=
  String.eqb (PurchaseInvoiceDoc.quickbooks_id pi) quickbooks_id
  && String.eqb (PurchaseInvoiceDoc.company pi) company.

Definition exists_purchase_invoice (db : Database) (quickbooks_id company : string) : bool :=
  existsb (pi_matches quickbooks_id company) (PurchaseInvoices db).

(** ** The Journal/Invoice builder *)

Section Builder.
Context {storage : StorageCollaborator}.

Definition submitted (je : JournalEntryDoc.t) : JournalEntryDoc.t :=
  {| JournalEntryDoc.name := JournalEntryDoc.name je;
     JournalEntryDoc.quickbooks_id := JournalEntryDoc.quickbooks_id je;
     JournalEntryDoc.company := JournalEntryDoc.company je;
     JournalEntryDoc.posting_date := JournalEntryDoc.posting_date je;
     JournalEntryDoc.accounts := JournalEntryDoc.accounts je;
     JournalEntryDoc.docstatus := 1 |}.

(** [__save_journal_entry], lines 994-1027.  [je.insert()] adds the draft or
    raises; [je.submit()] then posts it or raises, leaving the draft; the
    handler logs either failure and nothing is rolled back.  What the ledger
    application does to other documents when an entry is submitted (the
    outstanding amount of an invoice the entry refers to) is not code of
    this repository and is not represented: here a submission changes the
    entry only. *)
Definition __save_journal_entry (self : QuickBooksMigrator) (quickbooks_id : string)
    (accounts : list AccountLine) (posting_date : string) : Proc :=
  fun db =>
    if negb (exists_journal_entry db quickbooks_id (company self)) then
      let je :=
        {| JournalEntryDoc.name := je_autoname db;
           JournalEntryDoc.quickbooks_id := quickbooks_id;
           JournalEntryDoc.company := company self;
           JournalEntryDoc.posting_date := posting_date;
           JournalEntryDoc.accounts := accounts;
           JournalEntryDoc.docstatus := 0 |} in
      if je_insert_ok db je then
        let db1 := set_JournalEntries (je :: JournalEntries db) db in
        if je_submit_ok db1 je then
          (set_JournalEntries (submitted je :: JournalEntries db) db, Ok tt)
        else
          (_log_error ValidationError quickbooks_id db1, Ok tt)
      else
        (_log_error ValidationError quickbooks_id db, Ok tt)
    else
      (db, Ok tt).

(** [_save_sales_invoice], lines 747-794.  The dictionary assembled at lines
    752-788 (customer lookup, [_get_si_items], [_get_taxes],
    [_get_invoice_payments], [_get_discount]) is [invoice_dict]: it reads the
    database and may raise.  Its [quickbooks_id] and [company] entries are
    the literal ones of the source.  The handler dumps [invoice_doc], which
    is unassigned when the dictionary could not be built. *)
Section SalesInvoice.
Variable Invoice : Type.
Variable invoice_dict :
  QuickBooksMigrator -> Database -> Invoice -> bool -> bool -> result SalesInvoiceDoc.t.

Definition keyed (quickbooks_id company name : string) (docstatus : nat)
    (d : SalesInvoiceDoc.t) : SalesInvoiceDoc.t :=
  {| SalesInvoiceDoc.name := name;
     SalesInvoiceDoc.quickbooks_id := quickbooks_id;
     SalesInvoiceDoc.company := company;
     SalesInvoiceDoc.customer := SalesInvoiceDoc.customer d;
     SalesInvoiceDoc.debit_to := SalesInvoiceDoc.debit_to d;
     SalesInvoiceDoc.outstanding_amount := SalesInvoiceDoc.outstanding_amount d;
     SalesInvoiceDoc.conversion_rate := SalesInvoiceDoc.conversion_rate d;
     SalesInvoiceDoc.docstatus := docstatus |}.

Definition _save_sales_invoice (self : QuickBooksMigrator) (invoice : Invoice)
    (quickbooks_id : string) (is_return is_pos : bool) : Proc :=
  fun db =>
    if negb (exists_sales_invoice db quickbooks_id (company self)) then
      match invoice_dict self db invoice is_return is_pos with
      | Raise _ => (db, Raise UnboundLocalError)
      | Ok d =>
          let invoice_doc := keyed quickbooks_id (company self) (si_autoname db) 0 d in
          if si_insert_ok db invoice_doc then
            let db1 := set_SalesInvoices (invoice_doc :: SalesInvoices db) db in
            if si_submit_ok db1 invoice_doc then
              (set_SalesInvoices
                 (keyed quickbooks_id (company self) (si_autoname db) 1 d
                  :: SalesInvoices db) db, Ok tt)
            else
              (_log_error ValidationError quickbooks_id db1, Ok tt)
          else
            (_log_error ValidationError quickbooks_id db, Ok tt)
      end
    else
      (db, Ok tt).

End SalesInvoice.
End Builder.

(** ** Party inference

    [re.match] with the pattern: start of text, a greedy group of any
    characters, then a colon.  The group is greedy and the dot refuses a line
    feed.  [re_match_group1] runs the matcher: it lets the group take the
    next character first and falls back to the colon only when that fails. *)

Definition is_line_feed (c : ascii) : bool := Ascii.eqb c "010"%char.
Definition is_colon (c : ascii) : bool := Ascii.eqb c ":"%char.

Fixpoint re_match_group1 (s : string) : option string :=
  match s with
  | EmptyString => None
  | String c rest =>
      if is_line_feed c then None
      else
        match re_match_group1 rest with
        | Some g => Some (String c g)
        | None => if is_colon c then Some EmptyString else None
        end
  end.

(** [match = re.match(...); if match: party = match.group(1)] *)
Definition strip_party (party : string) : string :=
  match re_match_group1 party with
  | Some g => g
  | None => party
  end.

(** [x or None] on a string that may be unset. *)
Definition or_None (x : option string) : option string :=
  match x with
  | Some s => if nonempty s then Some s else None
  | None => None
  end.

(** ** Source records shared by several kinds *)

Module Ref.
Record t := {
  value : string;
  name : string
}.
End Ref.

Module TaxLine.
Record t := {
  Amount : Q;
  TaxPercent : Q     (* [line["TaxLineDetail"]["TaxPercent"]] *)
}.
End TaxLine.

Module TxnTaxDetail.
Record t := {
  TaxLine : option (list TaxLine.t)
}.
End TxnTaxDetail.

(** A loop whose body appends posting lines or raises. *)
Fixpoint for_each {A B : Type} (body : A -> result (list B)) (xs : list A)
    : result (list B) :=
  match xs with
  | [] => Ok []
  | x :: xs' =>
      ys <- body x ;;
      zs <- for_each body xs' ;;
      Ok (ys ++ zs)%list
  end.

(** ** JournalEntry *)

Module JournalEntry.
Record entity := {
  Type_ : string;
  EntityRef : Ref.t
}.
Record line_detail := {
  PostingType : string;
  AccountRef : Ref.t;
  Entity : option entity
}.
Record line := {
  DetailType : string;
  Amount : Q;
  Description : option string;
  JournalEntryLineDetail : line_detail
}.
Record t := {
  Id : string;
  Line : list line;
  CurrencyRef : Ref.t;
  ExchangeRate : Q;
  TxnTaxDetail : TxnTaxDetail.t;
  TxnDate : string
}.
End JournalEntry.

Definition posting_type_field_mapping : list (string * string) :=
  [("Credit", "credit_in_account_currency");
   ("Debit", "debit_in_account_currency")].

(** Lines 946-958: party and party type of a JournalEntry line. *)
Definition je_party (db : Database) (account_name : string)
    (detail : JournalEntry.line_detail) : option string * option string :=
  if in_strings account_name (account_names_of_type db ["Payable"; "Receivable"]) then
    match JournalEntry.Entity detail with
    | Some ent =>
        let party_type :=
          if String.eqb (JournalEntry.Type_ ent) "Vendor" then Some "Supplier"
          else if String.eqb (JournalEntry.Type_ ent) "Customer" then Some "Customer"
          else None in
        (party_type, Some (strip_party (Ref.name (JournalEntry.EntityRef ent))))
    | None => (None, None)
    end
  else (None, None).

(** Lines 939-944: the line's exchange rate and amount. *)
Definition je_rate_and_amount (account_currency : option string)
    (trans_currency : string) (exchange_rate amount : Q) : Q * Q :=
  if opt_eqb account_currency trans_currency then (exchange_rate, amount)
  else (1, amount * exchange_rate).

(** One turn of the loop of [_get_je_accounts], lines 933-970. *)
Definition je_line_accounts (self : QuickBooksMigrator) (db : Database)
    (trans_currency : string) (exchange_rate : Q) (line : JournalEntry.line)
    : result (list AccountLine) :=
  if String.eqb (JournalEntry.DetailType line) "JournalEntryLineDetail" then
    let detail := JournalEntry.JournalEntryLineDetail line in
    account_name <- _get_account_name_by_id self db
                      (Some (Ref.value (JournalEntry.AccountRef detail))) ;;
    let account_currency := get_account_currency db (Some account_name) in
    let (line_exchange_rate, line_amount) :=
      je_rate_and_amount account_currency trans_currency exchange_rate
        (JournalEntry.Amount line) in
    let posting_type := JournalEntry.PostingType detail in
    let (party_type, party) := je_party db account_name detail in
    field <- dict_index posting_type_field_mapping posting_type ;;
    let is_credit := String.eqb field "credit_in_account_currency" in
    Ok [{| account := Some account_name;
           party_type := or_None party_type;
           party := or_None party;
           reference_type := None;
           reference_name := None;
           exchange_rate := Some line_exchange_rate;
           debit_in_account_currency := if is_credit then None else Some line_amount;
           credit_in_account_currency := if is_credit then Some line_amount else None;
           cost_center := default_cost_center self;
           user_remark := Some (get_or (JournalEntry.Description line) "") |}]
  else Ok [].

Definition _get_je_accounts (self : QuickBooksMigrator) (db : Database)
    (lines : list JournalEntry.line) (trans_currency : string) (exchange_rate : Q)
    : result (list AccountLine) :=
  for_each (je_line_accounts self db trans_currency exchange_rate) lines.

(** Lines 976-989: a debit line for every tax line with a non-zero amount. *)
Definition je_tax_accounts (self : QuickBooksMigrator) (db : Database)
    (line : TaxLine.t) : result (list AccountLine) :=
  if truthy (TaxLine.Amount line) then
    a <- tax_account_name self db (TaxLine.TaxPercent line) ;;
    Ok [{| account := Some a;
           party_type := None; party := None;
           reference_type := None; reference_name := None;
           exchange_rate := None;
           debit_in_account_currency := Some (TaxLine.Amount line);
           credit_in_account_currency := None;
           cost_center := default_cost_center self;
           user_remark := None |}]
  else Ok [].

(** Lines 973-990, everything before the builder is called. *)
Definition journal_entry_accounts (self : QuickBooksMigrator) (db : Database)
    (journal_entry : JournalEntry.t) : result (list AccountLine) :=
  accounts <- _get_je_accounts self db (JournalEntry.Line journal_entry)
                (Ref.value (JournalEntry.CurrencyRef journal_entry))
                (JournalEntry.ExchangeRate journal_entry) ;;
  taxes <- match TxnTaxDetail.TaxLine (JournalEntry.TxnTaxDetail journal_entry) with
           | Some tax_lines => for_each (je_tax_accounts self db) tax_lines
           | None => Ok []
           end ;;
  Ok (accounts ++ taxes)%list.

(** ** Payment *)

Module LinkedTxn.
Record t := {
  TxnType : string;
  TxnId : string
}.
End LinkedTxn.

Module Payment.
Record line := {
  Amount : Q;
  LinkedTxn : list LinkedTxn.t
}.
Record t := {
  Id : string;
  DepositToAccountRef : option Ref.t;
  Line : list line;
  CurrencyRef : Ref.t;
  ExchangeRate : Q;
  TotalAmt : Q;
  TxnDate : string
}.
End Payment.

(** The local variables a settlement loop carries from one turn to the
    next; [None] is a variable not assigned yet.  ([credit_amt], [debit_amt],
    [total_amount] are assigned and never read.) *)
Module Locals.
Record t := {
  reference_type : option string;
  reference_name : option string;
  party : option (option string);
  party_account : option (option string);
  payment_currency : option string;
  accounts : list AccountLine
}.
Definition initial : t :=
  {| reference_type := None; reference_name := None; party := None;
     party_account := None; payment_currency := None; accounts := [] |}.
Definition set_reference (rtype rname : string) (p pa : option string) (fr : t) : t :=
  {| reference_type := Some rtype; reference_name := Some rname;
     party := Some p; party_account := Some pa;
     payment_currency := payment_currency fr; accounts := accounts fr |}.
Definition append (currency : option string) (l : AccountLine) (fr : t) : t :=
  {| reference_type := reference_type fr; reference_name := reference_name fr;
     party := party fr; party_account := party_account fr;
     payment_currency := currency; accounts := (accounts fr ++ [l])%list |}.
End Locals.

(** A loop whose body updates the carried locals or raises. *)
Fixpoint for_each_with {A S : Type} (body : S -> A -> result S) (fr : S)
    (xs : list A) : result S :=
  match xs with
  | [] => Ok fr
  | x :: xs' =>
      fr' <- body fr x ;;
      for_each_with body fr' xs'
  end.

(** [next(filter(lambda acc: acc.party_type == ptype, journal_entry.accounts))] *)
Definition next_party_line (ptype : string) (lines : list AccountLine)
    : result AccountLine :=
  match find (fun acc => opt_eqb (party_type acc) ptype) lines with
  | Some acc => Ok acc
  | None => Raise StopIteration
  end.

(** [frappe.get_doc("Journal Entry", {"quickbooks_id": ..., "company": ...})] *)
Definition get_journal_entry (db : Database) (quickbooks_id company : string)
    : result JournalEntryDoc.t :=
  match find (je_matches quickbooks_id company) (JournalEntries db) with
  | Some je => Ok je
  | None => Raise DoesNotExistError
  end.

(** Lines 1227-1228 and 1317-1318. *)
Definition cap (line_amount outstanding_amount : Q) : Q :=
  if negb (Qle_bool line_amount outstanding_amount) then outstanding_amount
  else line_amount.

(** Lines 1165-1211: which document the linked invoice was saved as. *)
Definition payment_reference (self : QuickBooksMigrator) (db : Database)
    (si_quickbooks_id : string) (fr : Locals.t) : result Locals.t :=
  fr1 <- (if exists_sales_invoice db si_quickbooks_id (company self) then
            sales_invoice <- first (filter (si_matches si_quickbooks_id (company self))
                                      (SalesInvoices db)) ;;
            Ok (Locals.set_reference "Sales Invoice"
                  (SalesInvoiceDoc.name sales_invoice)
                  (Some (SalesInvoiceDoc.customer sales_invoice))
                  (Some (SalesInvoiceDoc.debit_to sales_invoice)) fr)
          else Ok fr) ;;
  if exists_journal_entry db si_quickbooks_id (company self) then
    journal_entry <- get_journal_entry db si_quickbooks_id (company self) ;;
    customer_account_line <-
      next_party_line "Customer" (JournalEntryDoc.accounts journal_entry) ;;
    Ok (Locals.set_reference "Journal Entry"
          (JournalEntryDoc.name journal_entry)
          (party customer_account_line)
          (account customer_account_line) fr1)
  else Ok fr1.

(** Lines 1212-1245: the credit line of one linked invoice. *)
Definition payment_credit_line (self : QuickBooksMigrator)
    (payment : Payment.t) (account_currency : option string)
    (line_amount : Q) (party_ party_account_ : option string)
    (reference_type_ reference_name_ : string) : AccountLine :=
  let payment_currency := Ref.value (Payment.CurrencyRef payment) in
  let credit_exchange_rate :=
    if negb (opt_eqb account_currency payment_currency)
    then Payment.ExchangeRate payment else 1 in
  {| account := party_account_;
     party_type := Some "Customer";
     party := party_;
     reference_type := Some reference_type_;
     reference_name := Some reference_name_;
     exchange_rate :=
       Some (if opt_eqb account_currency payment_currency
             then Payment.ExchangeRate payment else 1);
     debit_in_account_currency := None;
     credit_in_account_currency := Some (flt2 (line_amount * credit_exchange_rate));
     cost_center := default_cost_center self;
     user_remark := None |}.

(** One turn of the loop at lines 1163-1245. *)
Definition payment_line (self : QuickBooksMigrator) (db : Database)
    (payment : Payment.t) (fr : Locals.t) (line : Payment.line) : result Locals.t :=
  linked_transaction <- first (Payment.LinkedTxn line) ;;
  if String.eqb (LinkedTxn.TxnType linked_transaction) "Invoice" then
    let si_quickbooks_id := "Invoice - " ++ LinkedTxn.TxnId linked_transaction in
    fr <- payment_reference self db si_quickbooks_id fr ;;
    let line_amount := Payment.Amount line in
    invoice <- first (filter (fun si =>
                   String.eqb (SalesInvoiceDoc.quickbooks_id si) si_quickbooks_id)
                 (SalesInvoices db)) ;;
    let outstanding_amount := SalesInvoiceDoc.outstanding_amount invoice in
    let line_amount := cap line_amount outstanding_amount in
    let payment_currency := Ref.value (Payment.CurrencyRef payment) in
    party_account_ <- read_local (Locals.party_account fr) ;;
    let account_currency := get_account_currency db party_account_ in
    party_ <- read_local (Locals.party fr) ;;
    reference_type_ <- read_local (Locals.reference_type fr) ;;
    reference_name_ <- read_local (Locals.reference_name fr) ;;
    Ok (Locals.append (Some payment_currency)
          (payment_credit_line self payment account_currency line_amount
             party_ party_account_ reference_type_ reference_name_) fr)
  else Ok fr.

(** Lines 1247-1257: the debit line on the deposit account. *)
Definition payment_deposit_line (self : QuickBooksMigrator) (payment : Payment.t)
    (deposit_account : string) (account_currency : option string)
    (payment_currency : string) : AccountLine :=
  let debit_exchange_rate :=
    if negb (opt_eqb account_currency payment_currency)
    then Payment.ExchangeRate payment else 1 in
  {| account := Some deposit_account;
     party_type := None; party := None;
     reference_type := None; reference_name := None;
     exchange_rate :=
       Some (if opt_eqb account_currency payment_currency
             then Payment.ExchangeRate payment else 1);
     debit_in_account_currency :=
       Some (flt2 (Payment.TotalAmt payment * debit_exchange_rate));
     credit_in_account_currency := None;
     cost_center := default_cost_center self;
     user_remark := None |}.

(** Lines 1258-1269 and 1389-1400: a line for every General Ledger row of the
    transaction on the exchange gain or loss account; [round2] tells whether
    the home amounts go through [flt(x, 2)].  The account is looked up by
    the number 95, which the database compares with the stored text; [x or 0]
    yields the number [x] either way. *)
Definition exchange_gain_lines (self : QuickBooksMigrator) (db : Database)
    (round2 : bool) (line : GLLine.t) : result (list AccountLine) :=
  if opt_eqb (GLLine.account line) "Exchange Gain or Loss - QB - NX" then
    a <- _get_account_name_by_id self db (Some "95") ;;
    Ok [{| account := Some a;
           party_type := None; party := None;
           reference_type := None; reference_name := None;
           exchange_rate := None;
           debit_in_account_currency :=
             Some (if round2 then flt2 (GLLine.debt_home_amt line)
                   else GLLine.debt_home_amt line);
           credit_in_account_currency :=
             Some (if round2 then flt2 (GLLine.credit_home_amt line)
                   else GLLine.credit_home_amt line);
           cost_center := default_cost_center self;
           user_remark := Some "Rounding adjustment to balance debit/credit" |}]
  else Ok [].

(** [self.general_ledger[kind][id]["lines"]] *)
Definition gl_lines (self : QuickBooksMigrator) (kind id : string)
    : result (list GLLine.t) :=
  by_id <- dict_index (general_ledger self) kind ;;
  entry <- dict_index by_id id ;;
  Ok (LedgerEntry.lines entry).

(** Lines 1161-1271 of [_save_payment], for a payment that has a
    [DepositToAccountRef]. *)
Definition payment_accounts (self : QuickBooksMigrator) (db : Database)
    (payment : Payment.t) (deposit_to : Ref.t) : result (list AccountLine) :=
  fr <- for_each_with (payment_line self db payment) Locals.initial
          (Payment.Line payment) ;;
  deposit_account <- _get_account_name_by_id self db (Some (Ref.value deposit_to)) ;;
  let account_currency := get_account_currency db (Some deposit_account) in
  payment_currency <- read_local (Locals.payment_currency fr) ;;
  let deposit :=
    payment_deposit_line self payment deposit_account account_currency
      payment_currency in
  lines <- gl_lines self "Payment" (Payment.Id payment) ;;
  gains <- for_each (exchange_gain_lines self db true) lines ;;
  Ok (Locals.accounts fr ++ [deposit] ++ gains)%list.

(** ** BillPayment *)

Module BillPayment.
Record check_payment := {
  BankAccountRef : option Ref.t
}.
Record credit_card_payment := {
  CCAccountRef : Ref.t
}.
Record line := {
  Amount : Q;
  LinkedTxn : list LinkedTxn.t
}.
Record t := {
  Id : string;
  Line : list line;
  PayType : string;
  CheckPayment : option check_payment;
  CreditCardPayment : option credit_card_payment;
  CurrencyRef : Ref.t;
  ExchangeRate : Q;
  TotalAmt : Q;
  TxnDate : string
}.
End BillPayment.

(** [d[k]] on a key held as an optional field. *)
Definition index_key {A : Type} (v : option A) : result A :=
  match v with
  | Some a => Ok a
  | None => Raise KeyError
  end.

Definition supplier_line (self : QuickBooksMigrator) (party_ party_account_ : option string)
    (reference_type_ reference_name_ : string) (amount : Q) : AccountLine :=
  {| account := party_account_;
     party_type := Some "Supplier";
     party := party_;
     reference_type := Some reference_type_;
     reference_name := Some reference_name_;
     exchange_rate := None;
     debit_in_account_currency := Some amount;
     credit_in_account_currency := None;
     cost_center := default_cost_center self;
     user_remark := None |}.

(** One turn of the loop at lines 1282-1370. *)
Definition bill_payment_line (self : QuickBooksMigrator) (db : Database)
    (bill_payment : BillPayment.t) (fr : Locals.t) (line : BillPayment.line)
    : result Locals.t :=
  linked_transaction <- first (BillPayment.LinkedTxn line) ;;
  if String.eqb (LinkedTxn.TxnType linked_transaction) "Bill" then
    let pi_quickbooks_id := "Bill - " ++ LinkedTxn.TxnId linked_transaction in
    fr <- (if exists_purchase_invoice db pi_quickbooks_id (company self) then
             purchase_invoice <-
               first (filter (pi_matches pi_quickbooks_id (company self))
                        (PurchaseInvoices db)) ;;
             Ok (Locals.set_reference "Purchase Invoice"
                   (PurchaseInvoiceDoc.name purchase_invoice)
                   (Some (PurchaseInvoiceDoc.supplier purchase_invoice))
                   (Some (PurchaseInvoiceDoc.credit_to purchase_invoice)) fr)
           else Ok fr) ;;
    party_account_ <- read_local (Locals.party_account fr) ;;
    let account_currency := get_account_currency db party_account_ in
    invoice <- first (filter (fun pi =>
                   String.eqb (PurchaseInvoiceDoc.quickbooks_id pi) pi_quickbooks_id)
                 (PurchaseInvoices db)) ;;
    let outstanding_amount := PurchaseInvoiceDoc.outstanding_amount invoice in
    let line_amount := BillPayment.Amount line in
    let conversion_rate :=
      if truthy (PurchaseInvoiceDoc.conversion_rate invoice)
      then PurchaseInvoiceDoc.conversion_rate invoice else 1 in
    let line_amount := cap line_amount outstanding_amount in
    let line_exchange_rate :=
      if negb (opt_eqb account_currency (Ref.value (BillPayment.CurrencyRef bill_payment)))
      then conversion_rate else 1 in
    party_ <- read_local (Locals.party fr) ;;
    reference_type_ <- read_local (Locals.reference_type fr) ;;
    reference_name_ <- read_local (Locals.reference_name fr) ;;
    Ok (Locals.append (Locals.payment_currency fr)
          (supplier_line self party_ party_account_ reference_type_ reference_name_
             (flt2 (line_amount * line_exchange_rate))) fr)
  else
    let je_quickbooks_id :=
      LinkedTxn.TxnType linked_transaction ++ " - "
      ++ LinkedTxn.TxnId linked_transaction in
    fr <- (if exists_journal_entry db je_quickbooks_id (company self) then
             journal_entry <- get_journal_entry db je_quickbooks_id (company self) ;;
             supplier_account_line <-
               next_party_line "Supplier" (JournalEntryDoc.accounts journal_entry) ;;
             Ok (Locals.set_reference "Journal Entry"
                   (JournalEntryDoc.name journal_entry)
                   (party supplier_account_line)
                   (account supplier_account_line) fr)
           else Ok fr) ;;
    let line_amount := BillPayment.Amount line in
    party_ <- read_local (Locals.party fr) ;;
    reference_type_ <- read_local (Locals.reference_type fr) ;;
    reference_name_ <- read_local (Locals.reference_name fr) ;;
    party_account_ <- read_local (Locals.party_account fr) ;;
    Ok (Locals.append (Locals.payment_currency fr)
          (supplier_line self party_ party_account_ reference_type_ reference_name_
             line_amount) fr).

(** Lines 1372-1375: [bank_account_id] is assigned on two of the pay types
    only; the outer [None] is the variable left unassigned. *)
Definition bill_payment_bank_account_id (bill_payment : BillPayment.t)
    : result (option (option string)) :=
  if String.eqb (BillPayment.PayType bill_payment) "Check" then
    check <- index_key (BillPayment.CheckPayment bill_payment) ;;
    Ok (Some (option_map Ref.value (BillPayment.BankAccountRef check)))
  else if String.eqb (BillPayment.PayType bill_payment) "CreditCard" then
    card <- index_key (BillPayment.CreditCardPayment bill_payment) ;;
    Ok (Some (Some (Ref.value (BillPayment.CCAccountRef card))))
  else Ok None.

(** Lines 1280-1402 of [_save_bill_payment]. *)
Definition bill_payment_accounts (self : QuickBooksMigrator) (db : Database)
    (bill_payment : BillPayment.t) : result (list AccountLine) :=
  fr <- for_each_with (bill_payment_line self db bill_payment) Locals.initial
          (BillPayment.Line bill_payment) ;;
  assigned <- bill_payment_bank_account_id bill_payment ;;
  bank_account_id <- read_local assigned ;;
  bank_account <- _get_account_name_by_id self db bank_account_id ;;
  let account_currency := get_account_currency db (Some bank_account) in
  let bpayment_currency := Ref.value (BillPayment.CurrencyRef bill_payment) in
  let exchange_rate_ :=
    if negb (opt_eqb account_currency bpayment_currency)
    then BillPayment.ExchangeRate bill_payment else 1 in
  let bank :=
    {| account := Some bank_account;
       party_type := None; party := None;
       reference_type := None; reference_name := None;
       exchange_rate := None;
       debit_in_account_currency := None;
       credit_in_account_currency :=
         Some (flt2 (BillPayment.TotalAmt bill_payment * exchange_rate_));
       cost_center := default_cost_center self;
       user_remark := None |} in
  lines <- gl_lines self "Bill Payment (Cheque)" (BillPayment.Id bill_payment) ;;
  gains <- for_each (exchange_gain_lines self db false) lines ;;
  Ok (Locals.accounts fr ++ [bank] ++ gains)%list.

(** ** Purchase *)

Module Purchase.
Record line := {
  DetailType : string;
  Amount : Q;
  Description : option string;
  AccountBasedExpenseLineDetail_AccountRef : Ref.t;
  ItemBasedExpenseLineDetail_ItemRef : Ref.t
}.
Record t := {
  Id : string;
  AccountRef : Ref.t;
  CurrencyRef : Ref.t;
  ExchangeRate : Q;
  TotalAmt : Q;
  PrivateNote : option string;
  Line : list line;
  TxnTaxDetail : option TxnTaxDetail.t;
  Credit : bool;
  TxnDate : string
}.
End Purchase.

(** Lines 1414-1424, 1446-1455: the amount and the exchange rate of a line on
    an account whose currency is [account_currency]. *)
Definition purchase_amount (purchase : Purchase.t) (account_currency : option string)
    (amount : Q) : Q :=
  let purchase_currency := Ref.value (Purchase.CurrencyRef purchase) in
  let exchange_rate_ :=
    if negb (opt_eqb account_currency purchase_currency)
    then Purchase.ExchangeRate purchase else 1 in
  amount * exchange_rate_.

Definition purchase_line_rate (purchase : Purchase.t) (account_currency : option string) : Q :=
  if opt_eqb account_currency (Ref.value (Purchase.CurrencyRef purchase))
  then Purchase.ExchangeRate purchase else 1.

(** [frappe.get_doc("Item", {...}).item_defaults[0].expense_account] *)
Definition item_expense_account (self : QuickBooksMigrator) (db : Database)
    (quickbooks_id : string) : result (option string) :=
  match find (fun i => String.eqb (ItemDoc.quickbooks_id i) quickbooks_id
                       && String.eqb (ItemDoc.company i) (company self)) (Items db) with
  | Some item => first (ItemDoc.item_defaults item)
  | None => Raise DoesNotExistError
  end.

(** One turn of the loop at lines 1428-1456; the carried local is [account]. *)
Definition purchase_line (self : QuickBooksMigrator) (db : Database)
    (purchase : Purchase.t) (fr : option (option string) * list AccountLine)
    (line : Purchase.line) : result (option (option string) * list AccountLine) :=
  let (account_, accounts) := fr in
  account_ <- (if String.eqb (Purchase.DetailType line) "AccountBasedExpenseLineDetail" then
                 a <- _get_account_name_by_id self db
                        (Some (Ref.value (Purchase.AccountBasedExpenseLineDetail_AccountRef line))) ;;
                 Ok (Some (Some a))
               else if String.eqb (Purchase.DetailType line) "ItemBasedExpenseLineDetail" then
                 a <- item_expense_account self db
                        (Ref.value (Purchase.ItemBasedExpenseLineDetail_ItemRef line)) ;;
                 Ok (Some a)
               else Ok account_) ;;
  a <- read_local account_ ;;
  let account_currency := get_account_currency db a in
  if truthy (Purchase.Amount line) then
    Ok (account_,
        (accounts ++
         [{| account := a;
             party_type := None; party := None;
             reference_type := None; reference_name := None;
             exchange_rate := Some (purchase_line_rate purchase account_currency);
             debit_in_account_currency :=
               Some (purchase_amount purchase account_currency (Purchase.Amount line));
             credit_in_account_currency := None;
             cost_center := default_cost_center self;
             user_remark := Some (get_or (Purchase.Description line) "") |}])%list)
  else Ok (account_, accounts).

(** Lines 1459-1472. *)
Definition purchase_tax_accounts (self : QuickBooksMigrator) (db : Database)
    (purchase : Purchase.t) (line : TaxLine.t) : result (list AccountLine) :=
  if truthy (TaxLine.Amount line) then
    a <- tax_account_name self db (TaxLine.TaxPercent line) ;;
    Ok [{| account := Some a;
           party_type := None; party := None;
           reference_type := None; reference_name := None;
           exchange_rate := None;
           debit_in_account_currency :=
             Some (TaxLine.Amount line * Purchase.ExchangeRate purchase);
           credit_in_account_currency := None;
           cost_center := default_cost_center self;
           user_remark := None |}]
  else Ok [].

(** Lines 1476-1482: a refund swaps the debit and the credit of every line. *)
Definition flip (l : AccountLine) : result AccountLine :=
  match debit_in_account_currency l with
  | Some d =>
      Ok {| account := account l; party_type := party_type l; party := party l;
            reference_type := reference_type l; reference_name := reference_name l;
            exchange_rate := exchange_rate l;
            debit_in_account_currency := None;
            credit_in_account_currency := Some d;
            cost_center := cost_center l; user_remark := user_remark l |}
  | None =>
      c <- index_key (credit_in_account_currency l) ;;
      Ok {| account := account l; party_type := party_type l; party := party l;
            reference_type := reference_type l; reference_name := reference_name l;
            exchange_rate := exchange_rate l;
            debit_in_account_currency := Some c;
            credit_in_account_currency := None;
            cost_center := cost_center l; user_remark := user_remark l |}
  end.

(** Lines 1417-1425: the credit line on the paying account. *)
Definition purchase_credit_line (self : QuickBooksMigrator) (db : Database)
    (purchase : Purchase.t) (account_name : string) : AccountLine :=
  let account_currency := get_account_currency db (Some account_name) in
  {| account := Some account_name;
     party_type := None; party := None;
     reference_type := None; reference_name := None;
     exchange_rate := Some (purchase_line_rate purchase account_currency);
     debit_in_account_currency := None;
     credit_in_account_currency :=
       Some (purchase_amount purchase account_currency (Purchase.TotalAmt purchase));
     cost_center := default_cost_center self;
     user_remark := Some (get_or (Purchase.PrivateNote purchase) "") |}.

(** Lines 1417-1484, once [accounts] has been assigned. *)
Definition purchase_accounts (self : QuickBooksMigrator) (db : Database)
    (purchase : Purchase.t) (account_name : string) : result (list AccountLine) :=
  fr <- for_each_with (purchase_line self db purchase)
          (None, [purchase_credit_line self db purchase account_name])
          (Purchase.Line purchase) ;;
  taxes <- match Purchase.TxnTaxDetail purchase with
           | Some detail =>
               tax_lines <- index_key (TxnTaxDetail.TaxLine detail) ;;
               for_each (purchase_tax_accounts self db purchase) tax_lines
           | None => Ok []
           end ;;
  let accounts := (snd fr ++ taxes)%list in
  if Purchase.Credit purchase then
    for_each (fun l => l' <- flip l ;; Ok [l']) accounts
  else Ok accounts.

(** ** Deposit *)

Module Deposit.
Record entity := {
  type : option string;     (* the key spelled [type] *)
  Type_ : option string;    (* the key spelled [Type] *)
  name : string
}.
Record line := {
  Amount : Q;
  LinkedTxn : bool;         (* whether the key is present *)
  Description : option string;
  DepositLineDetail_AccountRef : Ref.t;
  DepositLineDetail_Entity : option entity
}.
Record cash_back := {
  CashBack_AccountRef : Ref.t;
  CashBack_Amount : Q
}.
Record t := {
  Id : string;
  DepositToAccountRef : Ref.t;
  CurrencyRef : Ref.t;
  ExchangeRate : Q;
  TotalAmt : Q;
  PrivateNote : option string;
  Line : list line;
  CashBack : option cash_back;
  TxnDate : string
}.
End Deposit.

Definition upper_ascii (c : ascii) : ascii :=
  let n := nat_of_ascii c in
  if (97 <=? n)%nat && (n <=? 122)%nat then ascii_of_nat (n - 32) else c.

(** [s.upper()] on ASCII text. *)
Fixpoint upper (s : string) : string :=
  match s with
  | EmptyString => EmptyString
  | String c s' => String (upper_ascii c) (upper s')
  end.

(** Lines 1526-1537: party and party type of a Deposit line. *)
Definition deposit_party (db : Database) (account_name : string)
    (line : Deposit.line) : result (option string * option string) :=
  if in_strings account_name (account_names_of_type db ["Payable"; "Receivable"]) then
    match Deposit.DepositLineDetail_Entity line with
    | Some ent =>
        lower_key <- index_key (Deposit.type ent) ;;
        party_type <-
          (if String.eqb (upper lower_key) "VENDOR" then Ok (Some "Supplier")
           else
             upper_key <- index_key (Deposit.Type_ ent) ;;
             if String.eqb (upper upper_key) "CUSTOMER" then Ok (Some "Customer")
             else Ok None) ;;
        Ok (party_type, Some (strip_party (Deposit.name ent)))
    | None => Ok (None, None)
    end
  else Ok (None, None).

(** One turn of the loop at lines 1511-1548. *)
Definition deposit_line (self : QuickBooksMigrator) (db : Database)
    (deposit : Deposit.t) (line : Deposit.line) : result (list AccountLine) :=
  let deposit_currency := Ref.value (Deposit.CurrencyRef deposit) in
  if Deposit.LinkedTxn line then
    Ok [{| account := undeposited_funds_account self;
           party_type := None; party := None;
           reference_type := None; reference_name := None;
           exchange_rate := None;
           debit_in_account_currency := None;
           credit_in_account_currency := Some (Deposit.Amount line);
           cost_center := default_cost_center self;
           user_remark := None |}]
  else
    account_name <- _get_account_name_by_id self db
                      (Some (Ref.value (Deposit.DepositLineDetail_AccountRef line))) ;;
    let account_currency := get_account_currency db (Some account_name) in
    let exchange_rate_ :=
      if negb (opt_eqb account_currency deposit_currency)
      then Deposit.ExchangeRate deposit else 1 in
    pp <- deposit_party db account_name line ;;
    Ok [{| account := Some account_name;
           party_type := fst pp;
           party := snd pp;
           reference_type := None; reference_name := None;
           exchange_rate :=
             Some (if opt_eqb account_currency deposit_currency
                   then Deposit.ExchangeRate deposit else 1);
           debit_in_account_currency := None;
           credit_in_account_currency := Some (Deposit.Amount line * exchange_rate_);
           cost_center := default_cost_center self;
           user_remark := Some (get_or (Deposit.Description line) "") |}].

(** Lines 1500-1560, once [accounts] has been assigned. *)
Definition deposit_accounts (self : QuickBooksMigrator) (db : Database)
    (deposit : Deposit.t) (account_name : string) : result (list AccountLine) :=
  let deposit_currency := Ref.value (Deposit.CurrencyRef deposit) in
  let account_currency := get_account_currency db (Some account_name) in
  let exchange_rate_ :=
    if negb (opt_eqb account_currency deposit_currency)
    then Deposit.ExchangeRate deposit else 1 in
  let bank :=
    {| account := Some account_name;
       party_type := None; party := None;
       reference_type := None; reference_name := None;
       exchange_rate :=
         Some (if opt_eqb account_currency deposit_currency
               then Deposit.ExchangeRate deposit else 1);
       debit_in_account_currency := Some (Deposit.TotalAmt deposit * exchange_rate_);
       credit_in_account_currency := None;
       cost_center := default_cost_center self;
       user_remark := Some (get_or (Deposit.PrivateNote deposit) "") |} in
  credits <- for_each (deposit_line self db deposit) (Deposit.Line deposit) ;;
  cash <- match Deposit.CashBack deposit with
          | Some cb =>
              a <- _get_account_name_by_id self db
                     (Some (Ref.value (Deposit.CashBack_AccountRef cb))) ;;
              Ok [{| account := Some a;
                     party_type := None; party := None;
                     reference_type := None; reference_name := None;
                     exchange_rate := None;
                     debit_in_account_currency := Some (Deposit.CashBack_Amount cb);
                     credit_in_account_currency := None;
                     cost_center := default_cost_center self;
                     user_remark := None |}]
          | None => Ok []
          end ;;
  Ok ([bank] ++ credits ++ cash)%list.

(** ** Entries rebuilt from the General Ledger report *)

Definition accounts_map : list (string * string) := [
  ("A. Majid Rumani Loan Account - QB - NX", "Short Term Investment:A. Majid Rumani Loan Account - NX");
  ("Majeed Bhai Loan Account - QB - NX", "Short Term Investment:Majeed Bhai Loan Account - NX");
  ("Nasir Rais - Short Term Borrowings - QB - NX", "Nasir Rais - Short Term Borrowings - NX");
  ("Ankit Sinha - Short Term Borrowings - QB - NX", "Ankit Sinha - Short Term Borrowings - NX");
  ("Brijesh Loan Account - QB - NX", "Short Term Investment:Brijesh Loan Account - NX");
  ("ADCB 12033795820001 AED02 - QB - NX", "ADCB 12033795820001 AED02 - NX");
  ("ADCB 12033795920001 AED01 - QB - NX", "ADCB 12033795920001 AED01 - NX");
  ("ADCB Loan - QB - NX", "ADCB Loan - NX");
  ("ADCB USD (IN AED) 23033795830001 - QB - NX", "ADCB USD (IN AED) 23033795830001 - NX");
  ("Accounts Payable (A/P) - QB - NX", "Creditors - NX");
  ("Accounts Payable (A/P) - USD - QB - NX", "Creditors USD - NX");
  ("Accounts Payable (A/P) - INR - QB - NX", "Creditors INR - NX");
  ("Accounts Payable (A/P) - OMR - QB - NX", "Creditors OMR - NX");
  ("Accounts Payable (A/P) - EUR - QB - NX", "Creditors EUR - NX");
  ("Accounts Payable (A/P) - GBP - QB - NX", "Creditors GBP - NX");
  ("Accounts Payable (A/P) - KWD - QB - NX", "Creditors KWD - NX");
  ("Accounts Payable (A/P) - QAR - QB - NX", "Creditors QAR - NX");
  ("Office Expense - QATAR - QB - NX", "Office Expense - QATAR - NX");
  ("Accounts Receivable (A/R) - QB - NX", "Debtors - NX");
  ("Accounts Receivable (A/R) - USD - QB - NX", "Debtors USD - NX");
  ("Akbar Loan Account - QB - NX", "Short Term Investment:Akbar Loan Account - NX");
  ("Appliances And Devices - Accumulated Depreciation - QB - NX", "Accumulated Depreciation - NX");
  ("Arif Kandathil - QB - NX", "Payroll Expenses - NX");
  ("BONUS PAID - QB - NX", "Bonus Paid - NX");
  ("Bank charges - QB - NX", "Bank charges - NX");
  ("CCTV Camera - Accumulated Depreciation - QB - NX", "Accumulated Depreciation - NX");
  ("CONSUMABLES & TOOLS - QB - NX", "Consumables & Tools - NX");
  ("Cash on hand - QB - NX", "Cash - NX");
  ("Computer And Accessories - Accumulated Depreciation - QB - NX", "Accumulated Depreciation - NX");
  ("Customs Charge - QB - NX", "Customs Charge - NX");
  ("DISCOUNT RECEIVED - QB - NX", "Discount Received - NX");
  ("Depreciation - Appliances And Devices - QB - NX", "Depreciation - Appliances And Devices - NX");
  ("Depreciation - CCTV Camera - QB - NX", "Depreciation - CCTV Camera - NX");
  ("Depreciation - Computer & Accessories - QB - NX", "Depreciation - Computer & Accessories - NX");
  ("Depreciation - Furniture and Fixtures - QB - NX", "Depreciation - Furniture and Fixtures - NX");
  ("Depreciation - Machinery and Equipment - QB - NX", "Depreciation - Machinery and Equipment - NX");
  ("Depreciation - Motor Vehicle - QB - NX", "Depreciation - Motor Vehicle - NX");
  ("Depreciation - Software - QB - NX", "Depreciation - Software - NX");
  ("Dividend disbursed - QB - NX", "Dividend Disbursed - NX");
  ("Dues and subscriptions - QB - NX", "Dues and subscriptions - NX");
  ("Electricity & Water Expense - QB - NX", "Electricity & Water Expense - NX");
  ("Exchange Gain or Loss - QB - NX", "Exchange Gain/Loss - NX");
  ("FUEL EXPENSE - QB - NX", "Fuel Expense - NX");
  ("Faisal Loan Account - QB - NX", "Short Term Investment:Faisal Loan Account - NX");
  ("Furniture and Fixtures - Accumulated Depreciation - QB - NX", "Accumulated Depreciation - NX");
  ("Furniture and Fixtures - QB - NX", "Furnitures and Fixtures - NX");
  ("Gratuity Expense - QB - NX", "Gratuity Expense - NX");
  ("Insurance - General - QB - NX", "Insurance - NX");
  ("Interest expense - QB - NX", "Interest Expense - NX");
  ("Interest income - QB - NX", "Interest income - NX");
  ("Inventory - QB - NX", "Inventory - NX");
  ("Junaid Bhai Loan Account - QB - NX", "Short Term Investment:Junaid Bhai Loan Account - NX");
  ("Khaan Saab Loan Account - QB - NX", "Short Term Investment:Khaan Saab Loan Account - NX");
  ("LOAN TO STAFF - QB - NX", "LOAN TO STAFF - NX");
  ("Legal and professional fees - QB - NX", "Legal Expenses - NX");
  ("Commissions and fees - QB - NX", "Commissions and fees - NX");
  ("Machinery and equipment - Accumulated Depreciation - QB - NX", "Accumulated Depreciation - NX");
  ("Machinery and equipment - QB - NX", "Machinery and equipment - NX");
  ("PRELIMINARY EXPENSE - QB - NX", "Preliminary Expense - NX");
  ("Computer And Accessories - QB - NX", "Computer And Accessories - NX");
  ("Insurance - Disability - QB - NX", "Insurance - NX");
  ("Utilities - QB - NX", "Utilities - NX");
  ("Other Expense - QB - NX", "Other Expense - NX");
  ("Other operating income (expenses) - QB - NX", "Other operating income (expenses) - NX");
  ("Bad debts - QB - NX", "Bad debts - NX");
  ("Other selling expenses - QB - NX", "Other selling expenses - NX");
  ("Meals and entertainment - QB - NX", "Meals and entertainment - NX");
  ("Motor Vehicle - Accumulated Depreciation - QB - NX", "Accumulated Depreciation - NX");
  ("Motor Vehicle - QB - NX", "Motor Vehicle - NX");
  ("Uncategorised Expense - QB - NX", "Uncategorised Expense - NX");
  ("Uncategorised Income - QB - NX", "Uncategorised Income - NX");
  ("OFFICE REFRESHMENTS - QB - NX", "Office Refreshments - NX");
  ("Office expenses - QB - NX", "Office expenses - NX");
  ("Other general and administrative expenses - QB - NX", "Other general and administrative expenses - NX");
  ("Overhead - COS - QB - NX", "Overhead - COS - NX");
  ("Payroll Expenses - 1 - QB - NX", "Payroll Expenses - NX");
  ("Petty Cash - QB - NX", "Petty Cash - NX");
  ("Prepaid Visa Expense - QB - NX", "Prepaid Visa Expense - NX");
  ("Prepaid expenses - QB - NX", "Prepaid expenses - NX");
  ("Provision for Gratuity - QB - NX", "Provision for Gratuity - NX");
  ("Purchases - QB - NX", "Purchases - NX");
  ("ROUNDOFF - QB - NX", "Round Off - NX");
  ("Rent or lease payments - QB - NX", "Rent or lease payments - NX");
  ("Repairs and Maintenance - QB - NX", "Repairs and Maintenance - NX");
  ("Retained Earnings - QB - NX", "Retained Earnings - NX");
  ("Salim Lakdawala Loan Account - QB - NX", "Short Term Investment:Salim Lakdawala Loan Account - NX");
  ("Samiuddin Siddqi Loan Account - QB - NX", "Short Term Investment:Samiuddin Siddqi Loan Account - NX");
  ("Security Deposits - QB - NX", "Security Deposits - NX");
  ("Shipping and delivery expense - QB - NX", "Shipping and delivery - NX");
  ("Short Term Investment - 1 - QB - NX", "Short Term Investment - NX");
  ("Software - Accumulated Depreciation - QB - NX", "Accumulated Depreciation - NX");
  ("Software - QB - NX", "Software - NX");
  ("CCTV Camera - 1 - QB - NX", "CCTV Camera - NX");
  ("Appliances And Devices - QB - NX", "Appliances And Devices - NX");
  ("Staff Visa Expense - U.A.E - QB - NX", "Staff Visa Expense - U.A.E - NX");
  ("Staff Welfare Expense - QB - NX", "Staff Welfare Expense - NX");
  ("Stationery and printing - QB - NX", "Print and Stationery - NX");
  ("Supplies - QB - NX", "Supplies - NX");
  ("Suspense Account - QB - NX", "Suspense Account - NX");
  ("Telephone expense - QB - NX", "Telephone Expenses - NX");
  ("Travel expenses - general and admin expenses - QB - NX", "Travel expenses - general and admin expenses - NX");
  ("VAT Control - QB - NX", "VAT Control - NX");
  ("VAT Payable / Receivable - QB - NX", "VAT Payable / Receivable - NX");
  ("VAT Suspense - QB - NX", "VAT Suspense - NX");
  ("VISA CANCELLATION EXPENSE - QB - NX", "VISA CANCELLATION EXPENSE - NX");
  ("VISIT VISA EXPENSE - QB - NX", "VISIT VISA EXPENSE - NX");
  ("Waste Management Expense - QB - NX", "Waste Management Expense - NX");
  ("Sales - QB - NX", "Sales - NX");
  ("Discounts given - QB - NX", "Discounts given - NX");
  ("DESKTOP / LAPTOP - 1 - QB - NX", "DESKTOP / LAPTOP - NX");
  ("AMC EXPENSES - QB - NX", "AMC EXPENSES - NX");
  ("Website Development and Maintenance Charges - QB - NX", "Website Development and Maintenance Charges - NX");
  ("AUDIT EXPENSE - QB - NX", "AUDIT EXPENSE - NX")
].

(** Lines 1772-1774: a line whose four amounts are all zero is skipped. *)
Definition gl_line_is_zero (line : GLLine.t) : bool :=
  Qeq_bool (GLLine.credit line) 0 && Qeq_bool (GLLine.debit line) 0
  && Qeq_bool (GLLine.credit_home_amt line) 0
  && Qeq_bool (GLLine.debt_home_amt line) 0.

(** [accounts_map[line["account"]]] *)
Definition mapped_account (line : GLLine.t) : result string :=
  match GLLine.account line with
  | Some a => dict_index accounts_map a
  | None => Raise KeyError
  end.

Definition opt_in_strings (s : option string) (l : list string) : bool :=
  match s with
  | Some s' => in_strings s' l
  | None => false
  end.

(** Lines 1776-1789: party and party type of a General Ledger line. *)
Definition gl_party (db : Database) (line : GLLine.t) : option string * option string :=
  if nonempty (GLLine.vendor line)
     && opt_in_strings (GLLine.account line) (account_names_of_type db ["Payable"]) then
    (Some "Supplier", Some (strip_party (GLLine.vendor line)))
  else if nonempty (GLLine.customer line)
     && opt_in_strings (GLLine.account line) (account_names_of_type db ["Receivable"]) then
    (Some "Customer", Some (strip_party (GLLine.customer line)))
  else (None, None).

(** Lines 1793-1796: [true] is the credit side. *)
Definition gl_amount_type (line : GLLine.t) : bool :=
  if negb (Qeq_bool (GLLine.credit line) 0) || negb (Qeq_bool (GLLine.debit line) 0)
  then truthy (GLLine.credit line)
  else truthy (GLLine.credit_home_amt line).

(** Lines 1797-1804: the amount in account currency. *)
Definition gl_amount (line : GLLine.t) (account_currency : option string) : Q :=
  let is_credit := gl_amount_type line in
  let amount := if is_credit then GLLine.credit line else GLLine.debit line in
  let home := if is_credit then GLLine.credit_home_amt line
              else GLLine.debt_home_amt line in
  if opt_eqb account_currency (GLLine.currency line) then
    if truthy amount then amount else home
  else home.

(** The locals of the first loop of [__save_ledger_entry_as_je]. *)
Record LedgerLocals := {
  total_debit_company_currency : Q;
  total_credit_company_currency : Q;
  ledger_accounts : list AccountLine
}.

(** One turn of the loop at lines 1771-1813. *)
Definition ledger_line (self : QuickBooksMigrator) (db : Database)
    (fr : LedgerLocals) (line : GLLine.t) : result LedgerLocals :=
  if gl_line_is_zero line then Ok fr
  else
    mapped <- mapped_account line ;;
    let (party_type_, party_) := gl_party db line in
    let account_currency := get_account_currency db (GLLine.account line) in
    let is_credit := gl_amount_type line in
    let amount := gl_amount line account_currency in
    let account_line :=
      {| account := Some mapped;
         party_type := party_type_;
         party := party_;
         reference_type := None; reference_name := None;
         exchange_rate := None;
         debit_in_account_currency := if is_credit then None else Some amount;
         credit_in_account_currency := if is_credit then Some amount else None;
         cost_center := default_cost_center self;
         user_remark := Some (GLLine.memo line) |} in
    let in_company_currency := opt_eqb account_currency (company_currency self) in
    Ok {| total_debit_company_currency :=
            if in_company_currency && negb is_credit
            then total_debit_company_currency fr + amount
            else total_debit_company_currency fr;
          total_credit_company_currency :=
            if in_company_currency && is_credit
            then total_credit_company_currency fr + amount
            else total_credit_company_currency fr;
          ledger_accounts := (ledger_accounts fr ++ [account_line])%list |}.

(** One turn of the loop at lines 1815-1821: the exchange rate of a line on
    an account that is not in company currency. *)
Definition ledger_exchange_rate (self : QuickBooksMigrator) (db : Database)
    (difference : Q) (account_line : AccountLine) : result (list AccountLine) :=
  if negb (opt_eqb (get_account_currency db (account account_line))
             (company_currency self)) then
    amount <- match credit_in_account_currency account_line with
              | Some c => Ok c
              | None => index_key (debit_in_account_currency account_line)
              end ;;
    if Qeq_bool amount 0 then Raise ZeroDivisionError
    else
      Ok [{| account := account account_line;
             party_type := party_type account_line;
             party := party account_line;
             reference_type := reference_type account_line;
             reference_name := reference_name account_line;
             exchange_rate := Some (Qabs difference / amount);
             debit_in_account_currency := debit_in_account_currency account_line;
             credit_in_account_currency := credit_in_account_currency account_line;
             cost_center := cost_center account_line;
             user_remark := user_remark account_line |}]
  else Ok [account_line].

(** Lines 1766-1822 of [__save_ledger_entry_as_je]. *)
Definition ledger_entry_accounts (self : QuickBooksMigrator) (db : Database)
    (ledger_entry : LedgerEntry.t) : result (list AccountLine) :=
  fr <- for_each_with (ledger_line self db)
          {| total_debit_company_currency := 0;
             total_credit_company_currency := 0;
             ledger_accounts := [] |}
          (LedgerEntry.lines ledger_entry) ;;
  for_each (ledger_exchange_rate self db
              (total_debit_company_currency fr - total_credit_company_currency fr))
    (ledger_accounts fr).

(** ** The transformers

    Each one computes its posting lines from the record and the database and
    hands them to the builder.  Where the source wraps the computation in
    [try], an exception is logged and swallowed; a handler that dumps a local
    variable not assigned yet raises in turn. *)

Section Transformers.
Context {storage : StorageCollaborator}.

(** [_save_journal_entry], lines 923-992.  No statement of it is inside a
    [try]: what [journal_entry_accounts] raises leaves the method. *)
Definition _save_journal_entry (self : QuickBooksMigrator)
    (journal_entry : JournalEntry.t) : Proc :=
  fun db =>
    let quickbooks_id := "Journal Entry - " ++ JournalEntry.Id journal_entry in
    match journal_entry_accounts self db journal_entry with
    | Raise e => (db, Raise e)
    | Ok accounts =>
        __save_journal_entry self quickbooks_id accounts
          (JournalEntry.TxnDate journal_entry) db
    end.

(** [_save_payment], lines 1151-1274. *)
Definition _save_payment (self : QuickBooksMigrator) (payment : Payment.t) : Proc :=
  fun db =>
    let quickbooks_id := "Payment - " ++ Payment.Id payment in
    match Payment.DepositToAccountRef payment with
    | None => (db, Ok tt)
    | Some deposit_to =>
        match payment_accounts self db payment deposit_to with
        | Ok accounts =>
            __save_journal_entry self quickbooks_id accounts
              (Payment.TxnDate payment) db
        | Raise e => (_log_error e quickbooks_id db, Ok tt)
        end
    end.

(** [_save_bill_payment], lines 1276-1405. *)
Definition _save_bill_payment (self : QuickBooksMigrator)
    (bill_payment : BillPayment.t) : Proc :=
  fun db =>
    let quickbooks_id := "BillPayment - " ++ BillPayment.Id bill_payment in
    match bill_payment_accounts self db bill_payment with
    | Ok accounts =>
        __save_journal_entry self quickbooks_id accounts
          (BillPayment.TxnDate bill_payment) db
    | Raise e => (_log_error e quickbooks_id db, Ok tt)
    end.

(** [_save_purchase], lines 1407-1488.  [accounts] is assigned after the
    paying account has been resolved; the handler dumps it. *)
Definition _save_purchase (self : QuickBooksMigrator) (purchase : Purchase.t) : Proc :=
  fun db =>
    let quickbooks_id := "Purchase - " ++ Purchase.Id purchase in
    match _get_account_name_by_id self db
            (Some (Ref.value (Purchase.AccountRef purchase))) with
    | Raise _ => (db, Raise UnboundLocalError)
    | Ok account_name =>
        match purchase_accounts self db purchase account_name with
        | Ok accounts =>
            __save_journal_entry self quickbooks_id accounts
              (Purchase.TxnDate purchase) db
        | Raise e => (_log_error e quickbooks_id db, Ok tt)
        end
    end.

(** [_save_deposit], lines 1490-1563, with the same handler. *)
Definition _save_deposit (self : QuickBooksMigrator) (deposit : Deposit.t) : Proc :=
  fun db =>
    let quickbooks_id := "Deposit - " ++ Deposit.Id deposit in
    match _get_account_name_by_id self db
            (Some (Ref.value (Deposit.DepositToAccountRef deposit))) with
    | Raise _ => (db, Raise UnboundLocalError)
    | Ok account_name =>
        match deposit_accounts self db deposit account_name with
        | Ok accounts =>
            __save_journal_entry self quickbooks_id accounts
              (Deposit.TxnDate deposit) db
        | Raise e => (_log_error e quickbooks_id db, Ok tt)
        end
    end.

(** [__save_ledger_entry_as_je], lines 1648-1826. *)
Definition __save_ledger_entry_as_je (self : QuickBooksMigrator)
    (ledger_entry : LedgerEntry.t) (quickbooks_id : string) : Proc :=
  fun db =>
    match ledger_entry_accounts self db ledger_entry with
    | Ok [] => (db, Ok tt)
    | Ok accounts =>
        __save_journal_entry self quickbooks_id accounts
          (LedgerEntry.date ledger_entry) db
    | Raise e => (_log_error e quickbooks_id db, Ok tt)
    end.

Definition _save_advance_payment (self : QuickBooksMigrator)
    (advance_payment : LedgerEntry.t) : Proc :=
  __save_ledger_entry_as_je self advance_payment
    ("Advance Payment - " ++ LedgerEntry.id advance_payment).

Definition _save_tax_payment (self : QuickBooksMigrator)
    (tax_payment : LedgerEntry.t) : Proc :=
  __save_ledger_entry_as_je self tax_payment
    ("Tax Payment - " ++ LedgerEntry.id tax_payment).

Definition _save_inventory_qty_adjust (self : QuickBooksMigrator)
    (inventory_qty_adjust : LedgerEntry.t) : Proc :=
  __save_ledger_entry_as_je self inventory_qty_adjust
    ("Inventory Qty Adjust - " ++ LedgerEntry.id inventory_qty_adjust).

(** [_save_entity_as_je], lines 1577-1582. *)
Definition _save_entity_as_je (self : QuickBooksMigrator) (entity_type : string)
    (entity : LedgerEntry.t) : Proc :=
  let quickbooks_id :=
    if String.eqb entity_type "Bill Payment (Cheque)"
    then "BillPayment - " ++ LedgerEntry.id entity
    else entity_type ++ " - " ++ LedgerEntry.id entity in
  __save_ledger_entry_as_je self entity quickbooks_id.

(** ** The migration loops *)

(** The entity kinds of [entity_method_map], lines 380-404, whose handlers
    end in the Journal Entry builder and take a record of their own shape.
    The handlers of Invoice, CreditMemo, SalesReceipt, RefundReceipt, Bill
    and VendorCredit are further down, with the documents they save; those
    of Account, TaxRate, TaxCode, Preferences, Customer, Item and Vendor
    write master data and are outside this development.  A statement over
    [Entity] is a statement about the ten kinds listed here. *)
Inductive Entity : Set :=
| KJournalEntry
| KPayment
| KBillPayment
| KPurchase
| KDeposit
| KAdvancePayment
| KTaxPayment
| KSalesTaxPayment
| KPurchaseTaxPayment
| KInventoryQtyAdjust.

Definition record_of (entity : Entity) : Type :=
  match entity with
  | KJournalEntry => JournalEntry.t
  | KPayment => Payment.t
  | KBillPayment => BillPayment.t
  | KPurchase => Purchase.t
  | KDeposit => Deposit.t
  | KAdvancePayment | KTaxPayment | KSalesTaxPayment | KPurchaseTaxPayment
  | KInventoryQtyAdjust => LedgerEntry.t
  end.

Definition entity_method_map (self : QuickBooksMigrator) (entity : Entity)
    : record_of entity -> Proc :=
  match entity return record_of entity -> Proc with
  | KJournalEntry => _save_journal_entry self
  | KPayment => _save_payment self
  | KBillPayment => _save_bill_payment self
  | KPurchase => _save_purchase self
  | KDeposit => _save_deposit self
  | KAdvancePayment => _save_advance_payment self
  | KTaxPayment => _save_tax_payment self
  | KSalesTaxPayment => _save_tax_payment self
  | KPurchaseTaxPayment => _save_tax_payment self
  | KInventoryQtyAdjust => _save_inventory_qty_adjust self
  end.

(** A [for] loop over the entries: an exception that leaves the body leaves
    the loop, and the entries after it are not visited. *)
Fixpoint for_entries {A : Type} (body : A -> Proc) (entries : list A) : Proc :=
  fun db =>
    match entries with
    | [] => (db, Ok tt)
    | entry :: rest =>
        match body entry db with
        | (db', Ok _) => for_entries body rest db'
        | (db', Raise e) => (db', Raise e)
        end
    end.

(** [_save_entries], lines 379-416 (progress events are not modelled). *)
Definition _save_entries (self : QuickBooksMigrator) (entity : Entity)
    (entries : list (record_of entity)) : Proc :=
  for_entries (entity_method_map self entity) entries.

(** [_migrate_entries], lines 255-290, from the point where the pages have
    been fetched: the phase-level handler logs what leaves [_save_entries]. *)
Definition _migrate_entries (self : QuickBooksMigrator) (entity : Entity)
    (entries : list (record_of entity)) (db : Database) : Database :=
  match _save_entries self entity entries db with
  | (db', Ok _) => db'
  | (db', Raise e) => _log_error e "response.text" db'
  end.

(** [_migrate_entries_from_gl], lines 363-377. *)
Definition _migrate_entries_from_gl (self : QuickBooksMigrator) (entity : string) : Proc :=
  match dict_get (general_ledger self) entity with
  | Some by_id => for_entries (_save_entity_as_je self entity) (map snd by_id)
  | None => fun db => (db, Ok tt)
  end.

End Transformers.

(** ** The fetcher's authorised GET

    The remote service answers the n-th request with [respond n] and the
    n-th token refresh succeeds when [refresh n] holds; the session counts
    both.  [depth] is the number of frames the interpreter still allows. *)

Module Http.
Record Response := {
  status_code : Z;
  text : string
}.
Record Remote := {
  respond : nat -> Response;
  refresh : nat -> bool
}.
Record Session := {
  requests_sent : nat;
  tokens_refreshed : nat
}.
Definition fresh : Session := {| requests_sent := 0; tokens_refreshed := 0 |}.
End Http.

(** [_get], lines 1912-1924: on status 401 it refreshes the tokens and calls
    itself, so the retry is subject to the same test. *)
Fixpoint _get (depth : nat) (remote : Http.Remote) (s : Http.Session)
    : Http.Session * result Http.Response :=
  match depth with
  | O => (s, Raise RecursionError)
  | S depth' =>
      let response := Http.respond remote (Http.requests_sent s) in
      let s1 := {| Http.requests_sent := S (Http.requests_sent s);
                   Http.tokens_refreshed := Http.tokens_refreshed s |} in
      if (Http.status_code response =? 401)%Z then
        if Http.refresh remote (Http.tokens_refreshed s1) then
          _get depth' remote
            {| Http.requests_sent := Http.requests_sent s1;
               Http.tokens_refreshed := S (Http.tokens_refreshed s1) |}
        else (s1, Raise TokenError)
      else (s1, Ok response)
  end.

(** The fetcher as the specification words it: one refresh, one retry, and a
    second consecutive 401 is an error. *)
Definition get_retrying_once (remote : Http.Remote) (s : Http.Session)
    : Http.Session * result Http.Response :=
  let response := Http.respond remote (Http.requests_sent s) in
  let s1 := {| Http.requests_sent := S (Http.requests_sent s);
               Http.tokens_refreshed := Http.tokens_refreshed s |} in
  if (Http.status_code response =? 401)%Z then
    if Http.refresh remote (Http.tokens_refreshed s1) then
      let again := Http.respond remote (Http.requests_sent s1) in
      let s2 := {| Http.requests_sent := S (Http.requests_sent s1);
                   Http.tokens_refreshed := S (Http.tokens_refreshed s1) |} in
      if (Http.status_code again =? 401)%Z then (s2, Raise TransportError)
      else (s2, Ok again)
    else (s1, Raise TokenError)
  else (s1, Ok response).

(** The party as the specification words it: everything at and after the
    first colon is removed. *)
Fixpoint strip_at_first_colon (party : string) : string :=
  match party with
  | EmptyString => EmptyString
  | String c rest => if is_colon c then EmptyString else String c (strip_at_first_colon rest)
  end.

(** The session after [k] more requests and [k] more token refreshes. *)
Definition advanced (k : nat) (s : Http.Session) : Http.Session :=
  {| Http.requests_sent := Http.requests_sent s + k;
     Http.tokens_refreshed := Http.tokens_refreshed s + k |}.

(** Whether a text holds a colon, and whether it holds a line feed. *)
Fixpoint has_colon (s : string) : bool :=
  match s with
  | EmptyString => false
  | String c rest => is_colon c || has_colon rest
  end.

Fixpoint has_line_feed (s : string) : bool :=
  match s with
  | EmptyString => false
  | String c rest => is_line_feed c || has_line_feed rest
  end.


(** How a line's exchange rate and amount relate to the raw transaction
    amount [raw] and the transaction-level rate [R], by whether the account
    is in the transaction currency. *)
Definition converted_once (same_currency : bool) (R raw rate amount : Q) : Prop :=
  if same_currency then rate = R /\ amount == raw
  else rate = 1 /\ amount == raw * R.

(** ** Counting persisted records by idempotency key *)

Definition je_count (quickbooks_id company : string) (db : Database) : nat :=
  length (filter (je_matches quickbooks_id company) (JournalEntries db)).

Definition si_count (quickbooks_id company : string) (db : Database) : nat :=
  length (filter (si_matches quickbooks_id company) (SalesInvoices db)).

(** The draft [__save_journal_entry] hands to [insert()]. *)
Definition draft_journal_entry {storage : StorageCollaborator}
    (self : QuickBooksMigrator) (quickbooks_id : string)
    (accounts : list AccountLine) (posting_date : string) (db : Database)
    : JournalEntryDoc.t :=
  {| JournalEntryDoc.name := je_autoname db;
     JournalEntryDoc.quickbooks_id := quickbooks_id;
     JournalEntryDoc.company := company self;
     JournalEntryDoc.posting_date := posting_date;
     JournalEntryDoc.accounts := accounts;
     JournalEntryDoc.docstatus := 0 |}.

(** The four ways [__save_journal_entry] can end. *)
Section Outcomes.
Context {storage : StorageCollaborator}.
Variable self : QuickBooksMigrator.

Inductive builder_outcome (quickbooks_id : string) (accounts : list AccountLine)
    (posting_date : string) (db : Database) : Database -> Prop :=
| AlreadyExists :
    exists_journal_entry db quickbooks_id (company self) = true ->
    builder_outcome quickbooks_id accounts posting_date db db
| InsertRefused :
    exists_journal_entry db quickbooks_id (company self) = false ->
    je_insert_ok db (draft_journal_entry self quickbooks_id accounts posting_date db) = false ->
    builder_outcome quickbooks_id accounts posting_date db
      (_log_error ValidationError quickbooks_id db)
| SubmitRefused :
    exists_journal_entry db quickbooks_id (company self) = false ->
    je_insert_ok db (draft_journal_entry self quickbooks_id accounts posting_date db) = true ->
    builder_outcome quickbooks_id accounts posting_date db
      (_log_error ValidationError quickbooks_id
         (set_JournalEntries
            (draft_journal_entry self quickbooks_id accounts posting_date db
             :: JournalEntries db) db))
| Submitted :
    exists_journal_entry db quickbooks_id (company self) = false ->
    je_insert_ok db (draft_journal_entry self quickbooks_id accounts posting_date db) = true ->
    builder_outcome quickbooks_id accounts posting_date db
      (set_JournalEntries
         (submitted (draft_journal_entry self quickbooks_id accounts posting_date db)
          :: JournalEntries db) db).

End Outcomes.

(** ** What a run may change *)

(** [db'] has the tables of [db] other than Journal Entry and Error Log, and
    those two only grew at the front: by [jes] and by [logs]. *)
Definition grown_by (jes : list JournalEntryDoc.t) (logs : list ErrorLog)
    (db db' : Database) : Prop :=
  Accounts db' = Accounts db
  /\ SalesInvoices db' = SalesInvoices db
  /\ PurchaseInvoices db' = PurchaseInvoices db
  /\ Items db' = Items db
  /\ JournalEntries db' = (jes ++ JournalEntries db)%list
  /\ ErrorLogs db' = (logs ++ ErrorLogs db)%list.

(** One call adds at most one Journal Entry, of the migrator's company, and
    at most one Error Log. *)
Definition one_step (self : QuickBooksMigrator) (db db' : Database) : Prop :=
  exists jes logs,
    grown_by jes logs db db'
    /\ (length jes <= 1)%nat /\ (length logs <= 1)%nat
    /\ Forall (fun je => JournalEntryDoc.company je = company self) jes.

(** The entity kinds whose handler has its whole body inside [try] and whose
    [except] clause reads only variables assigned before it. *)
Definition fully_wrapped (entity : Entity) : bool :=
  match entity with
  | KJournalEntry | KPurchase | KDeposit => false
  | _ => true
  end.

(** The lines of a General Ledger entry that the first loop does not skip. *)
Definition without_zero_lines (ledger_entry : LedgerEntry.t) : LedgerEntry.t :=
  {| LedgerEntry.id := LedgerEntry.id ledger_entry;
     LedgerEntry.date := LedgerEntry.date ledger_entry;
     LedgerEntry.lines :=
       filter (fun line => negb (gl_line_is_zero line)) (LedgerEntry.lines ledger_entry) |}.

(** ** Debit and credit sides *)

(** The record with its [Credit] flag replaced. *)
Definition with_credit (credit : bool) (purchase : Purchase.t) : Purchase.t :=
  {| Purchase.Id := Purchase.Id purchase;
     Purchase.AccountRef := Purchase.AccountRef purchase;
     Purchase.CurrencyRef := Purchase.CurrencyRef purchase;
     Purchase.ExchangeRate := Purchase.ExchangeRate purchase;
     Purchase.TotalAmt := Purchase.TotalAmt purchase;
     Purchase.PrivateNote := Purchase.PrivateNote purchase;
     Purchase.Line := Purchase.Line purchase;
     Purchase.TxnTaxDetail := Purchase.TxnTaxDetail purchase;
     Purchase.Credit := credit;
     Purchase.TxnDate := Purchase.TxnDate purchase |}.

(** The line with its debit and its credit exchanged. *)
Definition swap_sides (l : AccountLine) : AccountLine :=
  {| account := account l; party_type := party_type l; party := party l;
     reference_type := reference_type l; reference_name := reference_name l;
     exchange_rate := exchange_rate l;
     debit_in_account_currency := credit_in_account_currency l;
     credit_in_account_currency := debit_in_account_currency l;
     cost_center := cost_center l; user_remark := user_remark l |}.

(** A line that posts on one side only. *)
Definition one_sided (l : AccountLine) : Prop :=
  (debit_in_account_currency l <> None /\ credit_in_account_currency l = None)
  \/ (debit_in_account_currency l = None /\ credit_in_account_currency l <> None).


(** ** The General Ledger report parser

    The report is a tree of rows.  A cell is one element of a [ColData]
    list; a key that may be missing is an optional field.  [flt] is
    [frappe.utils.flt] on the text of a cell. *)

Module Report.
Record cell := {
  value : option string;
  id : option string
}.
Inductive row : Type :=
| Data (ColData : list cell)
| Sect (Header : option (list cell)) (Rows : option (list row))
| Other (type : string).
End Report.

(** [self.gl_entries]: the lines collected so far under each account, in the
    order the accounts were first met. *)
Definition GlEntries : Type := list (option string * list GLLine.t).

(** [self.gl_entries.setdefault(account, []).extend(entries)] *)
Fixpoint extend_entries (gl : GlEntries) (account : option string)
    (entries : list GLLine.t) : GlEntries :=
  match gl with
  | [] => [(account, entries)]
  | (k, v) :: gl' =>
      if opt_opt_eqb k account then (k, (v ++ entries)%list) :: gl'
      else (k, v) :: extend_entries gl' account entries
  end.

(** [data[i]] and [data[i]["value"]] *)
Definition nth_cell (data : list Report.cell) (i : nat) : result Report.cell :=
  match nth_error data i with
  | Some c => Ok c
  | None => Raise IndexError
  end.

Definition cell_value (data : list Report.cell) (i : nat) : result string :=
  c <- nth_cell data i ;;
  index_key (Report.value c).

(** What the head of a section decides, lines 430-444: the section is
    skipped, or its rows are read under an account. *)
Inductive SectionContext : Type :=
| Skipped
| Active (account : option string).

Section Parser.
Variable flt : string -> Q.
Variable self : QuickBooksMigrator.
Variable db : Database.
(** [self.accounts], reduced to the [Id] of each account by name. *)
Variable accounts_by_name : list (string * string).

(** Lines 448-464: the line of a [Data] row.  A row whose second cell has
    no [id] gets the id [None]; as [GLLine.id] it is the text every reader
    of the id formats it to, so such a row shares its entry with a row
    whose id is spelled that way. *)
Definition data_line (account : option string) (data : list Report.cell)
    : result GLLine.t :=
  date_ <- cell_value data 0 ;;
  type_ <- cell_value data 1 ;;
  typed <- nth_cell data 1 ;;
  credit_ <- cell_value data 2 ;;
  debit_ <- cell_value data 3 ;;
  customer_ <- cell_value data 4 ;;
  vendor_ <- cell_value data 5 ;;
  memo_ <- cell_value data 6 ;;
  currency_ <- cell_value data 8 ;;
  exch_rate <- cell_value data 7 ;;
  debt_home_amt_ <- cell_value data 9 ;;
  credit_home_amt_ <- cell_value data 10 ;;
  Ok {| GLLine.account := account;
        GLLine.date := date_;
        GLLine.type := type_;
        GLLine.id := get_or (Report.id typed) "None";
        GLLine.credit := flt credit_;
        GLLine.debit := flt debit_;
        GLLine.customer := customer_;
        GLLine.vendor := vendor_;
        GLLine.memo := memo_;
        GLLine.currency := currency_;
        GLLine.debt_home_amt := flt debt_home_amt_;
        GLLine.credit_home_amt := flt credit_home_amt_ |}.

(** Lines 430-444. *)
Definition section_context (header : option (list Report.cell))
    (account : option string) : result SectionContext :=
  match header with
  | None => Ok (Active account)
  | Some cols =>
      head <- first cols ;;
      match Report.id head with
      | Some id_ =>
          a <- _get_account_name_by_id self db (Some id_) ;;
          Ok (Active (Some a))
      | None =>
          match Report.value head with
          | Some v =>
              if nonempty v then
                if String.eqb v "Not Specified" then Ok Skipped
                else
                  account_id <- dict_index accounts_by_name v ;;
                  a <- _get_account_name_by_id self db (Some account_id) ;;
                  Ok (Active (Some a))
              else Ok (Active account)
          | None => Ok (Active account)
          end
      end
  end.

(** The loop at lines 446-467 over the rows of a section read under
    [account]; [nested] is the call for a row that is a section itself. *)
Definition section_rows
    (nested : Report.row -> option string -> GlEntries -> GlEntries * result unit)
    (account : option string)
    : list Report.row -> list GLLine.t -> GlEntries -> GlEntries * result (list GLLine.t) :=
  fix loop (rows : list Report.row) (entries : list GLLine.t) (gl : GlEntries) :=
    match rows with
    | [] => (gl, Ok entries)
    | row :: rest =>
        match row with
        | Report.Data data =>
            match data_line account data with
            | Ok line => loop rest (entries ++ [line])%list gl
            | Raise e => (gl, Raise e)
            end
        | Report.Sect _ _ =>
            match nested row account gl with
            | (gl', Ok _) => loop rest entries gl'
            | (gl', Raise e) => (gl', Raise e)
            end
        | Report.Other _ => loop rest entries gl
        end
    end.

(** [_get_gl_entries_from_section], lines 429-468.  A row that is not a
    section has no [Rows] key. *)
Fixpoint _get_gl_entries_from_section (section : Report.row)
    (account : option string) (gl : GlEntries) {struct section}
    : GlEntries * result unit :=
  match section with
  | Report.Sect header rows =>
      match section_context header account with
      | Raise e => (gl, Raise e)
      | Ok Skipped => (gl, Ok tt)
      | Ok (Active account) =>
          match rows with
          | None => (gl, Raise KeyError)
          | Some rows =>
              match section_rows _get_gl_entries_from_section account rows [] gl with
              | (gl', Ok entries) => (extend_entries gl' account entries, Ok tt)
              | (gl', Raise e) => (gl', Raise e)
              end
          end
      end
  | _ => (gl, Raise KeyError)
  end.

(** Lines 304-307: the sections at the top of the report. *)
Fixpoint report_entries (rows : list Report.row) (gl : GlEntries)
    : GlEntries * result unit :=
  match rows with
  | [] => (gl, Ok tt)
  | row :: rest =>
      match row with
      | Report.Sect _ _ =>
          match _get_gl_entries_from_section row None gl with
          | (gl', Ok _) => report_entries rest gl'
          | (gl', Raise e) => (gl', Raise e)
          end
      | _ => report_entries rest gl
      end
  end.

End Parser.

(** Lines 308-318: the lines regrouped by transaction type, then by
    transaction id. *)
Fixpoint add_to_entries (by_id : list (string * LedgerEntry.t)) (line : GLLine.t)
    : list (string * LedgerEntry.t) :=
  match by_id with
  | [] =>
      [(GLLine.id line,
        {| LedgerEntry.id := GLLine.id line;
           LedgerEntry.date := GLLine.date line;
           LedgerEntry.lines := [line] |})]
  | (k, entry) :: rest =>
      if String.eqb (GLLine.id line) k then
        (k, {| LedgerEntry.id := LedgerEntry.id entry;
               LedgerEntry.date := LedgerEntry.date entry;
               LedgerEntry.lines := (LedgerEntry.lines entry ++ [line])%list |}) :: rest
      else (k, entry) :: add_to_entries rest line
  end.

Fixpoint add_line (ledger : list (string * list (string * LedgerEntry.t)))
    (line : GLLine.t) : list (string * list (string * LedgerEntry.t)) :=
  match ledger with
  | [] => [(GLLine.type line, add_to_entries [] line)]
  | (k, by_id) :: rest =>
      if String.eqb (GLLine.type line) k then (k, add_to_entries by_id line) :: rest
      else (k, by_id) :: add_line rest line
  end.

Definition regroup (gl : GlEntries) : list (string * list (string * LedgerEntry.t)) :=
  fold_left add_line (concat (map snd gl)) [].

(** [self] once [self.general_ledger] has been assigned. *)
Definition with_general_ledger
    (ledger : list (string * list (string * LedgerEntry.t)))
    (self : QuickBooksMigrator) : QuickBooksMigrator :=
  {| company := company self;
     company_currency := company_currency self;
     default_cost_center := default_cost_center self;
     undeposited_funds_account := undeposited_funds_account self;
     general_ledger := ledger |}.

(** The lines of a transaction among all the lines of the report. *)
Definition lines_of_transaction (type_ id_ : string) (gl : GlEntries) : list GLLine.t :=
  filter (fun line => String.eqb type_ (GLLine.type line)
                      && String.eqb id_ (GLLine.id line))
    (concat (map snd gl)).

(** A section that [section_context] skips. *)
Definition is_not_specified (row : Report.row) : bool :=
  match row with
  | Report.Sect (Some (head :: _)) _ =>
      match Report.id head, Report.value head with
      | None, Some v => String.eqb v "Not Specified"
      | _, _ => false
      end
  | _ => false
  end.

(** The report without the sections that are skipped, at every depth. *)
Fixpoint prune (row : Report.row) : Report.row :=
  match row with
  | Report.Sect header (Some rows) =>
      Report.Sect header
        (Some ((fix prune_rows (rs : list Report.row) : list Report.row :=
                  match rs with
                  | [] => []
                  | r :: rest =>
                      if is_not_specified r then prune_rows rest
                      else prune r :: prune_rows rest
                  end) rows))
  | _ => row
  end.

Fixpoint prune_rows (rows : list Report.row) : list Report.row :=
  match rows with
  | [] => []
  | r :: rest =>
      if is_not_specified r then prune_rows rest else prune r :: prune_rows rest
  end.

(** Every collected line names the account it is stored under, and no
    account has two lists. *)
Definition well_keyed (gl : GlEntries) : Prop :=
  NoDup (map fst gl)
  /\ Forall (fun entry => Forall (fun line => GLLine.account line = fst entry) (snd entry)) gl.


(** ** The tax rows of a sales document

    [_get_taxes], lines 1828-1863, with [_get_tax_type] (1865-1871),
    [_get_parent_tax_rate] (1873-1884) and [_get_parent_row_id]
    (1886-1890).  [self.tax_codes] is a dictionary of the tax codes fetched
    from QuickBooks; the three helpers walk its values in insertion order.
    A tax code may lack either rate list; a rate detail always carries its
    rate reference and its type, while [TaxOrder] and [TaxOnTaxOrder] are
    read with a subscript and raise [KeyError] when absent. *)

Module TaxRateDetail.
Record t := {
  TaxRateRef : string;             (* [detail["TaxRateRef"]["value"]] *)
  TaxTypeApplicable : string;
  TaxOrder : option Z;
  TaxOnTaxOrder : option Z
}.
End TaxRateDetail.

Module TaxCode.
Record t := {
  SalesTaxRateList : option (list TaxRateDetail.t);      (* its ["TaxRateDetail"] *)
  PurchaseTaxRateList : option (list TaxRateDetail.t)
}.
End TaxCode.

(** The rate lists a tax code has, in the order of the tuple
    [("SalesTaxRateList", "PurchaseTaxRateList")]. *)
Definition rate_lists (tax_code : TaxCode.t) : list (list TaxRateDetail.t) :=
  (match TaxCode.SalesTaxRateList tax_code with Some l => [l] | None => [] end
   ++ match TaxCode.PurchaseTaxRateList tax_code with Some l => [l] | None => [] end)%list.

(** A loop whose body may [return]: the first value returned ends it. *)
Fixpoint first_some {A B : Type} (body : A -> option B) (xs : list A) : option B :=
  match xs with
  | [] => None
  | x :: xs' =>
      match body x with
      | Some b => Some b
      | None => first_some body xs'
      end
  end.

(** [_get_tax_type]: [None] when no rate detail names the rate. *)
Definition _get_tax_type (tax_codes : list (string * TaxCode.t)) (tax_rate : string)
    : option string :=
  first_some (fun tax_code =>
    first_some (fun details =>
      first_some (fun d =>
        if String.eqb (TaxRateDetail.TaxRateRef d) tax_rate
        then Some (TaxRateDetail.TaxTypeApplicable d) else None) details)
      (rate_lists tax_code))
    (map snd tax_codes).

(** [_get_parent_tax_rate].  The local [parent] is assigned by every
    matching detail and is never reset, so it is carried from one rate list
    to the next and from one tax code to the next. *)
Inductive Search (A S : Type) : Type :=
| Returned (a : A)
| Going (s : S).
Arguments Returned {A S} a.
Arguments Going {A S} s.

Fixpoint search {X A S : Type} (body : S -> X -> result (Search A S)) (s : S)
    (xs : list X) : result (Search A S) :=
  match xs with
  | [] => Ok (Going s)
  | x :: xs' =>
      r <- body s x ;;
      match r with
      | Returned a => Ok (Returned a)
      | Going s' => search body s' xs'
      end
  end.

Definition assign_parent (tax_rate : string) (parent : option Z)
    (d : TaxRateDetail.t) : result (option Z) :=
  if String.eqb (TaxRateDetail.TaxRateRef d) tax_rate then
    match TaxRateDetail.TaxOnTaxOrder d with
    | Some order => Ok (Some order)
    | None => Raise KeyError
    end
  else Ok parent.

Definition rate_of_order (parent : Z) (s : unit) (d : TaxRateDetail.t)
    : result (Search string unit) :=
  match TaxRateDetail.TaxOrder d with
  | Some order =>
      if Z.eqb order parent then Ok (Returned (TaxRateDetail.TaxRateRef d))
      else Ok (Going s)
  | None => Raise KeyError
  end.

Definition parent_in_list (tax_rate : string) (parent : option Z)
    (details : list TaxRateDetail.t) : result (Search string (option Z)) :=
  parent' <- for_each_with (assign_parent tax_rate) parent details ;;
  match parent' with
  | Some p =>
      if Z.eqb p 0 then Ok (Going parent')
      else
        r <- search (rate_of_order p) tt details ;;
        match r with
        | Returned v => Ok (Returned v)
        | Going _ => Ok (Going parent')
        end
  | None => Ok (Going parent')
  end.

Definition _get_parent_tax_rate (tax_codes : list (string * TaxCode.t))
    (tax_rate : string) : result (option string) :=
  r <- search (fun parent tax_code =>
         search (parent_in_list tax_rate) parent (rate_lists tax_code))
       None (map snd tax_codes) ;;
  match r with
  | Returned v => Ok (Some v)
  | Going _ => Ok None
  end.

Module TaxRow.
Record t := {
  charge_type : string;
  row_id : option (option nat);   (* absent on a row charged on the net total *)
  account_head : string;
  description : string;
  cost_center : option string;
  rate : Q
}.
End TaxRow.

(** [enumerate] and the first index whose row has the account. *)
Fixpoint index_of_account (tax_account : string) (index : nat) (taxes : list TaxRow.t)
    : option nat :=
  match taxes with
  | [] => None
  | tax :: taxes' =>
      if String.eqb (TaxRow.account_head tax) tax_account then Some (index + 1)%nat
      else index_of_account tax_account (S index) taxes'
  end.

(** The text an f-string gives a value that may be [None]. *)
Definition format_value (v : option string) : string :=
  match v with
  | Some s => s
  | None => "None"
  end.

Definition _get_parent_row_id (self : QuickBooksMigrator) (db : Database)
    (tax_rate : option string) (taxes : list TaxRow.t) : result (option nat) :=
  tax_account <- _get_account_name_by_id self db
                   (Some ("TaxRate - " ++ format_value tax_rate)) ;;
  Ok (index_of_account tax_account 0 taxes).

Module Taxed.
Record TaxLineDetail := {
  TaxPercent : Q;
  TaxRateRef : string              (* [line["TaxLineDetail"]["TaxRateRef"]["value"]] *)
}.
Record TxnTaxDetail := {
  TaxLine : option (list TaxLineDetail)
}.
Record entry := {
  TxnTaxDetail_ : option TxnTaxDetail
}.
End Taxed.

Definition tax_row (self : QuickBooksMigrator) (db : Database)
    (tax_codes : list (string * TaxCode.t)) (taxes : list TaxRow.t)
    (line : Taxed.TaxLineDetail) : result (list TaxRow.t) :=
  account_head <- tax_account_name self db (Taxed.TaxPercent line) ;;
  let tax_rate := Taxed.TaxRateRef line in
  if opt_eqb (_get_tax_type tax_codes tax_rate) "TaxOnAmount" then
    Ok (taxes ++ [{| TaxRow.charge_type := "On Net Total";
                     TaxRow.row_id := None;
                     TaxRow.account_head := account_head;
                     TaxRow.description := account_head;
                     TaxRow.cost_center := default_cost_center self;
                     TaxRow.rate := Taxed.TaxPercent line |}])%list
  else
    parent_tax_rate <- _get_parent_tax_rate tax_codes tax_rate ;;
    parent_row_id <- _get_parent_row_id self db parent_tax_rate taxes ;;
    Ok (taxes ++ [{| TaxRow.charge_type := "On Previous Row Amount";
                     TaxRow.row_id := Some parent_row_id;
                     TaxRow.account_head := account_head;
                     TaxRow.description := account_head;
                     TaxRow.cost_center := default_cost_center self;
                     TaxRow.rate := Taxed.TaxPercent line |}])%list.

Definition _get_taxes (self : QuickBooksMigrator) (db : Database)
    (tax_codes : list (string * TaxCode.t)) (entry : Taxed.entry)
    : result (list TaxRow.t) :=
  match Taxed.TxnTaxDetail_ entry with
  | Some detail =>
      match Taxed.TaxLine detail with
      | Some lines => for_each_with (tax_row self db tax_codes) [] lines
      | None => Ok []
      end
  | None => Ok []
  end.

(** ** Paging through the records of an entity

    The page loop of [_migrate_entries], lines 258-273: the count query
    gives [entry_count], [range(1, entry_count + 1, max_result_count)] the
    start positions, and each page is appended to [entries].  [query] is
    the request for one page, [SELECT * FROM entity STARTPOSITION s
    MAXRESULTS m], with the decoding of its answer; it fails as the request
    or the decoding fails.  The summary logged after each page is not
    modelled. *)

Definition max_result_count : nat := 1000.

(** [range(start, stop, step)] for a positive step. *)
Fixpoint range_from (fuel start stop step : nat) : list nat :=
  match fuel with
  | O => []
  | S fuel' =>
      if (start <? stop)%nat then start :: range_from fuel' (start + step) stop step
      else []
  end.

Definition range (start stop step : nat) : list nat :=
  range_from (stop - start) start stop step.

Section Pages.
Variable A : Type.
Variable query : nat -> nat -> result (list A).

Definition fetch_page (entries : list A) (start_position : nat) : result (list A) :=
  page <- query start_position max_result_count ;;
  Ok (entries ++ page)%list.

Definition fetch_entries (entry_count : nat) : result (list A) :=
  for_each_with fetch_page [] (range 1 (entry_count + 1) max_result_count).

End Pages.

(** The answer of a service that holds [records] and numbers them from 1. *)
Definition page_of {A : Type} (records : list A) (start_position max_results : nat)
    : list A :=
  firstn max_results (skipn (start_position - 1) records).

(** ** A free account name

    [_get_unique_account_name], lines 1934-1946.  [encode_company_abbr] is
    ERPNext's; the name it gives is the one looked up, the name returned is
    the one before encoding.  The recursion is the interpreter's: [depth]
    frames are left, and the call that needs one more raises
    [RecursionError]. *)

Definition str (number : nat) : string :=
  DecimalString.NilEmpty.string_of_uint (Nat.to_uint number).

Definition quickbooks_account_name (quickbooks_name : string) (number : nat) : string :=
  if (number =? 0)%nat then quickbooks_name ++ " - QB"
  else quickbooks_name ++ " - " ++ str number ++ " - QB".

Definition account_exists (db : Database) (name company : string) : bool :=
  existsb (fun a => String.eqb (AccountDoc.name a) name
                    && String.eqb (AccountDoc.company a) company) (Accounts db).

Section UniqueName.
Variable encode_company_abbr : string -> string -> string.

Definition name_is_taken (self : QuickBooksMigrator) (db : Database)
    (quickbooks_name : string) (number : nat) : bool :=
  account_exists db
    (encode_company_abbr (quickbooks_account_name quickbooks_name number) (company self))
    (company self).

Fixpoint _get_unique_account_name (depth : nat) (self : QuickBooksMigrator)
    (db : Database) (quickbooks_name : string) (number : nat) : result string :=
  match depth with
  | O => Raise RecursionError
  | S depth' =>
      if name_is_taken self db quickbooks_name number then
        _get_unique_account_name depth' self db quickbooks_name (number + 1)
      else Ok (quickbooks_account_name quickbooks_name number)
  end.

End UniqueName.

(** The entry a transaction has in the regrouped ledger. *)
Definition lookup_entry (ledger : list (string * list (string * LedgerEntry.t)))
    (type_ id_ : string) : option LedgerEntry.t :=
  match dict_get ledger type_ with
  | Some by_id => dict_get by_id id_
  | None => None
  end.

Definition entry_of_lines (id_ : string) (lines : list GLLine.t) : option LedgerEntry.t :=
  match lines with
  | [] => None
  | first_ :: _ =>
      Some {| LedgerEntry.id := id_;
              LedgerEntry.date := GLLine.date first_;
              LedgerEntry.lines := lines |}
  end.


(** The tax lines [_get_taxes] walks: none when either key is absent. *)
Definition tax_lines (entry : Taxed.entry) : list Taxed.TaxLineDetail :=
  match Taxed.TxnTaxDetail_ entry with
  | Some detail =>
      match Taxed.TaxLine detail with
      | Some lines => lines
      | None => []
      end
  | None => []
  end.

(** Every back reference of a list of tax rows names an earlier row. *)
Definition refers_back (taxes : list TaxRow.t) : Prop :=
  forall i row r,
    nth_error taxes i = Some row ->
    TaxRow.row_id row = Some (Some r) ->
    (1 <= r <= i)%nat
    /\ exists parent, nth_error taxes (r - 1) = Some parent
                      /\ TaxRow.charge_type row = "On Previous Row Amount".


(** The key under which a Journal Entry is looked up before one is made. *)
Definition je_key (je : JournalEntryDoc.t) : string * string :=
  (JournalEntryDoc.quickbooks_id je, JournalEntryDoc.company je).

(** No two Journal Entries of a company carry the same QuickBooks id. *)
Definition unique_keys (db : Database) : Prop :=
  NoDup (map je_key (JournalEntries db)).

(** One call leaves the Journal Entries as they are, or puts in front of
    them one entry of the migrator's company whose key was not there. *)
Definition fresh_step (self : QuickBooksMigrator) (db db' : Database) : Prop :=
  JournalEntries db' = JournalEntries db
  \/ exists je,
       JournalEntries db' = je :: JournalEntries db
       /\ JournalEntryDoc.company je = company self
       /\ exists_journal_entry db (JournalEntryDoc.quickbooks_id je) (company self) = false.


(** The amounts a QuickBooks JournalEntry posts on one side, in the
    currency of the transaction, and the amounts of its tax lines. *)
Definition posted_on (posting_type : string) (lines : list JournalEntry.line) : Q :=
  fold_right (fun line s =>
    if String.eqb (JournalEntry.DetailType line) "JournalEntryLineDetail"
       && String.eqb (JournalEntry.PostingType (JournalEntry.JournalEntryLineDetail line))
            posting_type
    then JournalEntry.Amount line + s else s) 0 lines.

Definition tax_total (detail : TxnTaxDetail.t) : Q :=
  match TxnTaxDetail.TaxLine detail with
  | Some tax_lines => fold_right (fun line s => TaxLine.Amount line + s) 0 tax_lines
  | None => 0
  end.


(** ** The transformers of the sales and purchase documents

    [_save_invoice] (718-730), [_save_credit_memo] (732-735),
    [_save_sales_receipt] (737-740), [_save_refund_receipt] (742-745),
    [_save_invoice_as_journal_entry] (900-921), [_save_bill] (1029-1032),
    [_save_vendor_credit] (1034-1037) and [__save_purchase_invoice]
    (1039-1076).  Of a source record these read the keys below; the other
    keys are read by the dictionary of the document alone, which is a
    parameter as for [_save_sales_invoice]: [Detail] stands for them. *)

Module SalesRecord.
Record t (Detail : Type) := {
  Id : string;
  LinkedTxn : option (list LinkedTxn.t);
  CustomerRef : Ref.t;
  TxnDate : string;
  detail : Detail
}.
Arguments Id {Detail} _.
Arguments LinkedTxn {Detail} _.
Arguments CustomerRef {Detail} _.
Arguments TxnDate {Detail} _.
Arguments detail {Detail} _.
End SalesRecord.

Module PurchaseRecord.
Record t (Detail : Type) := {
  Id : string;
  detail : Detail
}.
Arguments Id {Detail} _.
Arguments detail {Detail} _.
End PurchaseRecord.

(** The Customer documents: written by [_save_customer], which is outside
    this development, and read here. *)
Module CustomerDoc.
Record t := {
  name : string;
  quickbooks_id : option string;
  company : string
}.
End CustomerDoc.

(** [insert()] and [submit()] of a Purchase Invoice, as for the other two
    doctypes. *)
Class PurchaseInvoiceStorage := {
  pi_insert_ok : Database -> PurchaseInvoiceDoc.t -> bool;
  pi_submit_ok : Database -> PurchaseInvoiceDoc.t -> bool;
  pi_autoname : Database -> string
}.

Definition set_PurchaseInvoices (pis : list PurchaseInvoiceDoc.t) (db : Database)
    : Database :=
  {| Accounts := Accounts db;
     JournalEntries := JournalEntries db;
     SalesInvoices := SalesInvoices db;
     PurchaseInvoices := pis;
     Items := Items db;
     ErrorLogs := ErrorLogs db |}.

(** [frappe.db.get_value("Account", name, "account_type")] *)
Definition get_account_type (db : Database) (name : option string) : option string :=
  match name with
  | Some n =>
      match find (fun a => String.eqb (AccountDoc.name a) n) (Accounts db) with
      | Some a => AccountDoc.account_type a
      | None => None
      end
  | None => None
  end.

(** [frappe.get_all("Customer", filters={"quickbooks_id": ..., "company":
    ...})[0]["name"]] *)
Definition customer_name (self : QuickBooksMigrator) (customers : list CustomerDoc.t)
    (quickbooks_id : string) : result string :=
  c <- first (filter (fun c =>
         opt_eqb (CustomerDoc.quickbooks_id c) quickbooks_id
         && String.eqb (CustomerDoc.company c) (company self)) customers) ;;
  Ok (CustomerDoc.name c).

(** The Purchase Invoice under its key: the dictionary gives the other
    fields. *)
Definition pi_keyed (quickbooks_id company name : string) (d : PurchaseInvoiceDoc.t)
    : PurchaseInvoiceDoc.t :=
  {| PurchaseInvoiceDoc.name := name;
     PurchaseInvoiceDoc.quickbooks_id := quickbooks_id;
     PurchaseInvoiceDoc.company := company;
     PurchaseInvoiceDoc.supplier := PurchaseInvoiceDoc.supplier d;
     PurchaseInvoiceDoc.credit_to := PurchaseInvoiceDoc.credit_to d;
     PurchaseInvoiceDoc.grand_total := PurchaseInvoiceDoc.grand_total d;
     PurchaseInvoiceDoc.outstanding_amount := PurchaseInvoiceDoc.outstanding_amount d;
     PurchaseInvoiceDoc.conversion_rate := PurchaseInvoiceDoc.conversion_rate d |}.

Section Documents.
Context {storage : StorageCollaborator}.
Context {purchase_storage : PurchaseInvoiceStorage}.
Variable SalesDetail : Type.
Variable PurchaseDetail : Type.
(** Lines 752-788 and 1044-1065: the dictionaries of the two documents. *)
Variable invoice_dict :
  QuickBooksMigrator -> Database -> SalesRecord.t SalesDetail -> bool -> bool ->
  result SalesInvoiceDoc.t.
Variable purchase_invoice_dict :
  QuickBooksMigrator -> Database -> PurchaseRecord.t PurchaseDetail -> bool ->
  result PurchaseInvoiceDoc.t.
Variable customers : list CustomerDoc.t.

(** One turn of the loop at lines 903-916: the debit wins over the credit,
    and a line on a receivable account names the invoice's customer. *)
Definition invoice_je_line (self : QuickBooksMigrator) (db : Database)
    (invoice : SalesRecord.t SalesDetail) (line : GLLine.t)
    : result (list AccountLine) :=
  let debit_ :=
    if truthy (GLLine.debit line) then Some (GLLine.debit line) else None in
  let credit_ :=
    if truthy (GLLine.debit line) then None
    else if truthy (GLLine.credit line) then Some (GLLine.credit line) else None in
  if opt_eqb (get_account_type db (GLLine.account line)) "Receivable" then
    customer <- customer_name self customers
                  (Ref.value (SalesRecord.CustomerRef invoice)) ;;
    Ok [{| account := GLLine.account line;
           party_type := Some "Customer";
           party := Some customer;
           reference_type := None; reference_name := None;
           exchange_rate := None;
           debit_in_account_currency := debit_;
           credit_in_account_currency := credit_;
           cost_center := default_cost_center self;
           user_remark := None |}]
  else
    Ok [{| account := GLLine.account line;
           party_type := None; party := None;
           reference_type := None; reference_name := None;
           exchange_rate := None;
           debit_in_account_currency := debit_;
           credit_in_account_currency := credit_;
           cost_center := default_cost_center self;
           user_remark := None |}].

(** Lines 902-917. *)
Definition invoice_je_accounts (self : QuickBooksMigrator) (db : Database)
    (invoice : SalesRecord.t SalesDetail) : result (list AccountLine) :=
  lines <- gl_lines self "Invoice" (SalesRecord.Id invoice) ;;
  for_each (invoice_je_line self db invoice) lines.

(** [_save_invoice_as_journal_entry], lines 900-921: [accounts] is assigned
    first, so the handler can always dump it. *)
Definition _save_invoice_as_journal_entry (self : QuickBooksMigrator)
    (invoice : SalesRecord.t SalesDetail) (quickbooks_id : string) : Proc :=
  fun db =>
    match invoice_je_accounts self db invoice with
    | Ok accounts =>
        __save_journal_entry self quickbooks_id accounts
          (SalesRecord.TxnDate invoice) db
    | Raise e => (_log_error e quickbooks_id db, Ok tt)
    end.

(** Whether the invoice is linked to a statement or reimburse charge. *)
Definition linked_to_a_charge (linked : list LinkedTxn.t) : bool :=
  existsb (fun l =>
    in_strings (LinkedTxn.TxnType l) ["StatementCharge"; "ReimburseCharge"]) linked.

(** [_save_invoice], lines 718-730: nothing here is inside [try]. *)
Definition _save_invoice (self : QuickBooksMigrator)
    (invoice : SalesRecord.t SalesDetail) : Proc :=
  fun db =>
    let quickbooks_id := "Invoice - " ++ SalesRecord.Id invoice in
    match index_key (SalesRecord.LinkedTxn invoice) with
    | Raise e => (db, Raise e)
    | Ok linked =>
        if linked_to_a_charge linked then
          _save_invoice_as_journal_entry self invoice quickbooks_id db
        else
          _save_sales_invoice (SalesRecord.t SalesDetail) invoice_dict self invoice
            quickbooks_id false false db
    end.

Definition _save_credit_memo (self : QuickBooksMigrator)
    (credit_memo : SalesRecord.t SalesDetail) : Proc :=
  _save_sales_invoice (SalesRecord.t SalesDetail) invoice_dict self credit_memo
    ("Credit Memo - " ++ SalesRecord.Id credit_memo) true false.

Definition _save_sales_receipt (self : QuickBooksMigrator)
    (sales_receipt : SalesRecord.t SalesDetail) : Proc :=
  _save_sales_invoice (SalesRecord.t SalesDetail) invoice_dict self sales_receipt
    ("Sales Receipt - " ++ SalesRecord.Id sales_receipt) false true.

Definition _save_refund_receipt (self : QuickBooksMigrator)
    (refund_receipt : SalesRecord.t SalesDetail) : Proc :=
  _save_sales_invoice (SalesRecord.t SalesDetail) invoice_dict self refund_receipt
    ("Refund Receipt - " ++ SalesRecord.Id refund_receipt) true true.

(** [__save_purchase_invoice], lines 1039-1076.  The handler dumps
    [invoice_dict] and [invoice_doc], which are unassigned when the
    dictionary could not be built.  A refused submission leaves the
    inserted document behind. *)
Definition __save_purchase_invoice (self : QuickBooksMigrator)
    (invoice : PurchaseRecord.t PurchaseDetail) (quickbooks_id : string)
    (is_return : bool) : Proc :=
  fun db =>
    if negb (exists_purchase_invoice db quickbooks_id (company self)) then
      match purchase_invoice_dict self db invoice is_return with
      | Raise _ => (db, Raise UnboundLocalError)
      | Ok d =>
          let invoice_doc := pi_keyed quickbooks_id (company self) (pi_autoname db) d in
          if pi_insert_ok db invoice_doc then
            let db1 := set_PurchaseInvoices (invoice_doc :: PurchaseInvoices db) db in
            if pi_submit_ok db1 invoice_doc then (db1, Ok tt)
            else (_log_error ValidationError quickbooks_id db1, Ok tt)
          else
            (_log_error ValidationError quickbooks_id db, Ok tt)
      end
    else
      (db, Ok tt).

Definition _save_bill (self : QuickBooksMigrator)
    (bill : PurchaseRecord.t PurchaseDetail) : Proc :=
  __save_purchase_invoice self bill ("Bill - " ++ PurchaseRecord.Id bill) false.

Definition _save_vendor_credit (self : QuickBooksMigrator)
    (vendor_credit : PurchaseRecord.t PurchaseDetail) : Proc :=
  __save_purchase_invoice self vendor_credit
    ("Vendor Credit - " ++ PurchaseRecord.Id vendor_credit) true.

End Documents.


(** A call leaves every table but the Error Log as it was and adds at most
    one Error Log, which names [quickbooks_id]. *)
Definition only_logs (quickbooks_id : string) (db db' : Database) : Prop :=
  db' = db \/ exists e, db' = _log_error e quickbooks_id db.


(** One call leaves the Journal Entries as they are, or the key was free
    and one entry with the key and the company is put in front. *)
Definition keyed_step (self : QuickBooksMigrator) (quickbooks_id : string)
    (db db' : Database) : Prop :=
  JournalEntries db' = JournalEntries db
  \/ (exists_journal_entry db quickbooks_id (company self) = false
      /\ exists je,
           JournalEntries db' = je :: JournalEntries db
           /\ je_matches quickbooks_id (company self) je = true).


(** The credit line of one detail line of a Deposit, lines 1511-1548, and
    the debit line of its cash back part, lines 1550-1557. *)
Definition deposit_credit (self : QuickBooksMigrator) (db : Database)
    (deposit : Deposit.t) (line : Deposit.line) (l : AccountLine) : Prop :=
  debit_in_account_currency l = None
  /\ credit_in_account_currency l <> None
  /\ (Deposit.LinkedTxn line = true ->
      account l = undeposited_funds_account self
      /\ credit_in_account_currency l = Some (Deposit.Amount line)
      /\ party l = None)
  /\ (Deposit.LinkedTxn line = true -> exchange_rate l = None)
  /\ (Deposit.LinkedTxn line = false ->
      exists a rate amount,
        _get_account_name_by_id self db
          (Some (Ref.value (Deposit.DepositLineDetail_AccountRef line))) = Ok a
        /\ account l = Some a
        /\ exchange_rate l = Some rate
        /\ credit_in_account_currency l = Some amount
        /\ converted_once
             (opt_eqb (get_account_currency db (Some a))
                (Ref.value (Deposit.CurrencyRef deposit)))
             (Deposit.ExchangeRate deposit) (Deposit.Amount line) rate amount).

Definition cash_back_debit (self : QuickBooksMigrator) (db : Database)
    (deposit : Deposit.t) (cash : list AccountLine) : Prop :=
  match Deposit.CashBack deposit with
  | Some cb =>
      exists a l,
        cash = [l]
        /\ _get_account_name_by_id self db
             (Some (Ref.value (Deposit.CashBack_AccountRef cb))) = Ok a
        /\ account l = Some a
        /\ debit_in_account_currency l = Some (Deposit.CashBack_Amount cb)
        /\ credit_in_account_currency l = None
        /\ exchange_rate l = None
        /\ party l = None
  | None => cash = []
  end.

(** The row [_get_taxes] makes of a tax line, given the rows made before
    it. *)
Definition row_of_line (self : QuickBooksMigrator) (db : Database)
    (tax_codes : list (string * TaxCode.t)) (earlier : list TaxRow.t)
    (line : Taxed.TaxLineDetail) (row : TaxRow.t) : Prop :=
  TaxRow.rate row = Taxed.TaxPercent line
  /\ if opt_eqb (_get_tax_type tax_codes (Taxed.TaxRateRef line)) "TaxOnAmount" then
       TaxRow.charge_type row = "On Net Total" /\ TaxRow.row_id row = None
     else
       TaxRow.charge_type row = "On Previous Row Amount"
       /\ exists parent tax_account,
            _get_parent_tax_rate tax_codes (Taxed.TaxRateRef line) = Ok parent
            /\ _get_account_name_by_id self db
                 (Some ("TaxRate - " ++ format_value parent)) = Ok tax_account
            /\ TaxRow.row_id row = Some (index_of_account tax_account 0 earlier).

(** What a position found among the earlier rows is: the 1-based position
    of the first row with the account, and none when no row has it. *)
Definition first_with_account (tax_account : string) (earlier : list TaxRow.t)
    (position : option nat) : Prop :=
  match position with
  | Some r =>
      (1 <= r <= length earlier)%nat
      /\ (exists parent, nth_error earlier (r - 1) = Some parent
                         /\ TaxRow.account_head parent = tax_account)
      /\ (forall j row, (j < r - 1)%nat -> nth_error earlier j = Some row ->
                        TaxRow.account_head row <> tax_account)
  | None =>
      forall row, In row earlier -> TaxRow.account_head row <> tax_account
  end.

(** * Worked inputs *)

(** Modelled from the spec: the validation the storage collaborator runs on
    a Journal Entry, which is code of the ledger application and not of this
    repository.  Creating the record succeeds; a balance error surfaces on
    submission (sections 3, 4.6 and 7 of the specification), where the
    totals, rounded to two decimals, are compared; everything else is
    accepted. *)
Definition balance_checking_storage : StorageCollaborator :=
  {| je_insert_ok := fun _ _ => true;
     je_submit_ok := fun _ je => balancedb (JournalEntryDoc.accounts je);
     je_autoname := fun _ => "ACC-JV-0001";
     si_insert_ok := fun _ _ => true;
     si_submit_ok := fun _ _ => true;
     si_autoname := fun _ => "ACC-SINV-0001" |}.

(** A storage collaborator that accepts every document. *)
Definition lenient_storage : StorageCollaborator :=
  {| je_insert_ok := fun _ _ => true;
     je_submit_ok := fun _ _ => true;
     je_autoname := fun _ => "ACC-JV-0001";
     si_insert_ok := fun _ _ => true;
     si_submit_ok := fun _ _ => true;
     si_autoname := fun _ => "ACC-SINV-0001" |}.

(** A storage collaborator that accepts drafts and refuses to submit them. *)
Definition submit_refusing_storage : StorageCollaborator :=
  {| je_insert_ok := fun _ _ => true;
     je_submit_ok := fun _ _ => false;
     je_autoname := fun _ => "ACC-JV-0001";
     si_insert_ok := fun _ _ => true;
     si_submit_ok := fun _ _ => false;
     si_autoname := fun _ => "ACC-SINV-0001" |}.

Definition nx : QuickBooksMigrator :=
  {| company := "NX";
     company_currency := "AED";
     default_cost_center := Some "Main - NX";
     undeposited_funds_account := Some "Undeposited Funds - QB - NX";
     general_ledger :=
       [("Payment",
         [("7", {| LedgerEntry.id := "7"; LedgerEntry.date := "2024-03-01";
                   LedgerEntry.lines := [] |})])] |}.

Definition account_doc (name_ quickbooks_id_ type_ currency_ : string) : AccountDoc.t :=
  {| AccountDoc.name := name_;
     AccountDoc.quickbooks_id := Some quickbooks_id_;
     AccountDoc.company := "NX";
     AccountDoc.account_type := Some type_;
     AccountDoc.account_currency := currency_;
     AccountDoc.tax_rate := None |}.

Definition invoice_9001 : SalesInvoiceDoc.t :=
  {| SalesInvoiceDoc.name := "ACC-SINV-0009";
     SalesInvoiceDoc.quickbooks_id := "Invoice - 9001";
     SalesInvoiceDoc.company := "NX";
     SalesInvoiceDoc.customer := "Acme";
     SalesInvoiceDoc.debit_to := "Debtors USD - NX";
     SalesInvoiceDoc.outstanding_amount := 50;
     SalesInvoiceDoc.conversion_rate := 367 # 100;
     SalesInvoiceDoc.docstatus := 1 |}.

Definition books : Database :=
  {| Accounts :=
       [account_doc "Debtors USD - NX" "84" "Receivable" "USD";
        account_doc "Creditors - NX" "85" "Payable" "AED";
        account_doc "ADCB USD - NX" "35" "Bank" "USD";
        account_doc "Cash - NX" "36" "Bank" "AED"];
     JournalEntries := [];
     SalesInvoices := [invoice_9001];
     PurchaseInvoices := [];
     Items := [];
     ErrorLogs := [] |}.

Definition debit_line (a : string) (amount rate : Q) : AccountLine :=
  {| account := Some a; party_type := None; party := None;
     reference_type := None; reference_name := None;
     exchange_rate := Some rate;
     debit_in_account_currency := Some amount;
     credit_in_account_currency := None;
     cost_center := None; user_remark := None |}.

Definition credit_line (a : string) (amount rate : Q) : AccountLine :=
  {| account := Some a; party_type := None; party := None;
     reference_type := None; reference_name := None;
     exchange_rate := Some rate;
     debit_in_account_currency := None;
     credit_in_account_currency := Some amount;
     cost_center := None; user_remark := None |}.

Definition lopsided : list AccountLine :=
  [debit_line "Cash - NX" 100 1; credit_line "Creditors - NX" 90 1].

Definition even_lines : list AccountLine :=
  [debit_line "ADCB USD - NX" 100 (367 # 100); credit_line "Cash - NX" 367 1].

Definition payment_without_deposit : Payment.t :=
  {| Payment.Id := "7";
     Payment.DepositToAccountRef := None;
     Payment.Line :=
       [{| Payment.Amount := 80;
           Payment.LinkedTxn :=
             [{| LinkedTxn.TxnType := "Invoice"; LinkedTxn.TxnId := "9001" |}] |}];
     Payment.CurrencyRef := {| Ref.value := "USD"; Ref.name := "US Dollar" |};
     Payment.ExchangeRate := 367 # 100;
     Payment.TotalAmt := 80;
     Payment.TxnDate := "2024-03-01" |}.

Definition bill_payment_by_cash : BillPayment.t :=
  {| BillPayment.Id := "45";
     BillPayment.Line := [];
     BillPayment.PayType := "Cash";
     BillPayment.CheckPayment := None;
     BillPayment.CreditCardPayment := None;
     BillPayment.CurrencyRef := {| Ref.value := "AED"; Ref.name := "Dirham" |};
     BillPayment.ExchangeRate := 1;
     BillPayment.TotalAmt := 120;
     BillPayment.TxnDate := "2024-03-02" |}.

Definition gl_line (account_ : string) (credit_ debit_ : Q) : GLLine.t :=
  {| GLLine.account := Some account_;
     GLLine.date := "2024-03-03";
     GLLine.type := "Advance Payment";
     GLLine.id := "12";
     GLLine.credit := credit_;
     GLLine.debit := debit_;
     GLLine.customer := "";
     GLLine.vendor := "";
     GLLine.memo := "";
     GLLine.currency := "AED";
     GLLine.debt_home_amt := debit_;
     GLLine.credit_home_amt := credit_ |}.

(** The second line names an account the rewrite table does not have. *)
Definition advance_payment_12 : LedgerEntry.t :=
  {| LedgerEntry.id := "12";
     LedgerEntry.date := "2024-03-03";
     LedgerEntry.lines :=
       [gl_line "Cash on hand - QB - NX" 0 500;
        gl_line "Customer Advances - QB - NX" 500 0] |}.

(** A service that answers 401 twice and then 200. *)
Definition unauthorised_twice : Http.Remote :=
  {| Http.respond := fun n =>
       if (n <? 2)%nat
       then {| Http.status_code := 401; Http.text := "" |}
       else {| Http.status_code := 200; Http.text := "{}" |};
     Http.refresh := fun _ => true |}.

(** A JournalEntry line on the receivable account for a customer three
    levels deep. *)
Definition line_for_sub_customer : JournalEntry.line :=
  {| JournalEntry.DetailType := "JournalEntryLineDetail";
     JournalEntry.Amount := 100;
     JournalEntry.Description := None;
     JournalEntry.JournalEntryLineDetail :=
       {| JournalEntry.PostingType := "Debit";
          JournalEntry.AccountRef := {| Ref.value := "84"; Ref.name := "Debtors USD" |};
          JournalEntry.Entity :=
            Some {| JournalEntry.Type_ := "Customer";
                    JournalEntry.EntityRef :=
                      {| Ref.value := "3"; Ref.name := "Acme:Dubai:Branch" |} |} |} |}.

(** A JournalEntry line on a bank account kept in the transaction currency. *)
Definition line_on_usd_bank : JournalEntry.line :=
  {| JournalEntry.DetailType := "JournalEntryLineDetail";
     JournalEntry.Amount := 100;
     JournalEntry.Description := None;
     JournalEntry.JournalEntryLineDetail :=
       {| JournalEntry.PostingType := "Debit";
          JournalEntry.AccountRef := {| Ref.value := "35"; Ref.name := "ADCB USD" |};
          JournalEntry.Entity := None |} |}.

Definition line_on_aed_cash : JournalEntry.line :=
  {| JournalEntry.DetailType := "JournalEntryLineDetail";
     JournalEntry.Amount := 100;
     JournalEntry.Description := None;
     JournalEntry.JournalEntryLineDetail :=
       {| JournalEntry.PostingType := "Credit";
          JournalEntry.AccountRef := {| Ref.value := "36"; Ref.name := "Cash" |};
          JournalEntry.Entity := None |} |}.

(** No account of the books has the QuickBooks id 404. *)
Definition line_on_unknown_account : JournalEntry.line :=
  {| JournalEntry.DetailType := "JournalEntryLineDetail";
     JournalEntry.Amount := 100;
     JournalEntry.Description := None;
     JournalEntry.JournalEntryLineDetail :=
       {| JournalEntry.PostingType := "Credit";
          JournalEntry.AccountRef := {| Ref.value := "404"; Ref.name := "Gone" |};
          JournalEntry.Entity := None |} |}.

Definition journal_entry_of (id : string) (lines : list JournalEntry.line)
    : JournalEntry.t :=
  {| JournalEntry.Id := id;
     JournalEntry.Line := lines;
     JournalEntry.CurrencyRef := {| Ref.value := "USD"; Ref.name := "US Dollar" |};
     JournalEntry.ExchangeRate := 367 # 100;
     JournalEntry.TxnTaxDetail := {| TxnTaxDetail.TaxLine := None |};
     JournalEntry.TxnDate := "2024-02-01" |}.

Definition journal_entry_76 : JournalEntry.t :=
  journal_entry_of "76" [line_on_usd_bank; line_on_unknown_account].

Definition journal_entry_77 : JournalEntry.t :=
  journal_entry_of "77" [line_on_usd_bank; line_on_aed_cash].

(** A payment of 80 against the invoice whose outstanding amount is 50. *)
Definition payment_of_80 : Payment.t :=
  {| Payment.Id := "7";
     Payment.DepositToAccountRef := Some {| Ref.value := "35"; Ref.name := "ADCB USD" |};
     Payment.Line :=
       [{| Payment.Amount := 80;
           Payment.LinkedTxn :=
             [{| LinkedTxn.TxnType := "Invoice"; LinkedTxn.TxnId := "9001" |}] |}];
     Payment.CurrencyRef := {| Ref.value := "USD"; Ref.name := "US Dollar" |};
     Payment.ExchangeRate := 367 # 100;
     Payment.TotalAmt := 80;
     Payment.TxnDate := "2024-03-01" |}.

Definition line_of_80 : Payment.line :=
  {| Payment.Amount := 80;
     Payment.LinkedTxn :=
       [{| LinkedTxn.TxnType := "Invoice"; LinkedTxn.TxnId := "9001" |}] |}.

(** A disbursement of 100 USD from the USD bank account, expensed on an AED
    account. *)
Definition purchase_of_100 : Purchase.t :=
  {| Purchase.Id := "31";
     Purchase.AccountRef := {| Ref.value := "35"; Ref.name := "ADCB USD" |};
     Purchase.CurrencyRef := {| Ref.value := "USD"; Ref.name := "US Dollar" |};
     Purchase.ExchangeRate := 367 # 100;
     Purchase.TotalAmt := 100;
     Purchase.PrivateNote := None;
     Purchase.Line :=
       [{| Purchase.DetailType := "AccountBasedExpenseLineDetail";
           Purchase.Amount := 100;
           Purchase.Description := Some "Courier";
           Purchase.AccountBasedExpenseLineDetail_AccountRef :=
             {| Ref.value := "36"; Ref.name := "Cash" |};
           Purchase.ItemBasedExpenseLineDetail_ItemRef :=
             {| Ref.value := ""; Ref.name := "" |} |}];
     Purchase.TxnTaxDetail := None;
     Purchase.Credit := false;
     Purchase.TxnDate := "2024-02-10" |}.

(** A payment whose only line settles a credit memo. *)
Definition payment_of_credit_memo : Payment.t :=
  {| Payment.Id := "8";
     Payment.DepositToAccountRef := Some {| Ref.value := "35"; Ref.name := "ADCB USD" |};
     Payment.Line :=
       [{| Payment.Amount := 20;
           Payment.LinkedTxn :=
             [{| LinkedTxn.TxnType := "CreditMemo"; LinkedTxn.TxnId := "55" |}] |}];
     Payment.CurrencyRef := {| Ref.value := "USD"; Ref.name := "US Dollar" |};
     Payment.ExchangeRate := 367 # 100;
     Payment.TotalAmt := 20;
     Payment.TxnDate := "2024-03-05" |}.

(** A payment against invoice 9002, which was saved as a Journal Entry and
    not as a Sales Invoice. *)
Definition payment_of_fallback_invoice : Payment.t :=
  {| Payment.Id := "9";
     Payment.DepositToAccountRef := Some {| Ref.value := "35"; Ref.name := "ADCB USD" |};
     Payment.Line :=
       [{| Payment.Amount := 20;
           Payment.LinkedTxn :=
             [{| LinkedTxn.TxnType := "Invoice"; LinkedTxn.TxnId := "9002" |}] |}];
     Payment.CurrencyRef := {| Ref.value := "USD"; Ref.name := "US Dollar" |};
     Payment.ExchangeRate := 367 # 100;
     Payment.TotalAmt := 20;
     Payment.TxnDate := "2024-03-06" |}.

Definition books_with_fallback_invoice : Database :=
  set_JournalEntries
    [{| JournalEntryDoc.name := "ACC-JV-0002";
        JournalEntryDoc.quickbooks_id := "Invoice - 9002";
        JournalEntryDoc.company := "NX";
        JournalEntryDoc.posting_date := "2024-02-20";
        JournalEntryDoc.accounts :=
          [{| account := Some "Debtors USD - NX";
              party_type := Some "Customer"; party := Some "Acme";
              reference_type := None; reference_name := None;
              exchange_rate := None;
              debit_in_account_currency := Some 20;
              credit_in_account_currency := None;
              cost_center := None; user_remark := None |}];
        JournalEntryDoc.docstatus := 1 |}]
    books.

(** A deposit of 300 made of one linked line and one line on an account. *)
Definition deposit_of_300 : Deposit.t :=
  {| Deposit.Id := "14";
     Deposit.DepositToAccountRef := {| Ref.value := "36"; Ref.name := "Cash" |};
     Deposit.CurrencyRef := {| Ref.value := "AED"; Ref.name := "Dirham" |};
     Deposit.ExchangeRate := 1;
     Deposit.TotalAmt := 300;
     Deposit.PrivateNote := None;
     Deposit.Line :=
       [{| Deposit.Amount := 200;
           Deposit.LinkedTxn := true;
           Deposit.Description := None;
           Deposit.DepositLineDetail_AccountRef := {| Ref.value := ""; Ref.name := "" |};
           Deposit.DepositLineDetail_Entity := None |};
        {| Deposit.Amount := 100;
           Deposit.LinkedTxn := false;
           Deposit.Description := Some "Refund";
           Deposit.DepositLineDetail_AccountRef :=
             {| Ref.value := "85"; Ref.name := "Creditors" |};
           Deposit.DepositLineDetail_Entity := None |}];
     Deposit.CashBack := None;
     Deposit.TxnDate := "2024-03-07" |}.

(** An entry of the General Ledger report whose lines carry no amount. *)
Definition empty_adjustment : LedgerEntry.t :=
  {| LedgerEntry.id := "13";
     LedgerEntry.date := "2024-03-04";
     LedgerEntry.lines :=
       [gl_line "Inventory - QB - NX" 0 0; gl_line "No Such Account" 0 0] |}.


(** The reading [flt] gives the amounts of a report: an optional sign,
    digits, at most one point; a text that is not a number reads as 0. *)
Definition digit (c : ascii) : option Z :=
  let n := (Z.of_nat (nat_of_ascii c) - 48)%Z in
  if ((0 <=? n) && (n <=? 9))%Z then Some n else None.

Fixpoint read_decimal (s : string) (num : Z) (den : positive) (after_point : bool) : Q :=
  match s with
  | EmptyString => num # den
  | String c s' =>
      if Ascii.eqb c "."%char then
        if after_point then 0 else read_decimal s' num den true
      else
        match digit c with
        | Some d =>
            read_decimal s' (10 * num + d)%Z
              (if after_point then (10 * den)%positive else den) after_point
        | None => 0
        end
  end.

Definition flt_of_text (s : string) : Q :=
  match s with
  | String "-"%char s' => Qopp (read_decimal s' 0 1 false)
  | _ => read_decimal s 0 1 false
  end.

Definition text_cell (v : string) : Report.cell :=
  {| Report.value := Some v; Report.id := None |}.

Definition id_cell (v id_ : string) : Report.cell :=
  {| Report.value := Some v; Report.id := Some id_ |}.

(** A row of the report: date, type and id, credit, debit, customer,
    vendor, memo, exchange rate, currency, home debit, home credit. *)
Definition report_row (date_ type_ id_ credit_ debit_ : string) : Report.row :=
  Report.Data
    [text_cell date_; id_cell type_ id_; text_cell credit_; text_cell debit_;
     text_cell "Acme"; text_cell ""; text_cell ""; text_cell "1";
     text_cell "AED"; text_cell debit_; text_cell credit_].

(** A report with a bank account, a receivable account that repeats the
    deposit and a section without an account. *)
Definition ledger_report : list Report.row :=
  [Report.Sect (Some [id_cell "Cash" "36"])
     (Some [report_row "2024-03-01" "Deposit" "300" "" "120.50";
            Report.Sect (Some [text_cell "Not Specified"])
              (Some [report_row "2024-03-02" "Deposit" "301" "" "1"]);
            report_row "2024-03-04" "Payment" "80" "" "50";
            Report.Other "Summary"]);
   Report.Other "GrandTotal";
   Report.Sect (Some [id_cell "Debtors USD" "84"])
     (Some [report_row "2024-03-01" "Deposit" "300" "120.50" "";
            report_row "2024-03-04" "Payment" "80" "50" ""])].

(** Tax codes with a tax charged on the amount and a tax charged on that
    tax. *)
Definition vat_and_surcharge : list (string * TaxCode.t) :=
  [("5",
    {| TaxCode.SalesTaxRateList :=
         Some [{| TaxRateDetail.TaxRateRef := "11";
                  TaxRateDetail.TaxTypeApplicable := "TaxOnAmount";
                  TaxRateDetail.TaxOrder := Some 1%Z;
                  TaxRateDetail.TaxOnTaxOrder := Some 0%Z |};
               {| TaxRateDetail.TaxRateRef := "12";
                  TaxRateDetail.TaxTypeApplicable := "TaxOnTax";
                  TaxRateDetail.TaxOrder := Some 2%Z;
                  TaxRateDetail.TaxOnTaxOrder := Some 1%Z |}];
       TaxCode.PurchaseTaxRateList := None |})].

Definition tax_account (name_ quickbooks_id_ : string) (rate_ : Q) : AccountDoc.t :=
  {| AccountDoc.name := name_;
     AccountDoc.quickbooks_id := Some quickbooks_id_;
     AccountDoc.company := "NX";
     AccountDoc.account_type := Some "Tax";
     AccountDoc.account_currency := "AED";
     AccountDoc.tax_rate := Some rate_ |}.

Definition books_with_taxes : Database :=
  {| Accounts :=
       [tax_account "VAT 5% - QB - NX" "TaxRate - 11" 5;
        tax_account "Surcharge 2% - QB - NX" "TaxRate - 12" 2];
     JournalEntries := [];
     SalesInvoices := [];
     PurchaseInvoices := [];
     Items := [];
     ErrorLogs := [] |}.

Definition invoice_with_two_taxes : Taxed.entry :=
  {| Taxed.TxnTaxDetail_ :=
       Some {| Taxed.TaxLine :=
                 Some [{| Taxed.TaxPercent := 5; Taxed.TaxRateRef := "11" |};
                       {| Taxed.TaxPercent := 2; Taxed.TaxRateRef := "12" |}] |} |}.

(** A service with 2001 records: two full pages and a page of one. *)
Definition remote_records : list nat := seq 1 2001.

Definition remote_query (start_position max_results : nat) : result (list nat) :=
  Ok (page_of remote_records start_position max_results).

(** Books in which the plain name and the first numbered name are taken. *)
Definition encode_for_nx (name_ company_ : string) : string :=
  name_ ++ " - " ++ company_.

Definition books_with_two_cash_accounts : Database :=
  {| Accounts :=
       [account_doc "Cash - QB - NX" "36" "Bank" "AED";
        account_doc "Cash - 1 - QB - NX" "37" "Bank" "AED"];
     JournalEntries := [];
     SalesInvoices := [];
     PurchaseInvoices := [];
     Items := [];
     ErrorLogs := [] |}.


(** A storage collaborator that accepts every Purchase Invoice. *)
Definition lenient_purchase_storage : PurchaseInvoiceStorage :=
  {| pi_insert_ok := fun _ _ => true;
     pi_submit_ok := fun _ _ => true;
     pi_autoname := fun _ => "ACC-PINV-0001" |}.



(** The books of a site with two companies: each has a Sales Invoice for its
    own QuickBooks invoice 9001, and the other company's is the newer one.
    On the invoice of NX 100 is outstanding. *)
Definition books_of_two_companies : Database :=
  {| Accounts := Accounts books;
     JournalEntries := [];
     SalesInvoices :=
       [{| SalesInvoiceDoc.name := "ACC-SINV-0044";
           SalesInvoiceDoc.quickbooks_id := "Invoice - 9001";
           SalesInvoiceDoc.company := "QX";
           SalesInvoiceDoc.customer := "Zenith";
           SalesInvoiceDoc.debit_to := "Debtors - QX";
           SalesInvoiceDoc.outstanding_amount := 50;
           SalesInvoiceDoc.conversion_rate := 1;
           SalesInvoiceDoc.docstatus := 1 |};
        {| SalesInvoiceDoc.name := "ACC-SINV-0009";
           SalesInvoiceDoc.quickbooks_id := "Invoice - 9001";
           SalesInvoiceDoc.company := "NX";
           SalesInvoiceDoc.customer := "Acme";
           SalesInvoiceDoc.debit_to := "Debtors USD - NX";
           SalesInvoiceDoc.outstanding_amount := 100;
           SalesInvoiceDoc.conversion_rate := 367 # 100;
           SalesInvoiceDoc.docstatus := 1 |}];
     PurchaseInvoices := [];
     Items := [];
     ErrorLogs := [] |}.


(** Books that hold the accounts of a General Ledger entry under the names
    of the report and under the names of the rewrite table. *)
Definition ledger_books : Database :=
  {| Accounts :=
       [account_doc "Cash on hand - QB - NX" "36" "Bank" "AED";
        account_doc "Cash - NX" "36" "Bank" "AED";
        account_doc "Accounts Receivable (A/R) - USD - QB - NX" "84" "Receivable" "USD";
        account_doc "Debtors USD - NX" "84" "Receivable" "USD"];
     JournalEntries := [];
     SalesInvoices := [];
     PurchaseInvoices := [];
     Items := [];
     ErrorLogs := [] |}.

(** A General Ledger entry in USD: 734 AED paid out of the cash account
    against two receivable lines of 150 and 50 USD. *)
Definition usd_line (account_ : string) (credit_ debit_ home_credit home_debit : Q)
    : GLLine.t :=
  {| GLLine.account := Some account_;
     GLLine.date := "2024-03-03";
     GLLine.type := "Advance Payment";
     GLLine.id := "14";
     GLLine.credit := credit_;
     GLLine.debit := debit_;
     GLLine.customer := "";
     GLLine.vendor := "";
     GLLine.memo := "";
     GLLine.currency := "USD";
     GLLine.debt_home_amt := home_debit;
     GLLine.credit_home_amt := home_credit |}.

Definition advance_payment_14 : LedgerEntry.t :=
  {| LedgerEntry.id := "14";
     LedgerEntry.date := "2024-03-03";
     LedgerEntry.lines :=
       [usd_line "Cash on hand - QB - NX" 200 0 734 0;
        usd_line "Accounts Receivable (A/R) - USD - QB - NX" 0 150 0 (1101 # 2);
        usd_line "Accounts Receivable (A/R) - USD - QB - NX" 0 50 0 (367 # 2)] |}.


(** The deposit of 300 with 40 handed back in cash from the USD bank
    account. *)
Definition deposit_with_cash_back : Deposit.t :=
  {| Deposit.Id := "15";
     Deposit.DepositToAccountRef := Deposit.DepositToAccountRef deposit_of_300;
     Deposit.CurrencyRef := Deposit.CurrencyRef deposit_of_300;
     Deposit.ExchangeRate := 1;
     Deposit.TotalAmt := 260;
     Deposit.PrivateNote := None;
     Deposit.Line := Deposit.Line deposit_of_300;
     Deposit.CashBack :=
       Some {| Deposit.CashBack_AccountRef := {| Ref.value := "35"; Ref.name := "ADCB USD" |};
               Deposit.CashBack_Amount := 40 |};
     Deposit.TxnDate := "2024-03-08" |}.


(** The same two tax lines with the tax on tax first. *)
Definition invoice_with_surcharge_first : Taxed.entry :=
  {| Taxed.TxnTaxDetail_ :=
       Some {| Taxed.TaxLine :=
                 Some [{| Taxed.TaxPercent := 2; Taxed.TaxRateRef := "12" |};
                       {| Taxed.TaxPercent := 5; Taxed.TaxRateRef := "11" |}] |} |}.


(** * Properties *)

Lemma balancedb_spec (accounts : list AccountLine) :
  balancedb accounts = true <-> balanced accounts.
Proof. unfold balancedb, balanced. apply Qeq_bool_iff. Qed.

Section BuilderFacts.
Context {storage : StorageCollaborator}.
Variable self : QuickBooksMigrator.

Lemma builder_never_raises quickbooks_id accounts posting_date db :
  snd (__save_journal_entry self quickbooks_id accounts posting_date db) = Ok tt.
Proof.
  unfold __save_journal_entry.
  destruct (exists_journal_entry db quickbooks_id (company self)); simpl; auto.
  destruct (je_insert_ok db _); simpl; auto.
  destruct (je_submit_ok _ _); reflexivity.
Qed.

Lemma builder_outcomes quickbooks_id accounts posting_date db :
  builder_outcome self quickbooks_id accounts posting_date db
    (fst (__save_journal_entry self quickbooks_id accounts posting_date db)).
Proof.
  unfold __save_journal_entry.
  destruct (exists_journal_entry db quickbooks_id (company self)) eqn:Hex; simpl.
  - now apply AlreadyExists.
  - fold (draft_journal_entry self quickbooks_id accounts posting_date db).
    destruct (je_insert_ok db _) eqn:Hins; simpl.
    + destruct (je_submit_ok _ _); simpl.
      * now apply Submitted.
      * now apply SubmitRefused.
    + now apply InsertRefused.
Qed.

Lemma builder_noop quickbooks_id accounts posting_date db :
  exists_journal_entry db quickbooks_id (company self) = true ->
  __save_journal_entry self quickbooks_id accounts posting_date db = (db, Ok tt).
Proof.
  intros Hex. unfold __save_journal_entry. now rewrite Hex.
Qed.

End BuilderFacts.

Lemma existsb_false_filter {A : Type} (f : A -> bool) (l : list A) :
  existsb f l = false -> filter f l = [].
Proof.
  induction l as [|x l IH]; simpl; intros H; auto.
  apply orb_false_iff in H. destruct H as [Hx Hl].
  rewrite Hx. now apply IH.
Qed.



(** The builder itself compares no totals: with a collaborator that accepts
    every document the lopsided entry is persisted, and with one that only
    refuses on [submit()] the draft stays behind. *)
Lemma builder_relies_on_validation :
  ~ balanced lopsided
  /\ je_count "Journal Entry - 77" "NX"
       (fst (@__save_journal_entry lenient_storage nx
               "Journal Entry - 77" lopsided "2024-01-31" books)) = 1%nat
  /\ map JournalEntryDoc.docstatus
       (JournalEntries
          (fst (@__save_journal_entry submit_refusing_storage nx
                  "Journal Entry - 77" even_lines "2024-01-31" books))) = [0%nat].
Proof.
  split; [| split; vm_compute; reflexivity].
  intros H. apply balancedb_spec in H. vm_compute in H. discriminate H.
Qed.

Section Idempotence.
Context {storage : StorageCollaborator}.
Variable Invoice : Type.
Variable invoice_dict :
  QuickBooksMigrator -> Database -> Invoice -> bool -> bool -> result SalesInvoiceDoc.t.
Variable self : QuickBooksMigrator.

Lemma sales_invoice_noop invoice quickbooks_id is_return is_pos db :
  exists_sales_invoice db quickbooks_id (company self) = true ->
  _save_sales_invoice Invoice invoice_dict self invoice quickbooks_id is_return is_pos db
  = (db, Ok tt).
Proof.
  intros Hex. unfold _save_sales_invoice. now rewrite Hex.
Qed.

Lemma builder_first_call quickbooks_id accounts posting_date db :
  exists_journal_entry db quickbooks_id (company self) = false ->
  je_insert_ok db (draft_journal_entry self quickbooks_id accounts posting_date db) = true ->
  let db1 := fst (__save_journal_entry self quickbooks_id accounts posting_date db) in
  je_count quickbooks_id (company self) db1 = 1%nat
  /\ exists_journal_entry db1 quickbooks_id (company self) = true.
Proof.
  intros Hex Hins. cbv zeta.
  assert (Hkey : forall st,
            je_matches quickbooks_id (company self)
              {| JournalEntryDoc.name := je_autoname db;
                 JournalEntryDoc.quickbooks_id := quickbooks_id;
                 JournalEntryDoc.company := company self;
                 JournalEntryDoc.posting_date := posting_date;
                 JournalEntryDoc.accounts := accounts;
                 JournalEntryDoc.docstatus := st |} = true).
  { intros st. unfold je_matches. simpl. now rewrite !String.eqb_refl. }
  unfold __save_journal_entry. rewrite Hex. simpl.
  fold (draft_journal_entry self quickbooks_id accounts posting_date db).
  rewrite Hins.
  pose proof (existsb_false_filter _ _ Hex) as Hnone.
  destruct (je_submit_ok _ _); unfold je_count, exists_journal_entry; simpl;
    unfold draft_journal_entry, submitted; simpl;
    rewrite Hkey, Hnone; auto.
Qed.

Lemma sales_invoice_first_call invoice quickbooks_id is_return is_pos d db :
  exists_sales_invoice db quickbooks_id (company self) = false ->
  invoice_dict self db invoice is_return is_pos = Ok d ->
  si_insert_ok db (keyed quickbooks_id (company self) (si_autoname db) 0 d) = true ->
  let db1 := fst (_save_sales_invoice Invoice invoice_dict self invoice quickbooks_id
                    is_return is_pos db) in
  si_count quickbooks_id (company self) db1 = 1%nat
  /\ exists_sales_invoice db1 quickbooks_id (company self) = true.
Proof.
  intros Hex Hdict Hins. cbv zeta.
  assert (Hkey : forall st,
            si_matches quickbooks_id (company self)
              (keyed quickbooks_id (company self) (si_autoname db) st d) = true).
  { intros st. unfold si_matches, keyed. simpl. now rewrite !String.eqb_refl. }
  unfold _save_sales_invoice. rewrite Hex, Hdict. simpl. rewrite Hins.
  pose proof (existsb_false_filter _ _ Hex) as Hnone.
  destruct (si_submit_ok _ _); unfold si_count, exists_sales_invoice; simpl;
    rewrite Hkey, Hnone; auto.
Qed.

(** The builder, [_save_sales_invoice] and the JournalEntry transformer,
    called twice: when a record with the key exists they return the database
    they were given; starting without such a record, a call whose record the
    storage collaborator accepts leaves exactly one record with the key, and
    the next call changes nothing. *)
Lemma accepted_record_is_saved_once (quickbooks_id : string) (db : Database) :
  (forall accounts posting_date,
      exists_journal_entry db quickbooks_id (company self) = true ->
      __save_journal_entry self quickbooks_id accounts posting_date db = (db, Ok tt))
  /\ (forall invoice is_return is_pos,
      exists_sales_invoice db quickbooks_id (company self) = true ->
      _save_sales_invoice Invoice invoice_dict self invoice quickbooks_id
        is_return is_pos db = (db, Ok tt))
  /\ (forall accounts posting_date,
      exists_journal_entry db quickbooks_id (company self) = false ->
      je_insert_ok db
        (draft_journal_entry self quickbooks_id accounts posting_date db) = true ->
      let db1 := fst (__save_journal_entry self quickbooks_id accounts posting_date db) in
      je_count quickbooks_id (company self) db1 = 1%nat
      /\ __save_journal_entry self quickbooks_id accounts posting_date db1 = (db1, Ok tt))
  /\ (forall invoice is_return is_pos d,
      exists_sales_invoice db quickbooks_id (company self) = false ->
      invoice_dict self db invoice is_return is_pos = Ok d ->
      si_insert_ok db (keyed quickbooks_id (company self) (si_autoname db) 0 d) = true ->
      let db1 := fst (_save_sales_invoice Invoice invoice_dict self invoice
                        quickbooks_id is_return is_pos db) in
      si_count quickbooks_id (company self) db1 = 1%nat
      /\ _save_sales_invoice Invoice invoice_dict self invoice quickbooks_id
           is_return is_pos db1 = (db1, Ok tt))
  /\ (forall journal_entry accounts,
      quickbooks_id = "Journal Entry - " ++ JournalEntry.Id journal_entry ->
      exists_journal_entry db quickbooks_id (company self) = false ->
      journal_entry_accounts self db journal_entry = Ok accounts ->
      je_insert_ok db
        (draft_journal_entry self quickbooks_id accounts
           (JournalEntry.TxnDate journal_entry) db) = true ->
      let db1 := fst (_save_journal_entry self journal_entry db) in
      je_count quickbooks_id (company self) db1 = 1%nat
      /\ _save_journal_entry self journal_entry db1 = (db1, Ok tt)).
Proof.
  split; [| split; [| split; [| split]]].
  - intros accounts posting_date Hex. now apply builder_noop.
  - intros invoice is_return is_pos Hex. now apply sales_invoice_noop.
  - intros accounts posting_date Hex Hins.
    destruct (builder_first_call quickbooks_id accounts posting_date db Hex Hins)
      as [Hcount Hnow].
    split; [exact Hcount | now apply builder_noop].
  - intros invoice is_return is_pos d Hex Hdict Hins.
    destruct (sales_invoice_first_call invoice quickbooks_id is_return is_pos d db
                Hex Hdict Hins) as [Hcount Hnow].
    split; [exact Hcount | now apply sales_invoice_noop].
  - intros journal_entry accounts Hkey Hex Hacc Hins.
    destruct (builder_first_call quickbooks_id accounts
                (JournalEntry.TxnDate journal_entry) db Hex Hins) as [Hcount Hnow].
    assert (Hfirst : _save_journal_entry self journal_entry db
                     = __save_journal_entry self quickbooks_id accounts
                         (JournalEntry.TxnDate journal_entry) db).
    { unfold _save_journal_entry. rewrite Hacc, <- Hkey. reflexivity. }
    cbv zeta. rewrite Hfirst. split; [exact Hcount |].
    set (db1 := fst (__save_journal_entry self quickbooks_id accounts
                       (JournalEntry.TxnDate journal_entry) db)) in *.
    unfold _save_journal_entry. rewrite <- Hkey.
    destruct (journal_entry_accounts self db1 journal_entry) as [accounts1 | e] eqn:Hagain.
    + now apply builder_noop.
    + exfalso.
      assert (Hsame : Accounts db1 = Accounts db).
      { subst db1. unfold __save_journal_entry. rewrite Hex. simpl.
        destruct (je_insert_ok db _); [destruct (je_submit_ok _ _) |]; reflexivity. }
      assert (Hframe : journal_entry_accounts self db1 journal_entry
                       = journal_entry_accounts self db journal_entry).
      { clear - Hsame. destruct db1, db. simpl in Hsame. subst. reflexivity. }
      rewrite Hframe, Hacc in Hagain. discriminate.
Qed.

End Idempotence.

(** ** The key test of every transformer *)


Lemma count_of_present_key quickbooks_id company_ db :
  exists_journal_entry db quickbooks_id company_ = true ->
  (1 <= je_count quickbooks_id company_ db)%nat.
Proof.
  unfold je_count, exists_journal_entry.
  induction (JournalEntries db) as [| je jes IH]; simpl; [discriminate |].
  destruct (je_matches quickbooks_id company_ je); simpl; [lia | exact IH].
Qed.

Section KeyTest.
Context {storage : StorageCollaborator}.
Context {purchase_storage : PurchaseInvoiceStorage}.
Variable SalesDetail : Type.
Variable PurchaseDetail : Type.
Variable invoice_dict :
  QuickBooksMigrator -> Database -> SalesRecord.t SalesDetail -> bool -> bool ->
  result SalesInvoiceDoc.t.
Variable purchase_invoice_dict :
  QuickBooksMigrator -> Database -> PurchaseRecord.t PurchaseDetail -> bool ->
  result PurchaseInvoiceDoc.t.
Variable customers : list CustomerDoc.t.
Variable self : QuickBooksMigrator.

Lemma only_logs_keeps_entries quickbooks_id db db' :
  only_logs quickbooks_id db db' -> JournalEntries db' = JournalEntries db.
Proof. intros [-> | [e ->]]; reflexivity. Qed.

Lemma builder_keyed_step quickbooks_id accounts posting_date db :
  keyed_step self quickbooks_id db
    (fst (__save_journal_entry self quickbooks_id accounts posting_date db)).
Proof.
  assert (Hkey : forall st,
            je_matches quickbooks_id (company self)
              {| JournalEntryDoc.name := je_autoname db;
                 JournalEntryDoc.quickbooks_id := quickbooks_id;
                 JournalEntryDoc.company := company self;
                 JournalEntryDoc.posting_date := posting_date;
                 JournalEntryDoc.accounts := accounts;
                 JournalEntryDoc.docstatus := st |} = true).
  { intros st. unfold je_matches. simpl. now rewrite !String.eqb_refl. }
  destruct (builder_outcomes self quickbooks_id accounts posting_date db)
    as [Hex | Hex Hins | Hex Hins | Hex Hins].
  - now left.
  - now left.
  - right. split; [exact Hex |]. eexists. split; [reflexivity | apply Hkey].
  - right. split; [exact Hex |]. eexists. split; [reflexivity | apply Hkey].
Qed.





Lemma invoice_as_entry_keyed_step invoice quickbooks_id db :
  keyed_step self quickbooks_id db
    (fst (_save_invoice_as_journal_entry SalesDetail customers self invoice
            quickbooks_id db)).
Proof.
  unfold _save_invoice_as_journal_entry.
  destruct (invoice_je_accounts SalesDetail customers self db invoice); simpl;
    [apply builder_keyed_step | now left].
Qed.



End KeyTest.



Section PaymentFacts.
Context {storage : StorageCollaborator}.

(** C6.  A payment record without a [DepositToAccountRef] makes
    [_save_payment] return at once: the database is the one it was given
    (no entry, no log) and nothing is raised. *)
Theorem payment_without_deposit_is_skipped
    (self : QuickBooksMigrator) (payment : Payment.t) (db : Database) :
  Payment.DepositToAccountRef payment = None ->
  _save_payment self payment db = (db, Ok tt).
Proof.
  intros Habsent. unfold _save_payment. rewrite Habsent. reflexivity.
Qed.

End PaymentFacts.

Lemma payment_without_deposit_is_skipped_witness :
  @_save_payment balance_checking_storage nx payment_without_deposit books
  = (books, Ok tt).
Proof.
  apply (@payment_without_deposit_is_skipped balance_checking_storage nx
           payment_without_deposit books).
  reflexivity.
Defined.

Section CaughtFailures.
Context {storage : StorageCollaborator}.
Variable self : QuickBooksMigrator.

Lemma ledger_line_raises_key_error db fr line e :
  ledger_line self db fr line = Raise e -> e = KeyError.
Proof.
  unfold ledger_line.
  destruct (gl_line_is_zero line); [discriminate |].
  unfold mapped_account, dict_index.
  destruct (GLLine.account line) as [a |].
  - destruct (dict_get accounts_map a); cbn [bind].
    + destruct (gl_party db line). discriminate.
    + now intros [= <-].
  - cbn [bind]. now intros [= <-].
Qed.

Lemma unmapped_line_stops_the_loop db lines :
  forall fr,
    (exists line, In line lines /\ gl_line_is_zero line = false
                  /\ match GLLine.account line with
                     | Some a => dict_get accounts_map a = None
                     | None => True
                     end) ->
    for_each_with (ledger_line self db) fr lines = Raise KeyError.
Proof.
  induction lines as [|l lines IH]; intros fr [line [Hin [Hnz Hmap]]].
  - destruct Hin.
  - simpl. destruct (ledger_line self db fr l) as [fr' | e] eqn:Hl; simpl.
    + destruct Hin as [-> | Hin].
      * exfalso. unfold ledger_line in Hl. rewrite Hnz in Hl.
        unfold mapped_account, dict_index in Hl.
        destruct (GLLine.account line) as [a |].
        -- rewrite Hmap in Hl. discriminate.
        -- discriminate.
      * apply IH. exists line. auto.
    + apply ledger_line_raises_key_error in Hl. now subst e.
Qed.

(** C9.  When some line of a General Ledger entry is not an all-zero line
    and names an account that is not a key of [accounts_map] (or names no
    account), [__save_ledger_entry_as_je] persists nothing: the [KeyError]
    is caught and logged, the builder is never reached, and the documents
    are those of the database it was given. *)
Theorem unmapped_account_persists_nothing
    (ledger_entry : LedgerEntry.t) (quickbooks_id : string) (db : Database)
    (unmapped :
       exists line,
         In line (LedgerEntry.lines ledger_entry)
         /\ gl_line_is_zero line = false
         /\ match GLLine.account line with
            | Some a => dict_get accounts_map a = None
            | None => True
            end) :
  __save_ledger_entry_as_je self ledger_entry quickbooks_id db
  = (_log_error KeyError quickbooks_id db, Ok tt)
  /\ JournalEntries (fst (__save_ledger_entry_as_je self ledger_entry quickbooks_id db))
     = JournalEntries db.
Proof.
  assert (Hrun : __save_ledger_entry_as_je self ledger_entry quickbooks_id db
                 = (_log_error KeyError quickbooks_id db, Ok tt)).
  { unfold __save_ledger_entry_as_je, ledger_entry_accounts.
    rewrite (unmapped_line_stops_the_loop db _ _ unmapped). reflexivity. }
  split; [exact Hrun | now rewrite Hrun].
Qed.

(** C10.  A bill payment whose [PayType] is neither [Check] nor
    [CreditCard] never reaches the builder: either a line of the payment
    already fails, or reading the bank account id, which no branch assigned,
    fails; the failure is caught and logged, and no Journal Entry is
    created. *)
Theorem other_pay_type_persists_nothing
    (bill_payment : BillPayment.t) (db : Database) :
  BillPayment.PayType bill_payment <> "Check" ->
  BillPayment.PayType bill_payment <> "CreditCard" ->
  (exists e,
      _save_bill_payment self bill_payment db
      = (_log_error e ("BillPayment - " ++ BillPayment.Id bill_payment) db, Ok tt))
  /\ JournalEntries (fst (_save_bill_payment self bill_payment db))
     = JournalEntries db.
Proof.
  intros Hcheck Hcard.
  apply String.eqb_neq in Hcheck. apply String.eqb_neq in Hcard.
  assert (Hrun : exists e,
             _save_bill_payment self bill_payment db
             = (_log_error e ("BillPayment - " ++ BillPayment.Id bill_payment) db, Ok tt)).
  { unfold _save_bill_payment, bill_payment_accounts.
    destruct (for_each_with (bill_payment_line self db bill_payment) Locals.initial
                (BillPayment.Line bill_payment)) as [fr | e]; simpl.
    - unfold bill_payment_bank_account_id. rewrite Hcheck, Hcard. simpl.
      now exists UnboundLocalError.
    - now exists e. }
  split; [exact Hrun |].
  destruct Hrun as [e ->]. reflexivity.
Qed.

End CaughtFailures.

Lemma unmapped_account_persists_nothing_witness :
  @__save_ledger_entry_as_je balance_checking_storage nx advance_payment_12
    "Advance Payment - 12" books
  = (_log_error KeyError "Advance Payment - 12" books, Ok tt)
  /\ JournalEntries
       (fst (@__save_ledger_entry_as_je balance_checking_storage nx advance_payment_12
               "Advance Payment - 12" books))
     = JournalEntries books.
Proof.
  apply (@unmapped_account_persists_nothing balance_checking_storage nx
           advance_payment_12 "Advance Payment - 12" books).
  exists (gl_line "Customer Advances - QB - NX" 500 0).
  split; [right; left; reflexivity | split; reflexivity].
Defined.

Lemma other_pay_type_persists_nothing_witness :
  (exists e,
      @_save_bill_payment balance_checking_storage nx bill_payment_by_cash books
      = (_log_error e "BillPayment - 45" books, Ok tt))
  /\ JournalEntries
       (fst (@_save_bill_payment balance_checking_storage nx bill_payment_by_cash books))
     = JournalEntries books.
Proof.
  apply (@other_pay_type_persists_nothing balance_checking_storage nx
           bill_payment_by_cash books); discriminate.
Defined.

Section Fetcher.
Variable remote : Http.Remote.

Lemma get_skips_unauthorised :
  forall k depth s,
    (forall i, (i < k)%nat ->
       Http.status_code (Http.respond remote (Http.requests_sent s + i)) = 401%Z) ->
    (forall i, (i < k)%nat ->
       Http.refresh remote (Http.tokens_refreshed s + i) = true) ->
    _get (k + depth) remote s = _get depth remote (advanced k s).
Proof.
  induction k as [|k IH]; intros depth s H401 Hrefresh.
  - simpl. unfold advanced. destruct s as [r t]. simpl.
    now rewrite !Nat.add_0_r.
  - simpl.
    pose proof (H401 0%nat ltac:(lia)) as H0. rewrite Nat.add_0_r in H0.
    rewrite H0. simpl.
    pose proof (Hrefresh 0%nat ltac:(lia)) as R0. rewrite Nat.add_0_r in R0.
    rewrite R0.
    rewrite IH.
    + unfold advanced. simpl. f_equal. f_equal; lia.
    + intros i Hi. simpl. specialize (H401 (S i) ltac:(lia)).
      now replace (S (Http.requests_sent s + i)) with (Http.requests_sent s + S i)%nat by lia.
    + intros i Hi. simpl. specialize (Hrefresh (S i) ltac:(lia)).
      now replace (S (Http.tokens_refreshed s + i)) with (Http.tokens_refreshed s + S i)%nat by lia.
Qed.

(** C3, as amended.  On a 401 response [_get] refreshes the tokens and
    issues the request again, and it does so for every further consecutive
    401: after [k] such responses, each followed by a successful refresh, and
    then a response with another status, it has sent [k + 1] requests,
    refreshed [k] times and returns that last response.  A 401 is never
    turned into an error by itself; when the responses stay 401 the retries
    end only with the interpreter's recursion limit. *)
Theorem get_retries_while_unauthorised
    (k depth : nat) (s : Http.Session)
    (unauthorised : forall i, (i < k)%nat ->
       Http.status_code (Http.respond remote (Http.requests_sent s + i)) = 401%Z)
    (refreshed : forall i, (i < k)%nat ->
       Http.refresh remote (Http.tokens_refreshed s + i) = true) :
  ((k < depth)%nat ->
   Http.status_code (Http.respond remote (Http.requests_sent s + k)) <> 401%Z ->
   _get depth remote s
   = ({| Http.requests_sent := Http.requests_sent s + k + 1;
         Http.tokens_refreshed := Http.tokens_refreshed s + k |},
      Ok (Http.respond remote (Http.requests_sent s + k))))
  /\ (depth = k -> _get depth remote s = (advanced k s, Raise RecursionError))
  /\ ((k < depth)%nat ->
      Http.status_code (Http.respond remote (Http.requests_sent s + k)) = 401%Z ->
      Http.refresh remote (Http.tokens_refreshed s + k) = false ->
      _get depth remote s
      = ({| Http.requests_sent := Http.requests_sent s + k + 1;
            Http.tokens_refreshed := Http.tokens_refreshed s + k |},
         Raise TokenError)).
Proof.
  split; [| split].
  - intros Hdepth Hother.
    replace depth with (k + S (depth - k - 1))%nat by lia.
    rewrite (get_skips_unauthorised k _ s unauthorised refreshed).
    simpl. apply Z.eqb_neq in Hother. rewrite Hother.
    unfold advanced. simpl. f_equal. f_equal. lia.
  - intros ->.
    replace k with (k + 0)%nat at 1 by lia.
    now rewrite (get_skips_unauthorised k _ s unauthorised refreshed).
  - intros Hdepth Hagain Hfail.
    replace depth with (k + S (depth - k - 1))%nat by lia.
    rewrite (get_skips_unauthorised k _ s unauthorised refreshed).
    simpl. rewrite Hagain, Hfail. simpl.
    f_equal. f_equal. lia.
Qed.

End Fetcher.

Lemma get_retries_while_unauthorised_witness :
  _get 1000 unauthorised_twice Http.fresh
  = ({| Http.requests_sent := 3; Http.tokens_refreshed := 2 |},
     Ok (Http.respond unauthorised_twice 2)).
Proof.
  assert (unauthorised : forall i, (i < 2)%nat ->
            Http.status_code
              (Http.respond unauthorised_twice (Http.requests_sent Http.fresh + i))
            = 401%Z).
  { intros i Hi. destruct i as [|[|i]]; [reflexivity | reflexivity | lia]. }
  apply (proj1 (get_retries_while_unauthorised unauthorised_twice 2 1000 Http.fresh
                  unauthorised (fun i Hi => eq_refl))).
  - apply Nat.ltb_lt. reflexivity.
  - discriminate.
Defined.

(** C3, the claim as stated fails: the service answers 401, 401, 200.  The
    claim has the second 401 propagate as an error after two requests and one
    refresh, which is what [get_retrying_once] does; [_get] refreshes a
    second time, sends a third request and returns its response. *)
Lemma second_consecutive_401_is_retried :
  _get 1000 unauthorised_twice Http.fresh
  = ({| Http.requests_sent := 3; Http.tokens_refreshed := 2 |},
     Ok {| Http.status_code := 200; Http.text := "{}" |})
  /\ get_retrying_once unauthorised_twice Http.fresh
     = ({| Http.requests_sent := 2; Http.tokens_refreshed := 1 |},
        Raise TransportError).
Proof.
  split; vm_compute; reflexivity.
Qed.

(** ** Party inference *)

Lemma no_colon_no_match (s : string) :
  has_colon s = false -> re_match_group1 s = None.
Proof.
  induction s as [|c rest IH]; simpl; intros H; [reflexivity |].
  apply orb_false_iff in H. destruct H as [Hc Hrest].
  rewrite (IH Hrest), Hc.
  now destruct (is_line_feed c).
Qed.

Lemma match_ends_at_last_colon (p q : string) :
  has_line_feed p = false -> has_colon q = false ->
  re_match_group1 (p ++ String ":" q) = Some p.
Proof.
  intros Hp Hq. induction p as [|c p IH]; simpl in *.
  - now rewrite (no_colon_no_match q Hq).
  - apply orb_false_iff in Hp. destruct Hp as [Hc Hp].
    now rewrite Hc, (IH Hp).
Qed.

Section PartyInference.
Variable db : Database.

(** C4, as amended.  The party is the reference name cut at its LAST colon:
    for a name [p:q] in which [q] holds no colon (and [p] no line feed) the
    party is [p], so a name with one colon collapses to its top segment and
    [A:B:C] becomes [A:B]; a name without a colon is used unchanged.  The
    three places that infer a party (JournalEntry lines, Deposit lines,
    General Ledger lines) all apply this cut to the entity reference name. *)
Theorem party_is_cut_at_last_colon :
  (forall p q, has_line_feed p = false -> has_colon q = false ->
               strip_party (p ++ String ":" q) = p)
  /\ (forall s, has_colon s = false -> strip_party s = s)
  /\ (forall account_name detail ent,
        in_strings account_name (account_names_of_type db ["Payable"; "Receivable"]) = true ->
        JournalEntry.Entity detail = Some ent ->
        snd (je_party db account_name detail)
        = Some (strip_party (Ref.name (JournalEntry.EntityRef ent))))
  /\ (forall self trans_currency R line account_name ent l,
        _get_account_name_by_id self db
          (Some (Ref.value (JournalEntry.AccountRef
                              (JournalEntry.JournalEntryLineDetail line))))
        = Ok account_name ->
        in_strings account_name (account_names_of_type db ["Payable"; "Receivable"]) = true ->
        JournalEntry.Entity (JournalEntry.JournalEntryLineDetail line) = Some ent ->
        je_line_accounts self db trans_currency R line = Ok [l] ->
        party l = or_None (Some (strip_party (Ref.name (JournalEntry.EntityRef ent)))))
  /\ (forall account_name line ent pp,
        in_strings account_name (account_names_of_type db ["Payable"; "Receivable"]) = true ->
        Deposit.DepositLineDetail_Entity line = Some ent ->
        deposit_party db account_name line = Ok pp ->
        snd pp = Some (strip_party (Deposit.name ent)))
  /\ (forall line,
        nonempty (GLLine.vendor line) = true ->
        opt_in_strings (GLLine.account line) (account_names_of_type db ["Payable"]) = true ->
        snd (gl_party db line) = Some (strip_party (GLLine.vendor line)))
  /\ (forall line,
        nonempty (GLLine.vendor line)
        && opt_in_strings (GLLine.account line) (account_names_of_type db ["Payable"]) = false ->
        nonempty (GLLine.customer line) = true ->
        opt_in_strings (GLLine.account line) (account_names_of_type db ["Receivable"]) = true ->
        snd (gl_party db line) = Some (strip_party (GLLine.customer line))).
Proof.
  repeat split.
  - intros p q Hp Hq. unfold strip_party.
    now rewrite (match_ends_at_last_colon p q Hp Hq).
  - intros s Hs. unfold strip_party. now rewrite (no_colon_no_match s Hs).
  - intros account_name detail ent Hin Hent. unfold je_party.
    now rewrite Hin, Hent.
  - intros self trans_currency R line account_name ent l Hacc Hin Hent.
    unfold je_line_accounts.
    destruct (String.eqb (JournalEntry.DetailType line) "JournalEntryLineDetail");
      [| discriminate].
    rewrite Hacc. cbn [bind].
    destruct (je_rate_and_amount _ trans_currency R (JournalEntry.Amount line))
      as [rate amount].
    unfold je_party. rewrite Hin, Hent.
    destruct (dict_index posting_type_field_mapping _) as [field |]; cbn [bind];
      [| discriminate].
    now intros [= <-].
  - intros account_name line ent pp Hin Hent. unfold deposit_party.
    rewrite Hin, Hent.
    destruct (Deposit.type ent) as [lower_key |]; simpl; [| discriminate].
    destruct (String.eqb (upper lower_key) "VENDOR"); simpl.
    + now intros [= <-].
    + destruct (Deposit.Type_ ent) as [upper_key |]; simpl; [| discriminate].
      destruct (String.eqb (upper upper_key) "CUSTOMER"); now intros [= <-].
  - intros line Hv Hp. unfold gl_party. now rewrite Hv, Hp.
  - intros line Hv Hc Hr. unfold gl_party. now rewrite Hv, Hc, Hr.
Qed.

End PartyInference.

Lemma party_is_cut_at_last_colon_witness :
  strip_party ("Acme:Dubai" ++ String ":" "Branch") = "Acme:Dubai"
  /\ strip_party "Acme" = "Acme".
Proof.
  split.
  - apply (proj1 (party_is_cut_at_last_colon books)); reflexivity.
  - apply (proj1 (proj2 (party_is_cut_at_last_colon books))); reflexivity.
Defined.

(** C4, the claim as stated fails: a JournalEntry line on the receivable
    account for the customer [Acme:Dubai:Branch] gets the party
    [Acme:Dubai], where cutting at the first colon would give [Acme]. *)
Lemma party_of_nested_name_keeps_middle_segment :
  match je_line_accounts nx books "USD" (367 # 100) line_for_sub_customer with
  | Ok [l] => party l = Some "Acme:Dubai"
  | _ => False
  end
  /\ strip_at_first_colon "Acme:Dubai:Branch" = "Acme".
Proof.
  split; vm_compute; reflexivity.
Qed.

(** ** Settlement amounts *)

Lemma cap_is_min (line_amount outstanding_amount : Q) :
  cap line_amount outstanding_amount = Qmin line_amount outstanding_amount.
Proof.
  unfold cap, Qmin, GenericMinMax.gmin.
  destruct (Qle_bool line_amount outstanding_amount) eqn:Hle; simpl.
  - apply Qle_bool_iff in Hle. apply Qle_alt in Hle.
    destruct (line_amount ?= outstanding_amount)%Q eqn:Hcmp; auto. now destruct Hle.
  - destruct (line_amount ?= outstanding_amount)%Q eqn:Hcmp; auto.
    + assert (Hc : line_amount <= outstanding_amount)
        by (apply Qle_alt; rewrite Hcmp; discriminate).
      apply Qle_bool_iff in Hc. congruence.
    + assert (Hc : line_amount <= outstanding_amount)
        by (apply Qle_alt; rewrite Hcmp; discriminate).
      apply Qle_bool_iff in Hc. congruence.
Qed.

Section Settlement.
Variable self : QuickBooksMigrator.
Variable db : Database.

Lemma payment_reference_keeps_accounts si_quickbooks_id fr fr1 :
  payment_reference self db si_quickbooks_id fr = Ok fr1 ->
  Locals.accounts fr1 = Locals.accounts fr.
Proof.
  unfold payment_reference.
  destruct (exists_sales_invoice db si_quickbooks_id (company self)).
  - destruct (first _) as [si |]; simpl; [| discriminate].
    destruct (exists_journal_entry db si_quickbooks_id (company self)).
    + destruct (get_journal_entry _ _ _) as [je |]; simpl; [| discriminate].
      destruct (next_party_line _ _) as [l |]; simpl; [| discriminate].
      now intros [= <-].
    + now intros [= <-].
  - simpl.
    destruct (exists_journal_entry db si_quickbooks_id (company self)).
    + destruct (get_journal_entry _ _ _) as [je |]; simpl; [| discriminate].
      destruct (next_party_line _ _) as [l |]; simpl; [| discriminate].
      now intros [= <-].
    + now intros [= <-].
Qed.

(** What the code does with the amount of a line linked to an invoice.  The
    line added to the entry carries the smaller of the line amount and an
    outstanding amount, converted by the line's rate (1 when the party
    account is in the currency of the payment) and rounded to two decimals.
    The outstanding amount is that of the first document with the key in
    the table, whatever its company: the lookup at lines 1213-1219 and
    1308-1314 has no company filter. *)
Lemma settled_amount_is_capped :
  (forall line_amount outstanding_amount,
      cap line_amount outstanding_amount = Qmin line_amount outstanding_amount)
  /\ (forall payment fr line fr' linked,
      first (Payment.LinkedTxn line) = Ok linked ->
      LinkedTxn.TxnType linked = "Invoice" ->
      payment_line self db payment fr line = Ok fr' ->
      exists invoice l,
        first (filter (fun si =>
                 String.eqb (SalesInvoiceDoc.quickbooks_id si)
                   ("Invoice - " ++ LinkedTxn.TxnId linked)) (SalesInvoices db))
        = Ok invoice
        /\ Locals.accounts fr' = (Locals.accounts fr ++ [l])%list
        /\ credit_in_account_currency l
           = Some (flt2 (Qmin (Payment.Amount line)
                           (SalesInvoiceDoc.outstanding_amount invoice)
                         * (if opt_eqb (get_account_currency db (account l))
                                 (Ref.value (Payment.CurrencyRef payment))
                            then 1 else Payment.ExchangeRate payment))))
  /\ (forall bill_payment fr line fr' linked,
      first (BillPayment.LinkedTxn line) = Ok linked ->
      LinkedTxn.TxnType linked = "Bill" ->
      bill_payment_line self db bill_payment fr line = Ok fr' ->
      exists invoice l,
        first (filter (fun pi =>
                 String.eqb (PurchaseInvoiceDoc.quickbooks_id pi)
                   ("Bill - " ++ LinkedTxn.TxnId linked)) (PurchaseInvoices db))
        = Ok invoice
        /\ Locals.accounts fr' = (Locals.accounts fr ++ [l])%list
        /\ debit_in_account_currency l
           = Some (flt2 (Qmin (BillPayment.Amount line)
                           (PurchaseInvoiceDoc.outstanding_amount invoice)
                         * (if opt_eqb (get_account_currency db (account l))
                                 (Ref.value (BillPayment.CurrencyRef bill_payment))
                            then 1
                            else if truthy (PurchaseInvoiceDoc.conversion_rate invoice)
                                 then PurchaseInvoiceDoc.conversion_rate invoice
                                 else 1))))
  /\ cap 80 50 = 50.
Proof.
  split; [exact cap_is_min | split; [| split; [| reflexivity]]].
  - intros payment fr line fr' linked Hlinked Htype.
    unfold payment_line. rewrite Hlinked. cbn [bind]. rewrite Htype. cbn [String.eqb].
    rewrite !Ascii.eqb_refl.
    destruct (payment_reference self db _ fr) as [fr1 |] eqn:Href; cbn [bind];
      [| discriminate].
    apply payment_reference_keeps_accounts in Href.
    destruct (first (filter _ (SalesInvoices db))) as [invoice |]; cbn [bind];
      [| discriminate].
    destruct (read_local (Locals.party_account fr1)) as [pa |]; cbn [bind];
      [| discriminate].
    destruct (read_local (Locals.party fr1)) as [pt |]; cbn [bind]; [| discriminate].
    destruct (read_local (Locals.reference_type fr1)) as [rt |]; cbn [bind];
      [| discriminate].
    destruct (read_local (Locals.reference_name fr1)) as [rn |]; cbn [bind];
      [| discriminate].
    intros [= <-].
    eexists invoice, _. split; [reflexivity |]. split.
    + unfold Locals.append. cbn [Locals.accounts]. now rewrite Href.
    + unfold payment_credit_line. cbn [credit_in_account_currency account].
      rewrite cap_is_min.
      destruct (opt_eqb (get_account_currency db pa) _); reflexivity.
  - intros bill_payment fr line fr' linked Hlinked Htype.
    unfold bill_payment_line. rewrite Hlinked. cbn [bind]. rewrite Htype.
    cbn [String.eqb]. rewrite !Ascii.eqb_refl.
    destruct (if exists_purchase_invoice db _ (company self) then _ else _)
      as [fr1 |] eqn:Hfr; cbn [bind]; [| discriminate].
    assert (Hfr0 : Locals.accounts fr1 = Locals.accounts fr).
    { destruct (exists_purchase_invoice db _ (company self)).
      - destruct (first (filter (pi_matches _ _) _)) as [pinv |];
          cbn [bind] in Hfr; [| discriminate].
        now injection Hfr as <-.
      - now injection Hfr as <-. }
    clear Hfr.
    destruct (read_local (Locals.party_account fr1)) as [pa |]; cbn [bind];
      [| discriminate].
    destruct (first (filter _ (PurchaseInvoices db))) as [invoice |]; cbn [bind];
      [| discriminate].
    destruct (read_local (Locals.party fr1)) as [pt |]; cbn [bind]; [| discriminate].
    destruct (read_local (Locals.reference_type fr1)) as [rt |]; cbn [bind];
      [| discriminate].
    destruct (read_local (Locals.reference_name fr1)) as [rn |]; cbn [bind];
      [| discriminate].
    intros [= <-].
    eexists invoice, _. split; [reflexivity |]. split.
    + unfold Locals.append. cbn [Locals.accounts]. now rewrite Hfr0.
    + unfold supplier_line. cbn [debit_in_account_currency account].
      rewrite cap_is_min.
      destruct (opt_eqb (get_account_currency db pa) _); reflexivity.
Qed.

End Settlement.

Lemma settled_amount_is_capped_at_the_worked_payment :
  match payment_line nx books payment_of_80 Locals.initial line_of_80 with
  | Ok fr' =>
      exists l,
        Locals.accounts fr' = [l]
        /\ credit_in_account_currency l = Some (flt2 (Qmin 80 50 * 1))
  | Raise _ => False
  end.
Proof.
  destruct (payment_line nx books payment_of_80 Locals.initial line_of_80)
    as [fr' | e] eqn:Hrun.
  - destruct (proj1 (proj2 (settled_amount_is_capped nx books))
                payment_of_80 Locals.initial line_of_80 fr'
                {| LinkedTxn.TxnType := "Invoice"; LinkedTxn.TxnId := "9001" |}
                eq_refl eq_refl Hrun) as [invoice [l [Hinvoice [Hlines Hamount]]]].
    exists l. split; [exact Hlines |].
    vm_compute in Hinvoice. injection Hinvoice as <-.
    rewrite Hamount. vm_compute in Hrun. injection Hrun as <-.
    injection Hlines as <-. reflexivity.
  - vm_compute in Hrun. discriminate Hrun.
Qed.

(** C5, the code at the failing input.  Two companies have a Sales Invoice
    with the key of invoice 9001.  The payment of 80 by the company NX is
    linked to its own invoice, on which 100 is outstanding, and the entry
    refers to that invoice by name; yet the amount it settles is 50, the
    outstanding amount of the other company's invoice, which the lookup
    without a company filter finds first.  The claim gives min(80, 100),
    which is 80. *)
Lemma cap_reads_the_invoice_of_another_company :
  map (fun si => (SalesInvoiceDoc.company si, SalesInvoiceDoc.name si,
                  SalesInvoiceDoc.quickbooks_id si))
    (SalesInvoices books_of_two_companies)
  = [("QX", "ACC-SINV-0044", "Invoice - 9001");
     ("NX", "ACC-SINV-0009", "Invoice - 9001")]
  /\ map SalesInvoiceDoc.outstanding_amount (SalesInvoices books_of_two_companies)
     = [50; 100]
  /\ Qmin 80 100 == 80
  /\ match payment_accounts nx books_of_two_companies payment_of_80
             {| Ref.value := "35"; Ref.name := "ADCB USD" |} with
     | Ok (settled :: _) =>
         reference_name settled = Some "ACC-SINV-0009"
         /\ get_or (credit_in_account_currency settled) 0 == 50
     | _ => False
     end.
Proof.
  vm_compute. repeat split; try reflexivity; discriminate.
Qed.

(** The scenario of the specification, end to end: the entry built for the
    payment of 80 credits the receivable account with 50 and debits the
    deposit account with the payment total. *)
Lemma payment_of_80_settles_50 :
  match payment_accounts nx books payment_of_80
          {| Ref.value := "35"; Ref.name := "ADCB USD" |} with
  | Ok [settled; deposited] =>
      account settled = Some "Debtors USD - NX"
      /\ get_or (credit_in_account_currency settled) 0 == 50
      /\ get_or (debit_in_account_currency deposited) 0 == 80
  | _ => False
  end.
Proof.
  vm_compute. repeat split; reflexivity.
Qed.

(** ** Currency conversion *)


Section Conversion.
Variable self : QuickBooksMigrator.
Variable db : Database.







End Conversion.



(** The lines rebuilt from the General Ledger report take no transaction
    rate: in the entry of 734 AED against 150 and 50 USD the cash line has
    no exchange rate, and the two receivable lines get 734/150 and 734/50. *)
Lemma ledger_lines_carry_a_back_solved_rate :
  match ledger_entry_accounts nx ledger_books advance_payment_14 with
  | Ok [cash; first_; second_] =>
      exchange_rate cash = None
      /\ get_or (exchange_rate first_) 0 == 367 # 75
      /\ get_or (exchange_rate second_) 0 == 367 # 25
  | _ => False
  end.
Proof.
  vm_compute. repeat split; reflexivity.
Qed.

(** ** Failures and the migration loop *)

Section Propagation.
Context {storage : StorageCollaborator}.
Variable self : QuickBooksMigrator.

(** The transformers whose whole body is inside [try] never raise. *)
Lemma wrapped_transformers_never_raise db :
  (forall payment, snd (_save_payment self payment db) = Ok tt)
  /\ (forall bill_payment, snd (_save_bill_payment self bill_payment db) = Ok tt)
  /\ (forall ledger_entry quickbooks_id,
        snd (__save_ledger_entry_as_je self ledger_entry quickbooks_id db) = Ok tt).
Proof.
  repeat split.
  - intros payment. unfold _save_payment.
    destruct (Payment.DepositToAccountRef payment) as [deposit_to |]; [| reflexivity].
    destruct (payment_accounts self db payment deposit_to); [| reflexivity].
    apply builder_never_raises.
  - intros bill_payment. unfold _save_bill_payment.
    destruct (bill_payment_accounts self db bill_payment); [| reflexivity].
    apply builder_never_raises.
  - intros ledger_entry quickbooks_id. unfold __save_ledger_entry_as_je.
    destruct (ledger_entry_accounts self db ledger_entry) as [[| l ls] |];
      try reflexivity.
    apply builder_never_raises.
Qed.

(** [_save_journal_entry] has no [try]: a failed lookup leaves it. *)
Lemma journal_entry_failure_propagates journal_entry db e :
  journal_entry_accounts self db journal_entry = Raise e ->
  _save_journal_entry self journal_entry db = (db, Raise e).
Proof.
  intros Hfail. unfold _save_journal_entry. now rewrite Hfail.
Qed.

(** The handlers of [_save_purchase] and [_save_deposit] dump [accounts],
    which is unassigned while the first account lookup fails. *)
Lemma purchase_handler_reads_unassigned_accounts purchase db e :
  _get_account_name_by_id self db (Some (Ref.value (Purchase.AccountRef purchase)))
  = Raise e ->
  _save_purchase self purchase db = (db, Raise UnboundLocalError).
Proof.
  intros Hfail. unfold _save_purchase. now rewrite Hfail.
Qed.

(** A loop whose body never raises visits every entry. *)
Lemma loop_of_wrapped_body_never_raises {A : Type} (body : A -> Proc) entries :
  (forall entry db, snd (body entry db) = Ok tt) ->
  forall db, snd (for_entries body entries db) = Ok tt.
Proof.
  intros Hbody. induction entries as [|entry rest IH]; intros db; simpl.
  - reflexivity.
  - specialize (Hbody entry db).
    destruct (body entry db) as [db' [[] | e]]; simpl in Hbody.
    + apply IH.
    + discriminate Hbody.
Qed.

(** The loop over the General Ledger entries of a kind never stops early. *)
Lemma gl_loop_never_raises entity db :
  snd (_migrate_entries_from_gl self entity db) = Ok tt.
Proof.
  unfold _migrate_entries_from_gl.
  destruct (dict_get (general_ledger self) entity) as [by_id |]; [| reflexivity].
  apply loop_of_wrapped_body_never_raises.
  intros entry db0. unfold _save_entity_as_je.
  apply wrapped_transformers_never_raise.
Qed.

Lemma loop_stops_at_first_raise {A : Type} (body : A -> Proc) entry rest db db' e :
  body entry db = (db', Raise e) ->
  for_entries body (entry :: rest) db = (db', Raise e).
Proof.
  intros Hraise. simpl. now rewrite Hraise.
Qed.

End Propagation.

(** C8, the code at the failing input.  The first JournalEntry record names
    an account that cannot be resolved.  [_save_journal_entry] is not
    wrapped in [try], so the [IndexError] leaves it and leaves the loop of
    [_save_entries]: the second record, which on its own is migrated, is
    never visited, and only the phase-level handler of [_migrate_entries]
    logs the failure. *)
Theorem unresolved_account_leaves_the_loop :
  (forall storage : StorageCollaborator,
      @_save_entries storage nx KJournalEntry [journal_entry_76; journal_entry_77] books
      = (books, Raise IndexError))
  /\ je_count "Journal Entry - 77" "NX"
       (fst (@_save_entries balance_checking_storage nx KJournalEntry
               [journal_entry_77] books)) = 1%nat
  /\ (forall storage : StorageCollaborator,
      @_migrate_entries storage nx KJournalEntry [journal_entry_76; journal_entry_77] books
      = _log_error IndexError "response.text" books).
Proof.
  assert (Hstop : forall storage : StorageCollaborator,
            @_save_entries storage nx KJournalEntry
              [journal_entry_76; journal_entry_77] books
            = (books, Raise IndexError)).
  { intros storage. unfold _save_entries.
    apply loop_stops_at_first_raise. simpl.
    apply journal_entry_failure_propagates. vm_compute. reflexivity. }
  split; [exact Hstop |]. split.
  - vm_compute. reflexivity.
  - intros storage. unfold _migrate_entries. now rewrite Hstop.
Qed.

(** * Further properties of the engine *)

(** ** What a run may change *)

Lemma grown_by_refl (db : Database) : grown_by [] [] db db.
Proof. unfold grown_by. repeat split; reflexivity. Qed.

Lemma grown_by_log (e : exn) (data : string) (db : Database) :
  grown_by [] [{| log_exception := e; log_data := data |}] db (_log_error e data db).
Proof. unfold grown_by. repeat split; reflexivity. Qed.

Lemma grown_by_trans jes1 logs1 jes2 logs2 db db1 db2 :
  grown_by jes1 logs1 db db1 -> grown_by jes2 logs2 db1 db2 ->
  grown_by (jes2 ++ jes1) (logs2 ++ logs1) db db2.
Proof.
  unfold grown_by.
  intros (Ha & Hs & Hp & Hi & Hj & Hl) (Ha' & Hs' & Hp' & Hi' & Hj' & Hl').
  repeat split; try congruence.
  - now rewrite Hj', Hj, app_assoc.
  - now rewrite Hl', Hl, app_assoc.
Qed.

Section Frame.
Context {storage : StorageCollaborator}.
Variable self : QuickBooksMigrator.

Lemma one_step_refl db : one_step self db db.
Proof.
  exists [], []. split; [apply grown_by_refl |]. simpl. repeat split; auto.
Qed.

Lemma one_step_log e data db : one_step self db (_log_error e data db).
Proof.
  exists [], [{| log_exception := e; log_data := data |}].
  split; [apply grown_by_log |]. simpl. repeat split; auto.
Qed.

Lemma builder_one_step quickbooks_id accounts posting_date db :
  one_step self db (fst (__save_journal_entry self quickbooks_id accounts posting_date db)).
Proof.
  destruct (builder_outcomes self quickbooks_id accounts posting_date db)
    as [Hex | Hex Hins | Hex Hins | Hex Hins].
  - apply one_step_refl.
  - apply one_step_log.
  - exists [draft_journal_entry self quickbooks_id accounts posting_date db],
           [{| log_exception := ValidationError; log_data := quickbooks_id |}].
    split; [unfold grown_by; repeat split; reflexivity |].
    simpl. repeat split; auto.
  - exists [submitted (draft_journal_entry self quickbooks_id accounts posting_date db)],
           [].
    split; [unfold grown_by; repeat split; reflexivity |].
    simpl. repeat split; auto.
Qed.

Lemma ledger_entry_one_step ledger_entry quickbooks_id db :
  one_step self db (fst (__save_ledger_entry_as_je self ledger_entry quickbooks_id db)).
Proof.
  unfold __save_ledger_entry_as_je.
  destruct (ledger_entry_accounts self db ledger_entry) as [[| l ls] | e]; simpl.
  - apply one_step_refl.
  - apply builder_one_step.
  - apply one_step_log.
Qed.

Lemma handler_one_step (entity : Entity) (record : record_of entity) db :
  one_step self db (fst (entity_method_map self entity record db)).
Proof.
  destruct entity; simpl in *;
    try (unfold _save_advance_payment, _save_tax_payment, _save_inventory_qty_adjust;
         apply ledger_entry_one_step).
  - unfold _save_journal_entry.
    destruct (journal_entry_accounts self db record); simpl;
      [apply builder_one_step | apply one_step_refl].
  - unfold _save_payment.
    destruct (Payment.DepositToAccountRef record) as [deposit_to |];
      [| apply one_step_refl].
    destruct (payment_accounts self db record deposit_to); simpl;
      [apply builder_one_step | apply one_step_log].
  - unfold _save_bill_payment.
    destruct (bill_payment_accounts self db record); simpl;
      [apply builder_one_step | apply one_step_log].
  - unfold _save_purchase.
    destruct (_get_account_name_by_id self db _) as [account_name |]; simpl;
      [| apply one_step_refl].
    destruct (purchase_accounts self db record account_name); simpl;
      [apply builder_one_step | apply one_step_log].
  - unfold _save_deposit.
    destruct (_get_account_name_by_id self db _) as [account_name |]; simpl;
      [| apply one_step_refl].
    destruct (deposit_accounts self db record account_name); simpl;
      [apply builder_one_step | apply one_step_log].
Qed.

(** The loop of [_save_entries] in terms of [grown_by]; what [submit()]
    does to other documents is the ledger application's and is not
    represented. *)
Lemma save_entries_grows_the_tables (entity : Entity) (entries : list (record_of entity))
    (db : Database) :
  exists jes logs,
    grown_by jes logs db (fst (_save_entries self entity entries db))
    /\ (length jes <= length entries)%nat
    /\ (length logs <= length entries)%nat
    /\ Forall (fun je => JournalEntryDoc.company je = company self) jes.
Proof.
  unfold _save_entries. revert db.
  induction entries as [| entry rest IH]; intros db; simpl.
  - exists [], []. split; [apply grown_by_refl |]. simpl. repeat split; auto.
  - pose proof (handler_one_step entity entry db) as (jes1 & logs1 & Hg1 & Hj1 & Hl1 & Hc1).
    destruct (entity_method_map self entity entry db) as [db1 [[] | e]]; simpl in *.
    + destruct (IH db1) as (jes2 & logs2 & Hg2 & Hj2 & Hl2 & Hc2).
      exists (jes2 ++ jes1)%list, (logs2 ++ logs1)%list.
      split; [eapply grown_by_trans; eassumption |].
      rewrite !length_app. repeat split; try lia.
      apply Forall_app. now split.
    + exists jes1, logs1. split; [exact Hg1 |]. repeat split; try lia. exact Hc1.
Qed.

(** X1.  For the entity kinds whose handlers end in the Journal Entry
    builder (JournalEntry, Payment, BillPayment, Purchase, Deposit, Advance
    Payment, the three Tax Payment kinds and Inventory Qty Adjust): whatever
    the records are and whether or not the loop is left by an exception,
    [_save_entries] removes and replaces no Journal Entry and no Error Log.
    It only adds in front of the ones that were there, at most one Journal
    Entry per record, each for the migrator's company, and at most one Error
    Log per record. *)
Theorem save_entries_adds_at_most_one_entry_per_record
    (entity : Entity) (entries : list (record_of entity)) (db : Database) :
  exists jes logs,
    JournalEntries (fst (_save_entries self entity entries db))
    = (jes ++ JournalEntries db)%list
    /\ ErrorLogs (fst (_save_entries self entity entries db))
       = (logs ++ ErrorLogs db)%list
    /\ (length jes <= length entries)%nat
    /\ (length logs <= length entries)%nat
    /\ Forall (fun je => JournalEntryDoc.company je = company self) jes.
Proof.
  destruct (save_entries_grows_the_tables entity entries db)
    as (jes & logs & Hgrown & Hjes & Hlogs & Hcompany).
  exists jes, logs.
  destruct Hgrown as (_ & _ & _ & _ & Hj & Hl).
  repeat split; assumption.
Qed.

Lemma wrapped_handler_never_raises (entity : Entity) (record : record_of entity) db :
  fully_wrapped entity = true ->
  snd (entity_method_map self entity record db) = Ok tt.
Proof.
  intros Hw. pose proof (wrapped_transformers_never_raise self db) as (Hp & Hb & Hl).
  destruct entity; try discriminate Hw; simpl in *;
    try apply Hp; try apply Hb;
    unfold _save_advance_payment, _save_tax_payment, _save_inventory_qty_adjust;
    apply Hl.
Qed.

Lemma for_entries_app {A : Type} (body : A -> Proc) (first_ rest : list A) db :
  (forall entry db0, snd (body entry db0) = Ok tt) ->
  for_entries body (first_ ++ rest) db
  = for_entries body rest (fst (for_entries body first_ db)).
Proof.
  intros Hbody. revert db.
  induction first_ as [| entry first_ IH]; intros db; simpl.
  - reflexivity.
  - specialize (Hbody entry db).
    destruct (body entry db) as [db1 [[] | e]]; simpl in Hbody.
    + apply IH.
    + discriminate Hbody.
Qed.

(** X2.  For the kinds whose handler is fully wrapped (Payment, BillPayment
    and the kinds rebuilt from the General Ledger), [_save_entries] never
    raises and a failing record does not keep the later ones from being
    processed: running the loop on one list followed by another is running
    it on the first and then, from the database that leaves, on the second. *)
Theorem wrapped_kinds_process_every_record (entity : Entity)
    (before after : list (record_of entity)) (db : Database) :
  fully_wrapped entity = true ->
  snd (_save_entries self entity (before ++ after) db) = Ok tt
  /\ _save_entries self entity (before ++ after) db
     = _save_entries self entity after (fst (_save_entries self entity before db)).
Proof.
  intros Hw. unfold _save_entries. split.
  - apply loop_of_wrapped_body_never_raises.
    intros entry db0. now apply wrapped_handler_never_raises.
  - apply for_entries_app.
    intros entry db0. now apply wrapped_handler_never_raises.
Qed.

End Frame.

Lemma save_entries_adds_at_most_one_entry_per_record_witness :
  (exists jes logs,
      JournalEntries
        (fst (@_save_entries balance_checking_storage nx KDeposit
                [deposit_of_300; deposit_with_cash_back] books))
      = (jes ++ JournalEntries books)%list
      /\ ErrorLogs
           (fst (@_save_entries balance_checking_storage nx KDeposit
                   [deposit_of_300; deposit_with_cash_back] books))
         = (logs ++ ErrorLogs books)%list
      /\ (length jes <= 2)%nat
      /\ (length logs <= 2)%nat
      /\ Forall (fun je => JournalEntryDoc.company je = "NX") jes)
  /\ map JournalEntryDoc.quickbooks_id
       (JournalEntries
          (fst (@_save_entries balance_checking_storage nx KDeposit
                  [deposit_of_300; deposit_with_cash_back] books)))
     = ["Deposit - 15"; "Deposit - 14"].
Proof.
  split.
  - exact (@save_entries_adds_at_most_one_entry_per_record balance_checking_storage
             nx KDeposit [deposit_of_300; deposit_with_cash_back] books).
  - vm_compute. reflexivity.
Defined.

Lemma wrapped_kinds_process_every_record_witness :
  snd (@_save_entries balance_checking_storage nx KPayment
         ([payment_without_deposit] ++ [payment_of_80]) books) = Ok tt
  /\ @_save_entries balance_checking_storage nx KPayment
       ([payment_without_deposit] ++ [payment_of_80]) books
     = @_save_entries balance_checking_storage nx KPayment [payment_of_80]
         (fst (@_save_entries balance_checking_storage nx KPayment
                 [payment_without_deposit] books)).
Proof.
  apply (@wrapped_kinds_process_every_record balance_checking_storage nx KPayment
           [payment_without_deposit] [payment_of_80] books).
  reflexivity.
Defined.

(** ** The authorised GET, whatever the service answers *)

(** X3.  Whatever the remote service answers and however deep the retries
    go, a response that [_get] returns is never a 401; it is the answer to
    the last request sent, every request before it was answered 401 and
    followed by one token refresh, so the requests sent are one more than the
    refreshes made, and their number does not exceed the recursion depth. *)
Theorem get_never_returns_unauthorised (remote : Http.Remote) :
  forall (depth : nat) (s s' : Http.Session) (response : Http.Response),
    _get depth remote s = (s', Ok response) ->
    Http.status_code response <> 401%Z
    /\ (Http.requests_sent s < Http.requests_sent s')%nat
    /\ response = Http.respond remote (Http.requests_sent s' - 1)
    /\ (Http.requests_sent s' - Http.requests_sent s
        = Http.tokens_refreshed s' - Http.tokens_refreshed s + 1)%nat
    /\ (Http.tokens_refreshed s <= Http.tokens_refreshed s')%nat
    /\ (Http.requests_sent s' - Http.requests_sent s <= depth)%nat
    /\ (forall i, (Http.requests_sent s <= i)%nat -> (i < Http.requests_sent s' - 1)%nat ->
          Http.status_code (Http.respond remote i) = 401%Z).
Proof.
  induction depth as [| depth IH]; intros s s' response Hrun; simpl in Hrun.
  - discriminate Hrun.
  - destruct (Http.status_code (Http.respond remote (Http.requests_sent s)) =? 401)%Z
      eqn:Hstatus.
    + destruct (Http.refresh remote (Http.tokens_refreshed s)); [| discriminate Hrun].
      apply IH in Hrun. simpl in Hrun.
      destruct Hrun as (Hne & Hlt & Hresp & Hcount & Hmono & Hdepth & Hall).
      repeat split; try assumption; try lia.
      intros i Hlo Hhi.
      destruct (Nat.eq_dec i (Http.requests_sent s)) as [-> | Hneq].
      * now apply Z.eqb_eq.
      * apply Hall; lia.
    + injection Hrun as <- <-. cbn [Http.requests_sent Http.tokens_refreshed].
      apply Z.eqb_neq in Hstatus.
      split; [exact Hstatus |]. split; [lia |]. split; [f_equal; lia |].
      split; [lia |]. split; [lia |]. split; [lia |].
      intros i Hlo Hhi. exfalso. lia.
Qed.

Lemma get_never_returns_unauthorised_witness :
  Http.status_code {| Http.status_code := 200; Http.text := "{}" |} <> 401%Z
  /\ (Http.requests_sent Http.fresh
      < Http.requests_sent {| Http.requests_sent := 3; Http.tokens_refreshed := 2 |})%nat.
Proof.
  pose proof (get_never_returns_unauthorised unauthorised_twice 1000 Http.fresh
                {| Http.requests_sent := 3; Http.tokens_refreshed := 2 |}
                {| Http.status_code := 200; Http.text := "{}" |} eq_refl) as H.
  exact (conj (proj1 H) (proj1 (proj2 H))).
Defined.

(** ** The party pattern is greedy *)

Lemma match_is_sound (s g : string) :
  re_match_group1 s = Some g ->
  exists q, s = g ++ String ":" q /\ has_line_feed g = false
            /\ re_match_group1 q = None.
Proof.
  revert g. induction s as [| c rest IH]; intros g; simpl; [discriminate |].
  destruct (is_line_feed c) eqn:Hlf; [discriminate |].
  destruct (re_match_group1 rest) as [g' |] eqn:Hrest.
  - intros [= <-]. destruct (IH g' eq_refl) as (q & Hs & Hg & Hq).
    exists q. simpl. rewrite Hlf, Hg. repeat split; auto. now rewrite Hs.
  - destruct (is_colon c) eqn:Hc; [| discriminate].
    intros [= <-]. exists rest. repeat split; auto.
    unfold is_colon in Hc. apply Ascii.eqb_eq in Hc. now subst c.
Qed.

Lemma match_finds_every_colon (p q : string) :
  has_line_feed p = false ->
  exists g, re_match_group1 (p ++ String ":" q) = Some g
            /\ (String.length p <= String.length g)%nat.
Proof.
  intros Hp. induction p as [| c p IH]; simpl in *.
  - destruct (re_match_group1 q) as [g |]; eexists; split; try reflexivity; simpl; lia.
  - apply orb_false_iff in Hp. destruct Hp as [Hc Hp].
    destruct (IH Hp) as (g & Hg & Hlen).
    rewrite Hc, Hg. eexists; split; [reflexivity |]. simpl. lia.
Qed.

(** X4.  When the party pattern matches a name, the party it yields is a
    prefix of the name that holds no line feed and is followed by a colon,
    and it is the longest such prefix: no other colon that could end the
    match lies further right.  When it does not match, no colon of the name
    is preceded by text free of line feeds, and the name is kept. *)
Theorem party_match_is_the_longest_prefix (name : string) :
  (forall g, re_match_group1 name = Some g ->
     strip_party name = g
     /\ (exists q, name = g ++ String ":" q)
     /\ has_line_feed g = false
     /\ (forall p q, name = p ++ String ":" q -> has_line_feed p = false ->
           (String.length p <= String.length g)%nat))
  /\ (re_match_group1 name = None ->
      strip_party name = name
      /\ forall p q, name = p ++ String ":" q -> has_line_feed p = true).
Proof.
  split.
  - intros g Hg. split; [unfold strip_party; now rewrite Hg |].
    destruct (match_is_sound name g Hg) as (q & Hs & Hlf & Hq).
    split; [now exists q |]. split; [exact Hlf |].
    intros p q' Hname Hp.
    destruct (match_finds_every_colon p q' Hp) as (g' & Hg' & Hlen).
    rewrite <- Hname, Hg in Hg'. now injection Hg' as <-.
  - intros Hnone. split; [unfold strip_party; now rewrite Hnone |].
    intros p q Hname.
    destruct (has_line_feed p) eqn:Hp; [reflexivity |].
    destruct (match_finds_every_colon p q Hp) as (g' & Hg' & _).
    rewrite <- Hname, Hnone in Hg'. discriminate Hg'.
Qed.

Lemma party_match_is_the_longest_prefix_witness :
  strip_party "Acme:Dubai:Branch" = "Acme:Dubai"
  /\ (exists q, "Acme:Dubai:Branch" = "Acme:Dubai" ++ String ":" q)
  /\ has_line_feed "Acme:Dubai" = false
  /\ (forall p q, "Acme:Dubai:Branch" = p ++ String ":" q -> has_line_feed p = false ->
        (String.length p <= String.length "Acme:Dubai")%nat).
Proof.
  apply (proj1 (party_match_is_the_longest_prefix "Acme:Dubai:Branch") "Acme:Dubai").
  reflexivity.
Defined.

(** ** Lines without amounts in entries rebuilt from the General Ledger *)

Section ZeroLines.
Context {storage : StorageCollaborator}.
Variable self : QuickBooksMigrator.
Variable db : Database.

Lemma zero_lines_are_skipped lines :
  forall fr,
    for_each_with (ledger_line self db) fr lines
    = for_each_with (ledger_line self db) fr
        (filter (fun line => negb (gl_line_is_zero line)) lines).
Proof.
  induction lines as [| line lines IH]; intros fr; simpl; [reflexivity |].
  destruct (gl_line_is_zero line) eqn:Hzero; simpl.
  - unfold ledger_line at 1. rewrite Hzero. simpl. apply IH.
  - destruct (ledger_line self db fr line) as [fr' | e]; simpl; [apply IH | reflexivity].
Qed.

(** X5.  A General Ledger line whose credit, debit and two home amounts are
    all zero takes no part in the entry built from it: the outcome is the
    one for the entry without such lines, even when the line names an
    account the rewrite table lacks.  An entry that has only such lines
    creates nothing and logs nothing. *)
Theorem zero_lines_take_no_part (ledger_entry : LedgerEntry.t) (quickbooks_id : string) :
  __save_ledger_entry_as_je self ledger_entry quickbooks_id db
  = __save_ledger_entry_as_je self (without_zero_lines ledger_entry) quickbooks_id db
  /\ (forallb gl_line_is_zero (LedgerEntry.lines ledger_entry) = true ->
      __save_ledger_entry_as_je self ledger_entry quickbooks_id db = (db, Ok tt)).
Proof.
  assert (Hsame : ledger_entry_accounts self db ledger_entry
                  = ledger_entry_accounts self db (without_zero_lines ledger_entry)).
  { unfold ledger_entry_accounts, without_zero_lines. simpl.
    now rewrite zero_lines_are_skipped. }
  split.
  - unfold __save_ledger_entry_as_je. now rewrite Hsame.
  - intros Hall. unfold __save_ledger_entry_as_je. rewrite Hsame.
    unfold ledger_entry_accounts, without_zero_lines. simpl.
    assert (Hnone : filter (fun line => negb (gl_line_is_zero line))
                      (LedgerEntry.lines ledger_entry) = []).
    { induction (LedgerEntry.lines ledger_entry) as [| l ls IH]; simpl in *;
        [reflexivity |].
      apply andb_true_iff in Hall. destruct Hall as [Hl Hls].
      rewrite Hl. simpl. now apply IH. }
    rewrite Hnone. reflexivity.
Qed.

End ZeroLines.

Lemma zero_lines_take_no_part_witness :
  @__save_ledger_entry_as_je balance_checking_storage nx empty_adjustment
    "Inventory Qty Adjust - 13" books = (books, Ok tt).
Proof.
  apply (proj2 (@zero_lines_take_no_part balance_checking_storage nx books
                  empty_adjustment "Inventory Qty Adjust - 13")).
  reflexivity.
Defined.

(** ** Refunds *)

Lemma flip_swaps (l : AccountLine) : one_sided l -> flip l = Ok (swap_sides l).
Proof.
  unfold one_sided, flip, swap_sides.
  intros [[Hd Hc] | [Hd Hc]].
  - destruct (debit_in_account_currency l) as [d |]; [| now destruct Hd].
    now rewrite Hc.
  - rewrite Hd. destruct (credit_in_account_currency l) as [c |]; [| now destruct Hc].
    reflexivity.
Qed.

Lemma flip_all_swaps (accounts : list AccountLine) :
  Forall one_sided accounts ->
  for_each (fun l => l' <- flip l ;; Ok [l']) accounts = Ok (map swap_sides accounts).
Proof.
  induction 1 as [| l ls Hl Hls IH]; simpl; [reflexivity |].
  now rewrite (flip_swaps l Hl), IH.
Qed.

Lemma swapped_totals (accounts : list AccountLine) :
  total_debit (map swap_sides accounts) = total_credit accounts
  /\ total_credit (map swap_sides accounts) = total_debit accounts.
Proof.
  induction accounts as [| l ls [IHd IHc]]; simpl; [split; reflexivity |].
  unfold total_debit, total_credit in *. simpl. now rewrite IHd, IHc.
Qed.

Section Refund.
Variable self : QuickBooksMigrator.
Variable db : Database.

Lemma purchase_line_keeps_one_sided purchase a accounts line a' accounts' :
  purchase_line self db purchase (a, accounts) line = Ok (a', accounts') ->
  Forall one_sided accounts -> Forall one_sided accounts'.
Proof.
  unfold purchase_line.
  destruct (if String.eqb (Purchase.DetailType line) "AccountBasedExpenseLineDetail"
            then _ else _) as [account_ |]; cbn [bind]; [| discriminate].
  destruct (read_local account_) as [acc |]; cbn [bind]; [| discriminate].
  destruct (truthy (Purchase.Amount line)); intros [= <- <-] Hall; [| exact Hall].
  apply Forall_app. split; [exact Hall |].
  constructor; [| constructor]. left. simpl. split; [discriminate | reflexivity].
Qed.

Lemma purchase_lines_keep_one_sided purchase lines :
  forall fr fr',
    for_each_with (purchase_line self db purchase) fr lines = Ok fr' ->
    Forall one_sided (snd fr) -> Forall one_sided (snd fr').
Proof.
  induction lines as [| line lines IH]; intros fr fr'; simpl.
  - now intros [= <-].
  - destruct (purchase_line self db purchase fr line) as [[a1 accounts1] |] eqn:Hline;
      cbn [bind]; [| discriminate].
    intros Hrest Hall. destruct fr as [a accounts].
    apply (IH _ _ Hrest). simpl.
    eapply purchase_line_keeps_one_sided; eassumption.
Qed.

Lemma purchase_taxes_one_sided purchase tax_lines taxes :
  for_each (purchase_tax_accounts self db purchase) tax_lines = Ok taxes ->
  Forall one_sided taxes.
Proof.
  revert taxes. induction tax_lines as [| line tax_lines IH]; intros taxes; simpl.
  - intros [= <-]. constructor.
  - destruct (purchase_tax_accounts self db purchase line) as [ys |] eqn:Hline;
      cbn [bind]; [| discriminate].
    destruct (for_each _ tax_lines) as [zs |]; cbn [bind]; [| discriminate].
    intros [= <-]. apply Forall_app. split; [| now apply IH].
    unfold purchase_tax_accounts in Hline.
    destruct (truthy (TaxLine.Amount line)).
    + destruct (tax_account_name self db _) as [a |]; cbn [bind] in Hline;
        [| discriminate].
      injection Hline as <-. constructor; [| constructor].
      left. simpl. split; [discriminate | reflexivity].
    + injection Hline as <-. constructor.
Qed.

(** X6.  The [Credit] flag of a Purchase (a refund) exchanges the sides of
    every line and changes nothing else: when the entry can be built without
    the flag, it can be built with it, line for line with debit and credit
    exchanged, so the debit total of one is the credit total of the other and
    the refund is in balance exactly when the purchase is.  Exchanging the
    sides never fails, because every line of a Purchase posts on one side
    only. *)
Theorem refund_exchanges_the_sides (purchase : Purchase.t) (account_name : string)
    (accounts : list AccountLine) :
  purchase_accounts self db (with_credit false purchase) account_name = Ok accounts ->
  purchase_accounts self db (with_credit true purchase) account_name
  = Ok (map swap_sides accounts)
  /\ Forall one_sided accounts
  /\ total_debit (map swap_sides accounts) = total_credit accounts
  /\ total_credit (map swap_sides accounts) = total_debit accounts
  /\ (balanced accounts <-> balanced (map swap_sides accounts)).
Proof.
  unfold purchase_accounts.
  change (purchase_line self db (with_credit true purchase))
    with (purchase_line self db (with_credit false purchase)).
  change (purchase_credit_line self db (with_credit true purchase) account_name)
    with (purchase_credit_line self db (with_credit false purchase) account_name).
  change (purchase_tax_accounts self db (with_credit true purchase))
    with (purchase_tax_accounts self db (with_credit false purchase)).
  cbn [with_credit Purchase.Credit Purchase.Line Purchase.TxnTaxDetail].
  destruct (for_each_with _ _ (Purchase.Line purchase)) as [fr |] eqn:Hlines;
    cbn [bind]; [| discriminate].
  assert (Hfr : Forall one_sided (snd fr)).
  { apply (purchase_lines_keep_one_sided _ _ _ _ Hlines). simpl.
    constructor; [| constructor]. right. simpl. split; [reflexivity | discriminate]. }
  assert (Htaxes : forall taxes,
            match Purchase.TxnTaxDetail purchase with
            | Some detail =>
                tax_lines <- index_key (TxnTaxDetail.TaxLine detail) ;;
                for_each (purchase_tax_accounts self db (with_credit false purchase))
                  tax_lines
            | None => Ok []
            end = Ok taxes -> Forall one_sided taxes).
  { intros taxes. destruct (Purchase.TxnTaxDetail purchase) as [detail |].
    - destruct (index_key (TxnTaxDetail.TaxLine detail)) as [tax_lines |];
        cbn [bind]; [| discriminate].
      apply purchase_taxes_one_sided.
    - intros [= <-]. constructor. }
  destruct (match Purchase.TxnTaxDetail purchase with
            | Some _ => _ | None => _ end) as [taxes |]; cbn [bind]; [| discriminate].
  specialize (Htaxes taxes eq_refl).
  intros [= <-].
  assert (Hall : Forall one_sided (snd fr ++ taxes)) by (apply Forall_app; now split).
  split; [now apply flip_all_swaps |]. split; [exact Hall |].
  destruct (swapped_totals (snd fr ++ taxes)) as [Hd Hc].
  split; [exact Hd |]. split; [exact Hc |].
  unfold balanced. rewrite Hd, Hc. split; intros H; now symmetry.
Qed.

End Refund.

Lemma refund_exchanges_the_sides_witness :
  match purchase_accounts nx books (with_credit false purchase_of_100) "ADCB USD - NX" with
  | Ok accounts =>
      purchase_accounts nx books (with_credit true purchase_of_100) "ADCB USD - NX"
      = Ok (map swap_sides accounts)
      /\ Forall one_sided accounts
      /\ total_debit (map swap_sides accounts) = total_credit accounts
      /\ total_credit (map swap_sides accounts) = total_debit accounts
      /\ (balanced accounts <-> balanced (map swap_sides accounts))
  | Raise _ => False
  end.
Proof.
  destruct (purchase_accounts nx books (with_credit false purchase_of_100) "ADCB USD - NX")
    as [accounts | e] eqn:Hrun.
  - exact (refund_exchanges_the_sides nx books purchase_of_100 "ADCB USD - NX"
             accounts Hrun).
  - vm_compute in Hrun. discriminate Hrun.
Defined.

(** ** Payments that cannot be settled *)

Section UnsettledPayments.
Context {storage : StorageCollaborator}.
Variable self : QuickBooksMigrator.
Variable db : Database.

Lemma lines_without_invoice_leave_locals payment lines :
  (forall line linked, In line lines ->
     first (Payment.LinkedTxn line) = Ok linked ->
     LinkedTxn.TxnType linked <> "Invoice") ->
  forall fr,
    (exists e, for_each_with (payment_line self db payment) fr lines = Raise e)
    \/ for_each_with (payment_line self db payment) fr lines = Ok fr.
Proof.
  induction lines as [| line lines IH]; intros Hnone fr; simpl.
  - now right.
  - unfold payment_line at 1 3.
    destruct (first (Payment.LinkedTxn line)) as [linked | e] eqn:Hlinked; cbn [bind].
    + assert (Hother : String.eqb (LinkedTxn.TxnType linked) "Invoice" = false).
      { apply String.eqb_neq. apply (Hnone line linked); [now left | exact Hlinked]. }
      rewrite Hother. cbn [bind].
      apply IH. intros l lk Hin. apply Hnone. now right.
    + left. now exists e.
Qed.

(** X7.  A payment that has a deposit account but no line linked to an
    Invoice is never persisted: the payment currency is assigned only while
    such a line is handled, so building the deposit line fails (or a line
    without a linked transaction, or the lookup of the deposit account,
    failed before); the failure is logged and no Journal Entry is created. *)
Theorem payment_without_invoice_line_is_never_persisted
    (payment : Payment.t) (deposit_to : Ref.t) :
  Payment.DepositToAccountRef payment = Some deposit_to ->
  (forall line linked, In line (Payment.Line payment) ->
     first (Payment.LinkedTxn line) = Ok linked ->
     LinkedTxn.TxnType linked <> "Invoice") ->
  (exists e,
      _save_payment self payment db
      = (_log_error e ("Payment - " ++ Payment.Id payment) db, Ok tt))
  /\ JournalEntries (fst (_save_payment self payment db)) = JournalEntries db.
Proof.
  intros Hdeposit Hnone.
  assert (Hrun : exists e,
             _save_payment self payment db
             = (_log_error e ("Payment - " ++ Payment.Id payment) db, Ok tt)).
  { unfold _save_payment. rewrite Hdeposit. unfold payment_accounts.
    destruct (lines_without_invoice_leave_locals payment _ Hnone Locals.initial)
      as [[e He] | Hok].
    - rewrite He. cbn [bind]. now exists e.
    - rewrite Hok. cbn [bind].
      destruct (_get_account_name_by_id self db _) as [deposit_account | e]; cbn [bind].
      + now exists UnboundLocalError.
      + now exists e. }
  split; [exact Hrun |]. destruct Hrun as [e ->]. reflexivity.
Qed.

Lemma line_without_sales_invoice_stops_the_loop payment lines :
  (exists line linked,
      In line lines
      /\ first (Payment.LinkedTxn line) = Ok linked
      /\ LinkedTxn.TxnType linked = "Invoice"
      /\ filter (fun si => String.eqb (SalesInvoiceDoc.quickbooks_id si)
                             ("Invoice - " ++ LinkedTxn.TxnId linked))
           (SalesInvoices db) = []) ->
  forall fr, exists e,
    for_each_with (payment_line self db payment) fr lines = Raise e.
Proof.
  induction lines as [| l lines IH]; intros (line & linked & Hin & Hlinked & Htype & Hno) fr.
  - destruct Hin.
  - simpl.
    destruct (payment_line self db payment fr l) as [fr' | e] eqn:Hl; cbn [bind].
    + destruct Hin as [-> | Hin].
      * exfalso. unfold payment_line in Hl. rewrite Hlinked in Hl. cbn [bind] in Hl.
        rewrite Htype in Hl. cbn [String.eqb] in Hl. rewrite !Ascii.eqb_refl in Hl.
        destruct (payment_reference self db _ fr) as [fr1 |]; cbn [bind] in Hl;
          [| discriminate Hl].
        rewrite Hno in Hl. discriminate Hl.
      * apply IH. exists line, linked. auto.
    + now exists e.
Qed.

(** X8.  A payment with a line against an invoice for which no Sales
    Invoice carries the key [Invoice - id] is never persisted, also when the
    invoice was saved as a Journal Entry under that key: the outstanding
    amount is read from the Sales Invoice table alone, the read fails, the
    failure is logged and no Journal Entry is created for the payment. *)
Theorem payment_of_invoice_without_sales_invoice_is_never_persisted
    (payment : Payment.t) (deposit_to : Ref.t) :
  Payment.DepositToAccountRef payment = Some deposit_to ->
  (exists line linked,
      In line (Payment.Line payment)
      /\ first (Payment.LinkedTxn line) = Ok linked
      /\ LinkedTxn.TxnType linked = "Invoice"
      /\ filter (fun si => String.eqb (SalesInvoiceDoc.quickbooks_id si)
                             ("Invoice - " ++ LinkedTxn.TxnId linked))
           (SalesInvoices db) = []) ->
  (exists e,
      _save_payment self payment db
      = (_log_error e ("Payment - " ++ Payment.Id payment) db, Ok tt))
  /\ JournalEntries (fst (_save_payment self payment db)) = JournalEntries db.
Proof.
  intros Hdeposit Hline.
  assert (Hrun : exists e,
             _save_payment self payment db
             = (_log_error e ("Payment - " ++ Payment.Id payment) db, Ok tt)).
  { unfold _save_payment. rewrite Hdeposit. unfold payment_accounts.
    destruct (line_without_sales_invoice_stops_the_loop payment _ Hline Locals.initial)
      as [e He].
    rewrite He. cbn [bind]. now exists e. }
  split; [exact Hrun |]. destruct Hrun as [e ->]. reflexivity.
Qed.

End UnsettledPayments.

Lemma payment_without_invoice_line_is_never_persisted_witness :
  (exists e,
      @_save_payment balance_checking_storage nx payment_of_credit_memo books
      = (_log_error e "Payment - 8" books, Ok tt))
  /\ JournalEntries
       (fst (@_save_payment balance_checking_storage nx payment_of_credit_memo books))
     = JournalEntries books.
Proof.
  apply (@payment_without_invoice_line_is_never_persisted balance_checking_storage
           nx books payment_of_credit_memo
           {| Ref.value := "35"; Ref.name := "ADCB USD" |}).
  - reflexivity.
  - intros line linked [<- | []] [= <-]. discriminate.
Defined.

Lemma payment_of_invoice_without_sales_invoice_is_never_persisted_witness :
  (exists e,
      @_save_payment balance_checking_storage nx payment_of_fallback_invoice
        books_with_fallback_invoice
      = (_log_error e "Payment - 9" books_with_fallback_invoice, Ok tt))
  /\ JournalEntries
       (fst (@_save_payment balance_checking_storage nx payment_of_fallback_invoice
               books_with_fallback_invoice))
     = JournalEntries books_with_fallback_invoice.
Proof.
  apply (@payment_of_invoice_without_sales_invoice_is_never_persisted
           balance_checking_storage nx books_with_fallback_invoice
           payment_of_fallback_invoice
           {| Ref.value := "35"; Ref.name := "ADCB USD" |}).
  - reflexivity.
  - eexists _, _. split; [left; reflexivity |]. repeat split; reflexivity.
Defined.

(** ** The shape of a Deposit entry *)

Lemma for_each_singletons {A B : Type} (body : A -> result (list B)) (xs : list A) :
  (forall x ys, body x = Ok ys -> length ys = 1%nat) ->
  forall zs, for_each body xs = Ok zs -> length zs = length xs.
Proof.
  intros Hone. induction xs as [| x xs IH]; intros zs; simpl.
  - now intros [= <-].
  - destruct (body x) as [ys |] eqn:Hx; cbn [bind]; [| discriminate].
    destruct (for_each body xs) as [ws |]; cbn [bind]; [| discriminate].
    intros [= <-]. rewrite length_app, (Hone x ys Hx), (IH ws eq_refl). reflexivity.
Qed.

Section DepositShape.
Variable self : QuickBooksMigrator.
Variable db : Database.

Lemma deposit_line_is_one_credit deposit line ys :
  deposit_line self db deposit line = Ok ys ->
  exists l, ys = [l] /\ deposit_credit self db deposit line l.
Proof.
  unfold deposit_line, deposit_credit.
  destruct (Deposit.LinkedTxn line).
  - intros [= <-]. eexists. split; [reflexivity |]. simpl.
    repeat split; try reflexivity; discriminate.
  - destruct (_get_account_name_by_id self db _) as [account_name |]; cbn [bind];
      [| discriminate].
    destruct (deposit_party db account_name line) as [pp |]; cbn [bind];
      [| discriminate].
    intros [= <-]. eexists. split; [reflexivity |].
    cbn [debit_in_account_currency credit_in_account_currency account party
         exchange_rate].
    split; [reflexivity |]. split; [discriminate |].
    split; [discriminate |]. split; [discriminate |].
    intros _. eexists account_name, _, _.
    split; [reflexivity |]. split; [reflexivity |]. split; [reflexivity |].
    split; [reflexivity |].
    unfold converted_once, get_account_currency.
    destruct (opt_eqb _ _); simpl; split; try reflexivity. ring.
Qed.

(** X9.  A Deposit entry that can be built has one debit line on the
    deposit account for the total (converted when that account is not in
    the deposit's currency), then exactly one credit line per detail line in
    the order of the record, then one debit line exactly when the record
    has a cash back part.  A detail line that refers to a linked transaction
    credits the undeposited funds account with its unconverted amount and
    names no party; any other detail line credits the account it names with
    its amount, converted once.  The cash back line debits the account the
    cash back part names with the cash back amount, unconverted. *)
Theorem deposit_entry_shape (deposit : Deposit.t) (account_name : string)
    (accounts : list AccountLine) :
  deposit_accounts self db deposit account_name = Ok accounts ->
  exists bank credits cash,
    accounts = (bank :: credits ++ cash)%list
    /\ account bank = Some account_name
    /\ credit_in_account_currency bank = None
    /\ (exists total, debit_in_account_currency bank = Some total
          /\ converted_once
               (opt_eqb (get_account_currency db (Some account_name))
                  (Ref.value (Deposit.CurrencyRef deposit)))
               (Deposit.ExchangeRate deposit) (Deposit.TotalAmt deposit)
               (get_or (exchange_rate bank) 0) total)
    /\ Forall2 (deposit_credit self db deposit) (Deposit.Line deposit) credits
    /\ length cash = match Deposit.CashBack deposit with Some _ => 1%nat | None => 0%nat end
    /\ Forall (fun l => credit_in_account_currency l = None) cash
    /\ cash_back_debit self db deposit cash.
Proof.
  unfold deposit_accounts, cash_back_debit.
  destruct (for_each (deposit_line self db deposit) (Deposit.Line deposit))
    as [credits |] eqn:Hcredits; cbn [bind]; [| discriminate].
  assert (Hshape : Forall2 (deposit_credit self db deposit)
                     (Deposit.Line deposit) credits).
  { clear - Hcredits. revert credits Hcredits.
    induction (Deposit.Line deposit) as [| line lines IH]; intros credits; simpl.
    - intros [= <-]. constructor.
    - destruct (deposit_line self db deposit line) as [ys |] eqn:Hline; cbn [bind];
        [| discriminate].
      destruct (for_each _ lines) as [zs |]; cbn [bind]; [| discriminate].
      intros [= <-].
      destruct (deposit_line_is_one_credit deposit line ys Hline) as (l & -> & Hl).
      simpl. constructor; [exact Hl | now apply IH]. }
  assert (Hconv : converted_once
                    (opt_eqb (get_account_currency db (Some account_name))
                       (Ref.value (Deposit.CurrencyRef deposit)))
                    (Deposit.ExchangeRate deposit) (Deposit.TotalAmt deposit)
                    (if opt_eqb (get_account_currency db (Some account_name))
                          (Ref.value (Deposit.CurrencyRef deposit))
                     then Deposit.ExchangeRate deposit else 1)
                    (Deposit.TotalAmt deposit
                     * (if negb (opt_eqb (get_account_currency db (Some account_name))
                                   (Ref.value (Deposit.CurrencyRef deposit)))
                        then Deposit.ExchangeRate deposit else 1))).
  { unfold converted_once.
    destruct (opt_eqb (get_account_currency db (Some account_name)) _); simpl;
      split; try reflexivity. ring. }
  destruct (Deposit.CashBack deposit) as [cb |].
  - destruct (_get_account_name_by_id self db _) as [a |] eqn:Hcash; cbn [bind];
      [| discriminate].
    intros [= <-].
    eexists _, credits, [_]. split; [reflexivity |].
    cbn [account credit_in_account_currency debit_in_account_currency
         exchange_rate get_or length party].
    split; [reflexivity |]. split; [reflexivity |].
    split; [eexists; split; [reflexivity | exact Hconv] |].
    split; [exact Hshape |]. split; [reflexivity |].
    split; [constructor; [reflexivity | constructor] |].
    eexists a, _. split; [reflexivity |]. split; [reflexivity |].
    cbn [account credit_in_account_currency debit_in_account_currency
         exchange_rate party].
    repeat split.
  - intros [= <-].
    eexists _, credits, []. split; [reflexivity |].
    cbn [account credit_in_account_currency debit_in_account_currency
         exchange_rate get_or length].
    split; [reflexivity |]. split; [reflexivity |].
    split; [eexists; split; [reflexivity | exact Hconv] |].
    split; [exact Hshape |]. split; [reflexivity |].
    split; [constructor | reflexivity].
Qed.

End DepositShape.

Lemma deposit_entry_shape_witness :
  match deposit_accounts nx books deposit_with_cash_back "Cash - NX" with
  | Ok accounts =>
      exists bank refund_ other cash,
        accounts = [bank; refund_; other; cash]
        /\ debit_in_account_currency bank = Some (260 * 1)
        /\ account refund_ = Some "Undeposited Funds - QB - NX"
        /\ credit_in_account_currency refund_ = Some 200
        /\ account other = Some "Creditors - NX"
        /\ account cash = Some "ADCB USD - NX"
        /\ debit_in_account_currency cash = Some 40
        /\ credit_in_account_currency cash = None
  | Raise _ => False
  end.
Proof.
  destruct (deposit_accounts nx books deposit_with_cash_back "Cash - NX")
    as [accounts | e] eqn:Hrun.
  - destruct (deposit_entry_shape nx books deposit_with_cash_back "Cash - NX"
                accounts Hrun)
      as (bank & credits & cash & Hall & Hbank & _ & _ & Hcredits & _ & _ & Hcash).
    unfold cash_back_debit in Hcash. cbn [deposit_with_cash_back Deposit.CashBack] in Hcash.
    destruct Hcash as (a & l & -> & Ha & Hla & Hld & Hlc & _).
    vm_compute in Ha. injection Ha as <-.
    vm_compute in Hrun. injection Hrun as <-.
    eexists _, _, _, _. split; [reflexivity |].
    injection Hall as Hb Hrest.
    repeat split; try reflexivity.
  - vm_compute in Hrun. discriminate Hrun.
Defined.

(** ** The General Ledger report parser *)

Section RowInduction.
Variable P : Report.row -> Prop.
Hypothesis on_data : forall data, P (Report.Data data).
Hypothesis on_other : forall type_, P (Report.Other type_).
Hypothesis on_section :
  forall header rows,
    match rows with Some rs => Forall P rs | None => True end ->
    P (Report.Sect header rows).

Fixpoint row_induction (row : Report.row) : P row :=
  match row with
  | Report.Data data => on_data data
  | Report.Other type_ => on_other type_
  | Report.Sect header rows =>
      on_section header rows
        match rows return match rows with Some rs => Forall P rs | None => True end with
        | Some rs =>
            (fix all (rs : list Report.row) : Forall P rs :=
               match rs with
               | [] => Forall_nil P
               | r :: rest => Forall_cons r (row_induction r) (all rest)
               end) rs
        | None => I
        end
  end.

End RowInduction.

Lemma opt_opt_eqb_eq (a b : option string) : opt_opt_eqb a b = true <-> a = b.
Proof.
  destruct a as [a |], b as [b |]; simpl; split; intros H;
    try discriminate; try reflexivity.
  - apply String.eqb_eq in H. now subst.
  - injection H as ->. apply String.eqb_refl.
Qed.

Section ParserFacts.
Variable flt : string -> Q.
Variable self : QuickBooksMigrator.
Variable db : Database.
Variable accounts_by_name : list (string * string).

Local Notation "'parse'" := (_get_gl_entries_from_section flt self db accounts_by_name).

Lemma not_specified_is_skipped row account gl :
  is_not_specified row = true -> parse row account gl = (gl, Ok tt).
Proof.
  destruct row as [data | [[| head cols] |] rows | type_]; simpl; try discriminate.
  unfold section_context. simpl.
  destruct (Report.id head); [discriminate |].
  destruct (Report.value head) as [v |]; [| discriminate].
  intros Hv. rewrite Hv.
  apply String.eqb_eq in Hv. subst v. reflexivity.
Qed.

Lemma pruned_rows_read_alike account rows :
  Forall (fun r => forall a gl, parse (prune r) a gl = parse r a gl) rows ->
  forall entries gl,
    section_rows flt parse account (prune_rows rows) entries gl
    = section_rows flt parse account rows entries gl.
Proof.
  induction 1 as [| r rest Hr Hrest IH]; intros entries gl; simpl; [reflexivity |].
  destruct (is_not_specified r) eqn:Hskip.
  - rewrite IH.
    destruct r as [data | header rs | type_]; simpl in Hskip; try discriminate.
    now rewrite (not_specified_is_skipped (Report.Sect header rs) account gl Hskip).
  - destruct r as [data | header rs | type_].
    + simpl. destruct (data_line flt account data); [apply IH | reflexivity].
    + specialize (Hr account gl).
      change (section_rows flt parse account
                (prune (Report.Sect header rs) :: prune_rows rest) entries gl
              = section_rows flt parse account (Report.Sect header rs :: rest) entries gl).
      destruct rs as [rs |].
      * cbn [section_rows prune] in *. rewrite Hr.
        destruct (parse (Report.Sect header (Some rs)) account gl) as [gl' [[] | e]];
          [apply IH | reflexivity].
      * cbn [section_rows prune] in *.
        destruct (parse (Report.Sect header None) account gl) as [gl' [[] | e]];
          [apply IH | reflexivity].
    + simpl. apply IH.
Qed.

Lemma pruned_section_reads_alike row :
  forall account gl, parse (prune row) account gl = parse row account gl.
Proof.
  induction row as [data | type_ | header rows Hrows] using row_induction;
    intros account gl; try reflexivity.
  destruct rows as [rows |]; [| reflexivity].
  change (prune (Report.Sect header (Some rows)))
    with (Report.Sect header (Some (prune_rows rows))).
  cbn [_get_gl_entries_from_section].
  destruct (section_context self db accounts_by_name header account) as [[| a] | e];
    try reflexivity.
  now rewrite (pruned_rows_read_alike a rows Hrows).
Qed.

(** X10.  A section whose head has no account id and the value
    [Not Specified] has no effect on what is collected, whatever it holds
    (even rows that would raise): reading the report gives the same lines
    and the same outcome as reading it with every such section removed, at
    the top and at any depth. *)
Theorem not_specified_sections_are_ignored (rows : list Report.row) (gl : GlEntries) :
  report_entries flt self db accounts_by_name (prune_rows rows) gl
  = report_entries flt self db accounts_by_name rows gl
  /\ (forall row account,
        is_not_specified row = true -> parse row account gl = (gl, Ok tt)).
Proof.
  split.
  - revert gl. induction rows as [| r rest IH]; intros gl; simpl; [reflexivity |].
    destruct (is_not_specified r) eqn:Hskip.
    + rewrite IH.
      destruct r as [data | header rs | type_]; simpl in Hskip; try discriminate.
      now rewrite (not_specified_is_skipped (Report.Sect header rs) None gl Hskip).
    + destruct r as [data | header rs | type_]; try (simpl; apply IH).
      pose proof (pruned_section_reads_alike (Report.Sect header rs) None gl) as Hr.
      change (report_entries flt self db accounts_by_name
                (prune (Report.Sect header rs) :: prune_rows rest) gl
              = report_entries flt self db accounts_by_name
                  (Report.Sect header rs :: rest) gl).
      destruct rs as [rs |]; cbn [report_entries prune] in *.
      * rewrite Hr.
        destruct (parse (Report.Sect header (Some rs)) None gl) as [gl' [[] | e]];
          [apply IH | reflexivity].
      * destruct (parse (Report.Sect header None) None gl) as [gl' [[] | e]];
          [apply IH | reflexivity].
  - intros row account. apply not_specified_is_skipped.
Qed.

Lemma data_line_account account data line :
  data_line flt account data = Ok line -> GLLine.account line = account.
Proof.
  unfold data_line.
  repeat match goal with
         | |- context [bind ?c _] =>
             destruct c; cbn [bind]; [| discriminate]
         end.
  now intros [= <-].
Qed.

Lemma extend_keys gl account entries :
  map fst (extend_entries gl account entries)
  = if existsb (fun k => opt_opt_eqb k account) (map fst gl)
    then map fst gl else (map fst gl ++ [account])%list.
Proof.
  induction gl as [| [k v] gl IH]; simpl; [reflexivity |].
  destruct (opt_opt_eqb k account); simpl; [reflexivity |].
  rewrite IH. now destruct (existsb _ (map fst gl)).
Qed.

Lemma extend_well_keyed gl account entries :
  well_keyed gl ->
  Forall (fun line => GLLine.account line = account) entries ->
  well_keyed (extend_entries gl account entries).
Proof.
  intros [Hkeys Hlines] Hentries. split.
  - rewrite extend_keys.
    destruct (existsb (fun k => opt_opt_eqb k account) (map fst gl)) eqn:Hin;
      [exact Hkeys |].
    apply NoDup_app; [exact Hkeys | constructor; [intros [] | constructor] |].
    intros k Hk [Heq | []].
    assert (Hfound : existsb (fun k' => opt_opt_eqb k' account) (map fst gl) = true).
    { apply existsb_exists. exists k. split; [exact Hk | now apply opt_opt_eqb_eq]. }
    congruence.
  - clear Hkeys. induction Hlines as [| kv gl Hkv Hgl IH]; simpl.
    + constructor; [exact Hentries | constructor].
    + destruct kv as [k v]. destruct (opt_opt_eqb k account) eqn:Hk.
      * apply opt_opt_eqb_eq in Hk. subst k.
        constructor; [| exact Hgl]. simpl in *. apply Forall_app. now split.
      * constructor; [exact Hkv | exact IH].
Qed.

Lemma rows_keep_well_keyed account rows :
  Forall (fun r => forall a gl, well_keyed gl -> well_keyed (fst (parse r a gl))) rows ->
  forall entries gl,
    well_keyed gl ->
    Forall (fun line => GLLine.account line = account) entries ->
    well_keyed (fst (section_rows flt parse account rows entries gl))
    /\ forall collected,
         snd (section_rows flt parse account rows entries gl) = Ok collected ->
         Forall (fun line => GLLine.account line = account) collected.
Proof.
  induction 1 as [| r rest Hr Hrest IH]; intros entries gl Hgl Hentries; simpl.
  - split; [exact Hgl | now intros collected [= <-]].
  - destruct r as [data | header rs | type_].
    + destruct (data_line flt account data) as [line |] eqn:Hline; simpl.
      * apply IH; [exact Hgl |]. apply Forall_app. split; [exact Hentries |].
        constructor; [now apply (data_line_account account data) | constructor].
      * split; [exact Hgl | discriminate].
    + specialize (Hr account gl Hgl).
      destruct (parse (Report.Sect header rs) account gl) as [gl' [[] | e]]; simpl in *.
      * now apply IH.
      * split; [exact Hr | discriminate].
    + now apply IH.
Qed.

Lemma section_keeps_well_keyed row :
  forall account gl, well_keyed gl -> well_keyed (fst (parse row account gl)).
Proof.
  induction row as [data | type_ | header rows Hrows] using row_induction;
    intros account gl Hgl; try exact Hgl.
  cbn [_get_gl_entries_from_section].
  destruct (section_context self db accounts_by_name header account) as [[| a] | e];
    try exact Hgl.
  destruct rows as [rows |]; [| exact Hgl].
  destruct (rows_keep_well_keyed a rows Hrows [] gl Hgl (Forall_nil _)) as [Hgl' Hall].
  destruct (section_rows flt parse a rows [] gl) as [gl' [collected | e]]; simpl in *.
  - apply extend_well_keyed; [exact Hgl' | now apply Hall].
  - exact Hgl'.
Qed.

(** X11.  Whatever the report holds and however reading it ends, the lines
    collected under an account all name that account, and no account is
    listed twice: a row is filed under the account of the nearest section
    above it that set one. *)
Theorem collected_lines_are_filed_under_their_account (rows : list Report.row) :
  forall gl,
    well_keyed gl ->
    well_keyed (fst (report_entries flt self db accounts_by_name rows gl)).
Proof.
  induction rows as [| r rest IH]; intros gl Hgl; simpl; [exact Hgl |].
  destruct r as [data | header rs | type_]; try now apply IH.
  pose proof (section_keeps_well_keyed (Report.Sect header rs) None gl Hgl) as Hr.
  destruct (parse (Report.Sect header rs) None gl) as [gl' [[] | e]]; simpl in *.
  - now apply IH.
  - exact Hr.
Qed.

End ParserFacts.

(** ** Regrouping by transaction *)

(** The entry of a transaction in a regrouped ledger. *)
Lemma add_to_entries_get by_id line i :
  dict_get (add_to_entries by_id line) i
  = if String.eqb i (GLLine.id line) then
      Some match dict_get by_id i with
           | Some entry =>
               {| LedgerEntry.id := LedgerEntry.id entry;
                  LedgerEntry.date := LedgerEntry.date entry;
                  LedgerEntry.lines := (LedgerEntry.lines entry ++ [line])%list |}
           | None =>
               {| LedgerEntry.id := GLLine.id line;
                  LedgerEntry.date := GLLine.date line;
                  LedgerEntry.lines := [line] |}
           end
    else dict_get by_id i.
Proof.
  induction by_id as [| [k entry] rest IH]; simpl.
  - now destruct (String.eqb i (GLLine.id line)).
  - destruct (String.eqb (GLLine.id line) k) eqn:Hk; simpl.
    + apply String.eqb_eq in Hk. subst k.
      now destruct (String.eqb i (GLLine.id line)).
    + destruct (String.eqb i k) eqn:Hik.
      * apply String.eqb_eq in Hik. subst k.
        rewrite String.eqb_sym, Hk. reflexivity.
      * exact IH.
Qed.

Lemma add_line_lookup ledger line t i :
  lookup_entry (add_line ledger line) t i
  = if String.eqb t (GLLine.type line) && String.eqb i (GLLine.id line) then
      Some match lookup_entry ledger t i with
           | Some entry =>
               {| LedgerEntry.id := LedgerEntry.id entry;
                  LedgerEntry.date := LedgerEntry.date entry;
                  LedgerEntry.lines := (LedgerEntry.lines entry ++ [line])%list |}
           | None =>
               {| LedgerEntry.id := GLLine.id line;
                  LedgerEntry.date := GLLine.date line;
                  LedgerEntry.lines := [line] |}
           end
    else lookup_entry ledger t i.
Proof.
  unfold lookup_entry.
  induction ledger as [| [k by_id] rest IH]; simpl.
  - destruct (String.eqb t (GLLine.type line)) eqn:Ht; simpl.
    + now destruct (String.eqb i (GLLine.id line)).
    + reflexivity.
  - destruct (String.eqb (GLLine.type line) k) eqn:Hk; simpl.
    + apply String.eqb_eq in Hk. subst k.
      destruct (String.eqb t (GLLine.type line)); simpl; [| reflexivity].
      apply add_to_entries_get.
    + destruct (String.eqb t k) eqn:Htk.
      * apply String.eqb_eq in Htk. subst k.
        rewrite String.eqb_sym, Hk. reflexivity.
      * exact IH.
Qed.

Lemma regrouped_lookup (lines : list GLLine.t) (t i : string) :
  lookup_entry (fold_left add_line lines []) t i
  = entry_of_lines i
      (filter (fun line => String.eqb t (GLLine.type line)
                           && String.eqb i (GLLine.id line)) lines).
Proof.
  induction lines as [| line lines IH] using rev_ind; [reflexivity |].
  rewrite fold_left_app, filter_app. simpl.
  rewrite add_line_lookup, IH.
  destruct (String.eqb t (GLLine.type line) && String.eqb i (GLLine.id line)) eqn:Hm;
    simpl.
  - destruct (filter _ lines) as [| first_ others]; simpl.
    + apply andb_true_iff in Hm. destruct Hm as [_ Hi].
      apply String.eqb_eq in Hi. now subst i.
    + reflexivity.
  - now rewrite app_nil_r.
Qed.

(** X12.  After the regrouping, looking a transaction up by type and id
    gives exactly the lines of the report with that type and that id, in
    the order they were collected, under an entry that carries the id and
    the date of the first of them; the lookup fails with [KeyError] exactly
    when the report has no such line.  No line is lost, duplicated or filed
    under another transaction. *)
Theorem regrouping_files_every_line_under_its_transaction
    (self : QuickBooksMigrator) (gl : GlEntries) (type_ id_ : string) :
  gl_lines (with_general_ledger (regroup gl) self) type_ id_
  = match lines_of_transaction type_ id_ gl with
    | [] => Raise KeyError
    | lines => Ok lines
    end
  /\ lookup_entry (regroup gl) type_ id_
     = entry_of_lines id_ (lines_of_transaction type_ id_ gl).
Proof.
  pose proof (regrouped_lookup (concat (map snd gl)) type_ id_) as Hlookup.
  fold (regroup gl) in Hlookup. fold (lines_of_transaction type_ id_ gl) in Hlookup.
  split; [| exact Hlookup].
  unfold gl_lines, with_general_ledger, dict_index. cbn [general_ledger].
  unfold lookup_entry in Hlookup.
  destruct (dict_get (regroup gl) type_) as [by_id |]; cbn [bind].
  - rewrite Hlookup.
    now destruct (lines_of_transaction type_ id_ gl).
  - now destruct (lines_of_transaction type_ id_ gl).
Qed.

(** ** Tax rows *)

Lemma index_of_account_bounds tax_account taxes :
  forall index r,
    index_of_account tax_account index taxes = Some r ->
    (index + 1 <= r <= index + length taxes)%nat.
Proof.
  induction taxes as [| tax taxes IH]; intros index r H; simpl in H.
  - discriminate H.
  - destruct (String.eqb (TaxRow.account_head tax) tax_account).
    + injection H as <-. simpl. lia.
    + apply IH in H. simpl. lia.
Qed.

Lemma tax_row_appends self db tax_codes taxes line taxes' :
  tax_row self db tax_codes taxes line = Ok taxes' ->
  exists row,
    taxes' = (taxes ++ [row])%list
    /\ TaxRow.rate row = Taxed.TaxPercent line
    /\ (forall r, TaxRow.row_id row = Some (Some r) ->
          (1 <= r <= length taxes)%nat
          /\ TaxRow.charge_type row = "On Previous Row Amount").
Proof.
  unfold tax_row. intros H.
  destruct (tax_account_name self db (Taxed.TaxPercent line)) as [account_head | e];
    cbn [bind] in H; [| discriminate H].
  destruct (opt_eqb (_get_tax_type tax_codes (Taxed.TaxRateRef line)) "TaxOnAmount").
  - injection H as <-. eexists. split; [reflexivity |]. split; [reflexivity |].
    intros r Hr. discriminate Hr.
  - destruct (_get_parent_tax_rate tax_codes (Taxed.TaxRateRef line)) as [parent | e];
      cbn [bind] in H; [| discriminate H].
    unfold _get_parent_row_id in H.
    destruct (_get_account_name_by_id self db _) as [tax_account | e];
      cbn [bind] in H; [| discriminate H].
    injection H as <-. eexists. split; [reflexivity |]. split; [reflexivity |].
    cbn [TaxRow.row_id TaxRow.charge_type]. intros r Hr.
    injection Hr as Hr. apply index_of_account_bounds in Hr.
    split; [lia | reflexivity].
Qed.

Lemma refers_back_snoc taxes row :
  refers_back taxes ->
  (forall r, TaxRow.row_id row = Some (Some r) ->
     (1 <= r <= length taxes)%nat
     /\ TaxRow.charge_type row = "On Previous Row Amount") ->
  refers_back (taxes ++ [row]).
Proof.
  intros Hinv Hrow i row' r Hnth Hid.
  destruct (Nat.lt_ge_cases i (length taxes)) as [Hlt | Hge].
  - rewrite nth_error_app1 in Hnth by exact Hlt.
    destruct (Hinv i row' r Hnth Hid) as [Hr [parent [Hparent Hcharge]]].
    split; [exact Hr |]. exists parent. split; [| exact Hcharge].
    rewrite nth_error_app1 by lia. exact Hparent.
  - rewrite nth_error_app2 in Hnth by exact Hge.
    destruct (i - length taxes)%nat as [| k] eqn:Hk; simpl in Hnth.
    + injection Hnth as <-. destruct (Hrow r Hid) as [Hr Hcharge].
      split; [lia |].
      destruct (nth_error taxes (r - 1)) as [parent |] eqn:Hparent.
      * exists parent. split; [| exact Hcharge].
        rewrite nth_error_app1 by lia. exact Hparent.
      * apply nth_error_None in Hparent. lia.
    + destruct k; discriminate Hnth.
Qed.

Lemma tax_loop_invariant self db tax_codes lines :
  forall taxes taxes',
    for_each_with (tax_row self db tax_codes) taxes lines = Ok taxes' ->
    refers_back taxes ->
    refers_back taxes'
    /\ map TaxRow.rate taxes'
       = (map TaxRow.rate taxes ++ map Taxed.TaxPercent lines)%list.
Proof.
  induction lines as [| line lines IH]; intros taxes taxes' H Hinv; simpl in H.
  - injection H as <-. split; [exact Hinv |]. now rewrite app_nil_r.
  - destruct (tax_row self db tax_codes taxes line) as [taxes1 | e] eqn:Hrow;
      cbn [bind] in H; [| discriminate H].
    apply tax_row_appends in Hrow. destruct Hrow as [row [-> [Hrate Hid]]].
    destruct (IH _ _ H (refers_back_snoc taxes row Hinv Hid)) as [Hinv' Hrates].
    split; [exact Hinv' |].
    rewrite Hrates, map_app. simpl. rewrite Hrate, <- app_assoc. reflexivity.
Qed.

Lemma index_is_the_first_with_account tax_account taxes :
  forall index,
    match index_of_account tax_account index taxes with
    | Some r =>
        (index + 1 <= r <= index + length taxes)%nat
        /\ (exists parent, nth_error taxes (r - index - 1) = Some parent
                           /\ TaxRow.account_head parent = tax_account)
        /\ (forall j row, (j < r - index - 1)%nat -> nth_error taxes j = Some row ->
                          TaxRow.account_head row <> tax_account)
    | None => forall row, In row taxes -> TaxRow.account_head row <> tax_account
    end.
Proof.
  induction taxes as [| tax taxes IH]; intros index; simpl.
  - intros row [].
  - destruct (String.eqb (TaxRow.account_head tax) tax_account) eqn:Hhead.
    + apply String.eqb_eq in Hhead. split; [lia |]. split.
      * exists tax. replace (index + 1 - index - 1)%nat with 0%nat by lia.
        now split.
      * intros j row Hj. lia.
    + apply String.eqb_neq in Hhead. specialize (IH (S index)).
      destruct (index_of_account tax_account (S index) taxes) as [r |].
      * destruct IH as (Hr & (parent & Hparent & Hacc) & Hfirst).
        split; [lia |]. split.
        -- exists parent. split; [| exact Hacc].
           replace (r - index - 1)%nat with (S (r - S index - 1)) by lia.
           exact Hparent.
        -- intros j row Hj Hnth. destruct j as [| j]; simpl in Hnth.
           ++ injection Hnth as <-. exact Hhead.
           ++ apply (Hfirst j row); [lia | exact Hnth].
      * intros row [<- | Hin]; [exact Hhead | now apply IH].
Qed.

Lemma tax_row_is_the_row_of_its_line self db tax_codes taxes line taxes' :
  tax_row self db tax_codes taxes line = Ok taxes' ->
  exists row,
    taxes' = (taxes ++ [row])%list
    /\ row_of_line self db tax_codes taxes line row.
Proof.
  unfold tax_row, row_of_line. intros H.
  destruct (tax_account_name self db (Taxed.TaxPercent line)) as [account_head | e];
    cbn [bind] in H; [| discriminate H].
  destruct (opt_eqb (_get_tax_type tax_codes (Taxed.TaxRateRef line)) "TaxOnAmount").
  - injection H as <-. eexists. split; [reflexivity |]. repeat split.
  - destruct (_get_parent_tax_rate tax_codes (Taxed.TaxRateRef line)) as [parent | e];
      cbn [bind] in H; [| discriminate H].
    unfold _get_parent_row_id in H.
    destruct (_get_account_name_by_id self db _) as [tax_account | e] eqn:Hacc;
      cbn [bind] in H; [| discriminate H].
    injection H as <-. eexists. split; [reflexivity |].
    cbn [TaxRow.rate TaxRow.charge_type TaxRow.row_id].
    split; [reflexivity |]. split; [reflexivity |].
    exists parent, tax_account. repeat split. exact Hacc.
Qed.

Lemma tax_loop_rows self db tax_codes lines :
  forall taxes taxes',
    for_each_with (tax_row self db tax_codes) taxes lines = Ok taxes' ->
    exists rows,
      taxes' = (taxes ++ rows)%list
      /\ forall k line row,
           nth_error lines k = Some line ->
           nth_error rows k = Some row ->
           row_of_line self db tax_codes (firstn (length taxes + k) taxes') line row.
Proof.
  induction lines as [| line lines IH]; intros taxes taxes' H; simpl in H.
  - injection H as <-. exists []. split; [now rewrite app_nil_r |].
    intros k line row Hline. destruct k; discriminate Hline.
  - destruct (tax_row self db tax_codes taxes line) as [taxes1 | e] eqn:Hrow;
      cbn [bind] in H; [| discriminate H].
    apply tax_row_is_the_row_of_its_line in Hrow.
    destruct Hrow as (row0 & -> & Hrow0).
    destruct (IH _ _ H) as (rows & -> & Hrows).
    exists (row0 :: rows). split; [now rewrite <- app_assoc |].
    intros k line' row Hline Hnth. destruct k as [| k]; simpl in Hline, Hnth.
    + injection Hline as <-. injection Hnth as <-.
      rewrite <- app_assoc, firstn_app_2. simpl. rewrite app_nil_r. exact Hrow0.
    + specialize (Hrows k line' row Hline Hnth).
      rewrite length_app in Hrows. simpl in Hrows.
      replace (length taxes + S k)%nat with (length taxes + 1 + k)%nat by lia.
      exact Hrows.
Qed.

(** X13.  When [_get_taxes] returns, it has made one tax row for each tax
    line of the document, in the order of the lines and at the percentage of
    the line.  The row of a line whose rate applies on the amount is charged
    on the net total and has no [row_id].  The row of any other line is
    charged on the previous row amount, and its [row_id] is the 1-based
    position of the first row made before it whose account is the tax
    account of the parent rate; when no row made before it has that account
    the [row_id] is [None] and the row is made all the same.  A [row_id]
    never names the row itself or a later row. *)
Theorem tax_rows_refer_to_earlier_rows
    (self : QuickBooksMigrator) (db : Database)
    (tax_codes : list (string * TaxCode.t)) (entry : Taxed.entry)
    (taxes : list TaxRow.t) :
  _get_taxes self db tax_codes entry = Ok taxes ->
  map TaxRow.rate taxes = map Taxed.TaxPercent (tax_lines entry)
  /\ refers_back taxes
  /\ (forall i line row,
        nth_error (tax_lines entry) i = Some line ->
        nth_error taxes i = Some row ->
        row_of_line self db tax_codes (firstn i taxes) line row)
  /\ (forall tax_account i,
        first_with_account tax_account (firstn i taxes)
          (index_of_account tax_account 0 (firstn i taxes))).
Proof.
  unfold _get_taxes, tax_lines. intros H.
  assert (Hnil : refers_back []).
  { intros i row r Hnth. destruct i; discriminate Hnth. }
  assert (Hfirst : forall tax_account i,
            first_with_account tax_account (firstn i taxes)
              (index_of_account tax_account 0 (firstn i taxes))).
  { intros tax_account i. unfold first_with_account.
    pose proof (index_is_the_first_with_account tax_account (firstn i taxes) 0) as Hi.
    destruct (index_of_account tax_account 0 (firstn i taxes)) as [r |];
      [| exact Hi].
    destruct Hi as (Hr & (parent & Hparent & Hacc) & Hbefore).
    split; [lia |]. split.
    - exists parent. split; [| exact Hacc].
      replace (r - 1)%nat with (r - 0 - 1)%nat by lia. exact Hparent.
    - intros j row Hj. apply Hbefore. lia. }
  destruct (Taxed.TxnTaxDetail_ entry) as [detail |].
  - destruct (Taxed.TaxLine detail) as [lines |].
    + destruct (tax_loop_invariant self db tax_codes lines [] taxes H Hnil)
        as [Hinv Hrates].
      destruct (tax_loop_rows self db tax_codes lines [] taxes H)
        as (rows & Hrows & Hrow).
      simpl in Hrows. subst rows.
      split; [exact Hrates |]. split; [exact Hinv |]. split; [| exact Hfirst].
      intros i line row Hline Hnth. exact (Hrow i line row Hline Hnth).
    + injection H as <-. split; [reflexivity |]. split; [exact Hnil |].
      split; [| exact Hfirst].
      intros i line row Hline. destruct i; discriminate Hline.
  - injection H as <-. split; [reflexivity |]. split; [exact Hnil |].
    split; [| exact Hfirst].
    intros i line row Hline. destruct i; discriminate Hline.
Qed.

(** ** Pages *)

Lemma firstn_then_page {A : Type} (records : list A) (a b : nat) :
  (firstn a records ++ firstn b (skipn a records))%list = firstn (a + b) records.
Proof.
  revert records. induction a as [| a IH]; intros records; simpl.
  - reflexivity.
  - destruct records as [| x records]; simpl.
    + now rewrite firstn_nil.
    + now rewrite IH.
Qed.

Lemma pages_rebuild_the_records {A : Type} (query : nat -> nat -> result (list A))
    (records : list A) :
  (forall start_position,
     (1 <= start_position <= length records)%nat ->
     query start_position max_result_count
     = Ok (page_of records start_position max_result_count)) ->
  forall fuel start,
    (1 <= start)%nat ->
    (length records + 1 - start <= fuel)%nat ->
    for_each_with (fetch_page A query) (firstn (start - 1) records)
      (range_from fuel start (length records + 1) max_result_count)
    = Ok records.
Proof.
  intros Hquery. induction fuel as [| fuel IH]; intros start Hstart Hfuel; simpl.
  - rewrite firstn_all2 by lia. reflexivity.
  - destruct (Nat.ltb_spec start (length records + 1)) as [Hlt | Hge]; simpl.
    + unfold fetch_page at 1. rewrite Hquery by lia. cbn [bind].
      unfold page_of. rewrite firstn_then_page.
      replace (start - 1 + max_result_count)%nat
        with (start + max_result_count - 1)%nat by lia.
      apply IH; unfold max_result_count; lia.
    + rewrite firstn_all2 by lia. reflexivity.
Qed.

(** X14.  When the service holds [records], says so in its count and
    answers each page request with the records from the start position on,
    at most a page of them, the page loop of [_migrate_entries] rebuilds
    exactly [records]: nothing is lost or fetched twice at a page boundary,
    an empty entity sends no page request, and a last page that is partly
    filled is taken as it is. *)
Theorem paging_fetches_every_record_once {A : Type}
    (query : nat -> nat -> result (list A)) (records : list A) :
  (forall start_position,
     (1 <= start_position <= length records)%nat ->
     query start_position max_result_count
     = Ok (page_of records start_position max_result_count)) ->
  fetch_entries A query (length records) = Ok records
  /\ length (range 1 (length records + 1) max_result_count)
     = ((length records + (max_result_count - 1)) / max_result_count)%nat.
Proof.
  intros Hquery. split.
  - unfold fetch_entries, range.
    apply (pages_rebuild_the_records query records Hquery
             (length records + 1 - 1) 1); lia.
  - unfold range. generalize (length records) as n. intros n.
    replace (n + 1 - 1)%nat with n by lia.
    assert (H : forall fuel start,
              (1 <= start)%nat -> (n + 1 - start <= fuel)%nat ->
              length (range_from fuel start (n + 1) max_result_count)
              = ((n + 1 - start + (max_result_count - 1)) / max_result_count)%nat).
    { induction fuel as [| fuel IH]; intros start Hstart Hfuel; cbn [range_from].
      - replace (n + 1 - start)%nat with 0%nat by lia. reflexivity.
      - destruct (Nat.ltb_spec start (n + 1)) as [Hlt | Hge]; cbn [length].
        + rewrite IH by (unfold max_result_count; lia).
          unfold max_result_count.
          destruct (Nat.le_gt_cases (start + 1000) (n + 1)) as [Hfar | Hnear].
          * replace (n + 1 - start + (1000 - 1))%nat
              with (n + 1 - (start + 1000) + (1000 - 1) + 1 * 1000)%nat by lia.
            rewrite Nat.div_add by lia. lia.
          * replace (n + 1 - (start + 1000))%nat with 0%nat by lia.
            rewrite (Nat.div_small (0 + (1000 - 1)) 1000) by lia.
            symmetry.
            assert (Hq : ((n + 1 - start + (1000 - 1)) / 1000 = 1)%nat).
            { symmetry. apply Nat.div_unique with (r := (n + 1 - start - 1)%nat); lia. }
            rewrite Hq. reflexivity.
        + replace (n + 1 - start)%nat with 0%nat by lia. reflexivity. }
    rewrite (H n 1%nat) by lia. f_equal. lia.
Qed.

(** ** Free account names *)

Section UniqueNameFacts.
Variable encode_company_abbr : string -> string -> string.
Variable self : QuickBooksMigrator.
Variable db : Database.
Variable quickbooks_name : string.

Local Notation "'taken'" := (name_is_taken encode_company_abbr self db quickbooks_name).
Local Notation "'unique_name'" :=
  (_get_unique_account_name encode_company_abbr).

Lemma unique_name_from (depth : nat) :
  forall number,
    (forall free,
       (free < depth)%nat ->
       taken (number + free)%nat = false ->
       (forall k, (k < free)%nat -> taken (number + k)%nat = true) ->
       unique_name depth self db quickbooks_name number
       = Ok (quickbooks_account_name quickbooks_name (number + free)))
    /\ ((forall k, (k < depth)%nat -> taken (number + k)%nat = true) ->
        unique_name depth self db quickbooks_name number = Raise RecursionError).
Proof.
  induction depth as [| depth IH]; intros number; split.
  - intros free Hfree. lia.
  - reflexivity.
  - intros free Hfree Hfalse Hbelow. simpl.
    destruct free as [| free].
    + rewrite Nat.add_0_r in Hfalse. rewrite Hfalse. now rewrite Nat.add_0_r.
    + pose proof (Hbelow 0%nat ltac:(lia)) as H0. rewrite Nat.add_0_r in H0.
      rewrite H0.
      replace (number + S free)%nat with (number + 1 + free)%nat by lia.
      apply (proj1 (IH (number + 1)%nat)).
      * lia.
      * now replace (number + 1 + free)%nat with (number + S free)%nat by lia.
      * intros k Hk.
        replace (number + 1 + k)%nat with (number + S k)%nat by lia.
        apply Hbelow. lia.
  - intros Hall. simpl.
    pose proof (Hall 0%nat ltac:(lia)) as H0. rewrite Nat.add_0_r in H0.
    rewrite H0.
    apply (proj2 (IH (number + 1)%nat)).
    intros k Hk.
    replace (number + 1 + k)%nat with (number + S k)%nat by lia.
    apply Hall. lia.
Qed.

(** X15.  [_get_unique_account_name] returns the name with the first
    number, counted from 0, whose company-encoded form is not yet the name of
    an account of the company; the name returned is the one before
    encoding.  When every number within reach of the recursion is taken,
    the call ends in [RecursionError] and returns no name. *)
Theorem unique_name_takes_the_first_free_number (depth : nat) :
  (forall free,
     (free < depth)%nat ->
     taken free = false ->
     (forall k, (k < free)%nat -> taken k = true) ->
     unique_name depth self db quickbooks_name 0
     = Ok (quickbooks_account_name quickbooks_name free))
  /\ ((forall k, (k < depth)%nat -> taken k = true) ->
      unique_name depth self db quickbooks_name 0 = Raise RecursionError).
Proof.
  split.
  - intros free Hfree Hfalse Hbelow.
    exact (proj1 (unique_name_from depth 0%nat) free Hfree Hfalse Hbelow).
  - intros Hall. exact (proj2 (unique_name_from depth 0%nat) Hall).
Qed.

End UniqueNameFacts.

(** ** The properties at the worked inputs *)

Lemma not_specified_sections_are_ignored_witness :
  report_entries flt_of_text nx books [] (prune_rows ledger_report) []
  = report_entries flt_of_text nx books [] ledger_report []
  /\ map (fun entry => (fst entry, length (snd entry)))
       (fst (report_entries flt_of_text nx books [] ledger_report []))
     = [(Some "Cash - NX", 2%nat); (Some "Debtors USD - NX", 2%nat)].
Proof.
  split.
  - exact (proj1 (not_specified_sections_are_ignored flt_of_text nx books []
                    ledger_report [])).
  - vm_compute. reflexivity.
Defined.

Lemma collected_lines_are_filed_under_their_account_witness :
  well_keyed []
  /\ well_keyed (fst (report_entries flt_of_text nx books [] ledger_report [])).
Proof.
  assert (Hempty : well_keyed []).
  { split; [apply NoDup_nil | apply Forall_nil]. }
  split; [exact Hempty |].
  exact (collected_lines_are_filed_under_their_account flt_of_text nx books []
           ledger_report [] Hempty).
Defined.

Lemma tax_rows_refer_to_earlier_rows_witness :
  match _get_taxes nx books_with_taxes vat_and_surcharge invoice_with_two_taxes with
  | Ok taxes =>
      map TaxRow.row_id taxes = [None; Some (Some 1%nat)]
      /\ map TaxRow.rate taxes = map Taxed.TaxPercent (tax_lines invoice_with_two_taxes)
      /\ refers_back taxes
  | Raise _ => False
  end
  /\ match _get_taxes nx books_with_taxes vat_and_surcharge
             invoice_with_surcharge_first with
     | Ok taxes =>
         map TaxRow.row_id taxes = [Some None; None]
         /\ map TaxRow.rate taxes
            = map Taxed.TaxPercent (tax_lines invoice_with_surcharge_first)
     | Raise _ => False
     end.
Proof.
  split.
  - destruct (_get_taxes nx books_with_taxes vat_and_surcharge invoice_with_two_taxes)
      as [taxes | e] eqn:Hrun.
    + destruct (tax_rows_refer_to_earlier_rows nx books_with_taxes vat_and_surcharge
                  invoice_with_two_taxes taxes Hrun) as (Hrates & Hback & _).
      split; [| split; [exact Hrates | exact Hback]].
      vm_compute in Hrun. injection Hrun as <-. reflexivity.
    + vm_compute in Hrun. discriminate Hrun.
  - destruct (_get_taxes nx books_with_taxes vat_and_surcharge
                invoice_with_surcharge_first) as [taxes | e] eqn:Hrun.
    + destruct (tax_rows_refer_to_earlier_rows nx books_with_taxes vat_and_surcharge
                  invoice_with_surcharge_first taxes Hrun) as (Hrates & _).
      split; [| exact Hrates].
      vm_compute in Hrun. injection Hrun as <-. reflexivity.
    + vm_compute in Hrun. discriminate Hrun.
Defined.

Lemma paging_fetches_every_record_once_witness :
  fetch_entries nat remote_query (length remote_records) = Ok remote_records
  /\ length (range 1 (length remote_records + 1) max_result_count) = 3%nat.
Proof.
  destruct (paging_fetches_every_record_once remote_query remote_records
              (fun start_position _ => eq_refl)) as [Hall Hpages].
  split; [exact Hall |].
  rewrite Hpages. vm_compute. reflexivity.
Defined.

Lemma unique_name_takes_the_first_free_number_witness :
  _get_unique_account_name encode_for_nx 10 nx books_with_two_cash_accounts "Cash" 0
  = Ok "Cash - 2 - QB".
Proof.
  apply (proj1 (unique_name_takes_the_first_free_number encode_for_nx nx
                  books_with_two_cash_accounts "Cash" 10) 2%nat).
  - lia.
  - vm_compute. reflexivity.
  - intros k Hk. destruct k as [| [| k]]; [vm_compute; reflexivity .. | lia].
Defined.

(** ** Keys of the Journal Entries *)

Section Keys.
Context {storage : StorageCollaborator}.
Context {purchase_storage : PurchaseInvoiceStorage}.
Variable SalesDetail : Type.
Variable PurchaseDetail : Type.
Variable invoice_dict :
  QuickBooksMigrator -> Database -> SalesRecord.t SalesDetail -> bool -> bool ->
  result SalesInvoiceDoc.t.
Variable purchase_invoice_dict :
  QuickBooksMigrator -> Database -> PurchaseRecord.t PurchaseDetail -> bool ->
  result PurchaseInvoiceDoc.t.
Variable customers : list CustomerDoc.t.
Variable self : QuickBooksMigrator.

Lemma fresh_step_keeps_keys_unique db db' :
  unique_keys db -> fresh_step self db db' -> unique_keys db'.
Proof.
  unfold unique_keys. intros Hunique [Hsame | [je [Hnew [Hcompany Hfresh]]]].
  - now rewrite Hsame.
  - rewrite Hnew. simpl. apply NoDup_cons; [| exact Hunique].
    intros Hin. apply in_map_iff in Hin. destruct Hin as [other [Hkey Hother]].
    unfold je_key in Hkey. injection Hkey as Hid Hco.
    unfold exists_journal_entry in Hfresh.
    assert (Hmatch : existsb (je_matches (JournalEntryDoc.quickbooks_id je) (company self))
                       (JournalEntries db) = true).
    { apply existsb_exists. exists other. split; [exact Hother |].
      unfold je_matches. rewrite Hid, Hco, Hcompany, !String.eqb_refl. reflexivity. }
    rewrite Hmatch in Hfresh. discriminate Hfresh.
Qed.

Lemma builder_fresh_step quickbooks_id accounts posting_date db :
  fresh_step self db (fst (__save_journal_entry self quickbooks_id accounts posting_date db)).
Proof.
  destruct (builder_outcomes self quickbooks_id accounts posting_date db)
    as [Hex | Hex Hins | Hex Hins | Hex Hins].
  - now left.
  - now left.
  - right. eexists. split; [reflexivity |]. split; [reflexivity | exact Hex].
  - right. eexists. split; [reflexivity |]. split; [reflexivity | exact Hex].
Qed.

Lemma ledger_entry_fresh_step ledger_entry quickbooks_id db :
  fresh_step self db (fst (__save_ledger_entry_as_je self ledger_entry quickbooks_id db)).
Proof.
  unfold __save_ledger_entry_as_je.
  destruct (ledger_entry_accounts self db ledger_entry) as [[| l ls] | e]; simpl.
  - now left.
  - apply builder_fresh_step.
  - now left.
Qed.

Lemma handler_fresh_step (entity : Entity) (record : record_of entity) db :
  fresh_step self db (fst (entity_method_map self entity record db)).
Proof.
  destruct entity; simpl in *;
    try (unfold _save_advance_payment, _save_tax_payment, _save_inventory_qty_adjust;
         apply ledger_entry_fresh_step).
  - unfold _save_journal_entry.
    destruct (journal_entry_accounts self db record); simpl;
      [apply builder_fresh_step | now left].
  - unfold _save_payment.
    destruct (Payment.DepositToAccountRef record) as [deposit_to |];
      [| now left].
    destruct (payment_accounts self db record deposit_to); simpl;
      [apply builder_fresh_step | now left].
  - unfold _save_bill_payment.
    destruct (bill_payment_accounts self db record); simpl;
      [apply builder_fresh_step | now left].
  - unfold _save_purchase.
    destruct (_get_account_name_by_id self db _) as [account_name |]; simpl;
      [| now left].
    destruct (purchase_accounts self db record account_name); simpl;
      [apply builder_fresh_step | now left].
  - unfold _save_deposit.
    destruct (_get_account_name_by_id self db _) as [account_name |]; simpl;
      [| now left].
    destruct (deposit_accounts self db record account_name); simpl;
      [apply builder_fresh_step | now left].
Qed.

Lemma loop_keeps_keys_unique {A : Type} (body : A -> Proc) :
  (forall entry db, fresh_step self db (fst (body entry db))) ->
  forall entries db,
    unique_keys db -> unique_keys (fst (for_entries body entries db)).
Proof.
  intros Hbody. induction entries as [| entry rest IH]; intros db Hunique; simpl.
  - exact Hunique.
  - pose proof (fresh_step_keeps_keys_unique db _ Hunique (Hbody entry db)) as Hnext.
    destruct (body entry db) as [db1 [[] | e]]; simpl in *.
    + apply IH. exact Hnext.
    + exact Hnext.
Qed.

Lemma sales_invoice_keeps_entries invoice quickbooks_id is_return is_pos db :
  JournalEntries
    (fst (_save_sales_invoice (SalesRecord.t SalesDetail) invoice_dict self invoice
            quickbooks_id is_return is_pos db))
  = JournalEntries db.
Proof.
  unfold _save_sales_invoice.
  destruct (negb (exists_sales_invoice db quickbooks_id (company self)));
    [| reflexivity].
  destruct (invoice_dict self db invoice is_return is_pos) as [d | e]; [| reflexivity].
  cbv zeta. destruct (si_insert_ok db _); [| reflexivity].
  destruct (si_submit_ok _ _); reflexivity.
Qed.

Lemma purchase_invoice_keeps_entries invoice quickbooks_id is_return db :
  JournalEntries
    (fst (__save_purchase_invoice PurchaseDetail purchase_invoice_dict self invoice
            quickbooks_id is_return db))
  = JournalEntries db.
Proof.
  unfold __save_purchase_invoice.
  destruct (negb (exists_purchase_invoice db quickbooks_id (company self)));
    [| reflexivity].
  destruct (purchase_invoice_dict self db invoice is_return) as [d | e];
    [| reflexivity].
  cbv zeta. destruct (pi_insert_ok db _); [| reflexivity].
  destruct (pi_submit_ok _ _); reflexivity.
Qed.

Lemma invoice_fresh_step invoice db :
  fresh_step self db
    (fst (_save_invoice SalesDetail invoice_dict customers self invoice db)).
Proof.
  unfold _save_invoice.
  destruct (index_key (SalesRecord.LinkedTxn invoice)) as [linked | e]; [| now left].
  destruct (linked_to_a_charge linked).
  - unfold _save_invoice_as_journal_entry.
    destruct (invoice_je_accounts SalesDetail customers self db invoice); simpl;
      [apply builder_fresh_step | now left].
  - left. apply sales_invoice_keeps_entries.
Qed.

(** X16.  No transformer gives a company two Journal Entries with the same
    QuickBooks id.  When the keys are unique before, they are unique after
    [_save_entries] for each kind that reaches the Journal Entry builder
    (JournalEntry, Payment, BillPayment, Purchase, Deposit, Advance Payment,
    the three Tax Payment kinds, Inventory Qty Adjust), whatever the records
    and the storage collaborator's answers are and wherever the loop ends,
    after [_migrate_entries], after the General Ledger pass, and after a
    loop over Invoices, which reach the builder through
    [_save_invoice_as_journal_entry]; a draft left behind by a refused
    submission counts as an entry.  The transformers of CreditMemo,
    SalesReceipt, RefundReceipt, Bill and VendorCredit leave the Journal
    Entries as they are. *)
Theorem journal_entry_keys_stay_unique (db : Database) :
  unique_keys db ->
  (forall (entity : Entity) (entries : list (record_of entity)),
      unique_keys (fst (_save_entries self entity entries db))
      /\ unique_keys (_migrate_entries self entity entries db))
  /\ (forall entity : string,
        unique_keys (fst (_migrate_entries_from_gl self entity db)))
  /\ (forall invoices : list (SalesRecord.t SalesDetail),
        unique_keys
          (fst (for_entries (_save_invoice SalesDetail invoice_dict customers self)
                  invoices db)))
  /\ (forall record,
        JournalEntries (fst (_save_credit_memo SalesDetail invoice_dict self record db))
        = JournalEntries db
        /\ JournalEntries
             (fst (_save_sales_receipt SalesDetail invoice_dict self record db))
           = JournalEntries db
        /\ JournalEntries
             (fst (_save_refund_receipt SalesDetail invoice_dict self record db))
           = JournalEntries db)
  /\ (forall record,
        JournalEntries
          (fst (_save_bill PurchaseDetail purchase_invoice_dict self record db))
        = JournalEntries db
        /\ JournalEntries
             (fst (_save_vendor_credit PurchaseDetail purchase_invoice_dict self
                     record db))
           = JournalEntries db).
Proof.
  intros Hunique. split; [| split; [| split; [| split]]].
  - intros entity entries.
    pose proof (loop_keeps_keys_unique (entity_method_map self entity)
                  (handler_fresh_step entity) entries db Hunique) as Hloop.
    split; [exact Hloop |].
    unfold _migrate_entries. fold (_save_entries self entity entries db) in Hloop.
    destruct (_save_entries self entity entries db) as [db1 [[] | e]]; exact Hloop.
  - intros entity. unfold _migrate_entries_from_gl.
    destruct (dict_get (general_ledger self) entity) as [by_id |]; [| exact Hunique].
    apply loop_keeps_keys_unique; [| exact Hunique].
    intros entry db0. unfold _save_entity_as_je. apply ledger_entry_fresh_step.
  - intros invoices. apply loop_keeps_keys_unique; [| exact Hunique].
    intros invoice db0. apply invoice_fresh_step.
  - intros record.
    unfold _save_credit_memo, _save_sales_receipt, _save_refund_receipt.
    repeat split; apply sales_invoice_keeps_entries.
  - intros record. unfold _save_bill, _save_vendor_credit.
    split; apply purchase_invoice_keeps_entries.
Qed.

End Keys.

Lemma journal_entry_keys_stay_unique_witness :
  unique_keys books
  /\ unique_keys
       (fst (@_save_entries lenient_storage nx KDeposit
               [deposit_of_300; deposit_of_300] books))
  /\ map je_key
       (JournalEntries
          (fst (@_save_entries lenient_storage nx KDeposit
                  [deposit_of_300; deposit_of_300] books)))
     = [("Deposit - 14", "NX")].
Proof.
  assert (Hunique : unique_keys books) by apply NoDup_nil.
  split; [exact Hunique |]. split.
  - exact (proj1 (proj1 (@journal_entry_keys_stay_unique lenient_storage
                           lenient_purchase_storage unit unit
                           (fun _ _ _ _ _ => Ok invoice_9001)
                           (fun _ _ _ _ => Raise KeyError) [] nx books Hunique)
                    KDeposit [deposit_of_300; deposit_of_300])).
  - vm_compute. reflexivity.
Defined.

(** ** Totals of a JournalEntry *)

Lemma total_debit_app (a b : list AccountLine) :
  total_debit (a ++ b) == total_debit a + total_debit b.
Proof.
  unfold total_debit. induction a as [| l a IH]; simpl.
  - ring.
  - rewrite IH. ring.
Qed.

Lemma total_credit_app (a b : list AccountLine) :
  total_credit (a ++ b) == total_credit a + total_credit b.
Proof.
  unfold total_credit. induction a as [| l a IH]; simpl.
  - ring.
  - rewrite IH. ring.
Qed.

Lemma round_half_even_comp (x y : Q) : x == y -> round_half_even x = round_half_even y.
Proof.
  intros H. unfold round_half_even.
  rewrite (Qfloor_comp x y H).
  assert (Hc : (x - inject_Z (Qfloor y) ?= 1 # 2)%Q = (y - inject_Z (Qfloor y) ?= 1 # 2)%Q).
  { apply Qcompare_comp; [| reflexivity]. rewrite H. reflexivity. }
  rewrite Hc. reflexivity.
Qed.

Lemma flt2_comp (x y : Q) : x == y -> flt2 x = flt2 y.
Proof.
  intros H. unfold flt2.
  rewrite (round_half_even_comp (x * 100) (y * 100)); [reflexivity |].
  rewrite H. reflexivity.
Qed.

Section JournalEntryTotals.
Variable self : QuickBooksMigrator.
Variable db : Database.

Lemma je_line_totals trans_currency R line ls :
  je_line_accounts self db trans_currency R line = Ok ls ->
  total_debit ls == posted_on "Debit" [line] * R
  /\ total_credit ls == posted_on "Credit" [line] * R.
Proof.
  unfold je_line_accounts, posted_on. cbn [fold_right].
  destruct (String.eqb (JournalEntry.DetailType line) "JournalEntryLineDetail");
    cbn [andb].
  - destruct (_get_account_name_by_id self db _) as [account_name | e];
      cbn [bind]; [| discriminate].
    unfold je_rate_and_amount.
    destruct (je_party db account_name _) as [party_type_ party_].
    unfold dict_index, posting_type_field_mapping. cbn [dict_get].
    destruct (String.eqb (JournalEntry.PostingType _) "Credit") eqn:Hc.
    + apply String.eqb_eq in Hc. rewrite Hc.
      destruct (opt_eqb _ trans_currency); cbn [bind]; intros [= <-];
        unfold total_debit, total_credit; simpl; split; ring.
    + destruct (opt_eqb _ trans_currency);
        (destruct (String.eqb (JournalEntry.PostingType _) "Debit") eqn:Hd;
         cbn [bind]; [| discriminate]);
        intros [= <-]; unfold total_debit, total_credit; simpl; split; ring.
  - intros [= <-]. unfold total_debit, total_credit. simpl. split; ring.
Qed.

Lemma je_lines_totals trans_currency R lines :
  forall accounts,
    _get_je_accounts self db lines trans_currency R = Ok accounts ->
    total_debit accounts == posted_on "Debit" lines * R
    /\ total_credit accounts == posted_on "Credit" lines * R.
Proof.
  unfold _get_je_accounts.
  induction lines as [| line lines IH]; intros accounts H; simpl in H.
  - injection H as <-. unfold total_debit, total_credit. simpl. split; ring.
  - destruct (je_line_accounts self db trans_currency R line) as [ls | e] eqn:Hline;
      cbn [bind] in H; [| discriminate H].
    destruct (for_each _ lines) as [rest | e]; cbn [bind] in H; [| discriminate H].
    injection H as <-.
    destruct (je_line_totals _ _ _ _ Hline) as [Hd Hc].
    destruct (IH rest eq_refl) as [IHd IHc].
    rewrite total_debit_app, total_credit_app, Hd, Hc, IHd, IHc.
    unfold posted_on. cbn [fold_right].
    destruct (String.eqb (JournalEntry.DetailType line) "JournalEntryLineDetail");
      cbn [andb].
    + destruct (String.eqb _ "Debit"); destruct (String.eqb _ "Credit"); split; ring.
    + split; ring.
Qed.

Lemma je_taxes_totals tax_lines :
  forall taxes,
    for_each (je_tax_accounts self db) tax_lines = Ok taxes ->
    total_debit taxes == fold_right (fun line s => TaxLine.Amount line + s) 0 tax_lines
    /\ total_credit taxes == 0.
Proof.
  induction tax_lines as [| line tax_lines IH]; intros taxes H; simpl in H.
  - injection H as <-. unfold total_debit, total_credit. simpl. split; reflexivity.
  - destruct (je_tax_accounts self db line) as [ls | e] eqn:Hline;
      cbn [bind] in H; [| discriminate H].
    destruct (for_each _ tax_lines) as [rest | e]; cbn [bind] in H; [| discriminate H].
    injection H as <-.
    destruct (IH rest eq_refl) as [IHd IHc].
    rewrite total_debit_app, total_credit_app, IHd, IHc. cbn [fold_right].
    unfold je_tax_accounts, truthy in Hline.
    destruct (Qeq_bool (TaxLine.Amount line) 0) eqn:Hzero; cbn [negb] in Hline.
    + injection Hline as <-. apply Qeq_bool_eq in Hzero.
      unfold total_debit, total_credit. simpl. rewrite Hzero. split; ring.
    + destruct (tax_account_name self db _) as [a | e]; cbn [bind] in Hline;
        [| discriminate Hline].
      injection Hline as <-. unfold total_debit, total_credit. simpl. split; ring.
Qed.

(** X17.  When the account lines of a QuickBooks JournalEntry can be built,
    their totals in company currency are the totals of the document: the
    debit total is the debit amounts of the document times its exchange
    rate plus the amounts of its tax lines, which are added as they are,
    and the credit total is the credit amounts times the exchange rate,
    whatever the currencies of the accounts are.  So a document that
    balances and has no tax amount gives lines that balance. *)
Theorem journal_entry_totals_are_those_of_the_document
    (journal_entry : JournalEntry.t) (accounts : list AccountLine) :
  journal_entry_accounts self db journal_entry = Ok accounts ->
  total_debit accounts
  == posted_on "Debit" (JournalEntry.Line journal_entry)
     * JournalEntry.ExchangeRate journal_entry
     + tax_total (JournalEntry.TxnTaxDetail journal_entry)
  /\ total_credit accounts
     == posted_on "Credit" (JournalEntry.Line journal_entry)
        * JournalEntry.ExchangeRate journal_entry
  /\ (posted_on "Debit" (JournalEntry.Line journal_entry)
      == posted_on "Credit" (JournalEntry.Line journal_entry) ->
      tax_total (JournalEntry.TxnTaxDetail journal_entry) == 0 ->
      balanced accounts).
Proof.
  unfold journal_entry_accounts. intros H.
  destruct (_get_je_accounts self db _ _ _) as [lines | e] eqn:Hlines;
    cbn [bind] in H; [| discriminate H].
  destruct (je_lines_totals _ _ _ _ Hlines) as [Hd Hc].
  assert (Htaxes : exists taxes,
            accounts = (lines ++ taxes)%list
            /\ total_debit taxes == tax_total (JournalEntry.TxnTaxDetail journal_entry)
            /\ total_credit taxes == 0).
  { unfold tax_total.
    destruct (TxnTaxDetail.TaxLine (JournalEntry.TxnTaxDetail journal_entry))
      as [tax_lines |].
    - destruct (for_each (je_tax_accounts self db) tax_lines) as [taxes | e] eqn:Htax;
        cbn [bind] in H; [| discriminate H].
      injection H as <-. exists taxes. split; [reflexivity |].
      exact (je_taxes_totals tax_lines taxes Htax).
    - cbn [bind] in H. injection H as <-. exists []. split; [reflexivity |].
      unfold total_debit, total_credit. simpl. split; reflexivity. }
  destruct Htaxes as [taxes [-> [Htd Htc]]].
  assert (Hdebit : total_debit (lines ++ taxes)
                   == posted_on "Debit" (JournalEntry.Line journal_entry)
                      * JournalEntry.ExchangeRate journal_entry
                      + tax_total (JournalEntry.TxnTaxDetail journal_entry)).
  { rewrite total_debit_app, Hd, Htd. reflexivity. }
  assert (Hcredit : total_credit (lines ++ taxes)
                    == posted_on "Credit" (JournalEntry.Line journal_entry)
                       * JournalEntry.ExchangeRate journal_entry).
  { rewrite total_credit_app, Hc, Htc. ring. }
  split; [exact Hdebit |]. split; [exact Hcredit |].
  intros Hbalanced Hnotax. unfold balanced.
  rewrite (flt2_comp (total_debit (lines ++ taxes)) (total_credit (lines ++ taxes)));
    [reflexivity |].
  rewrite Hdebit, Hcredit, Hbalanced, Hnotax. ring.
Qed.

End JournalEntryTotals.


Lemma journal_entry_totals_are_those_of_the_document_witness :
  match journal_entry_accounts nx books journal_entry_77 with
  | Ok accounts =>
      total_debit accounts == 367 /\ total_credit accounts == 367 /\ balanced accounts
  | Raise _ => False
  end.
Proof.
  destruct (journal_entry_accounts nx books journal_entry_77) as [accounts | e] eqn:Hrun.
  - destruct (journal_entry_totals_are_those_of_the_document nx books journal_entry_77
                accounts Hrun) as [Hdebit [Hcredit Hbalanced]].
    split; [rewrite Hdebit; vm_compute; reflexivity |].
    split; [rewrite Hcredit; vm_compute; reflexivity |].
    apply Hbalanced; vm_compute; reflexivity.
  - vm_compute in Hrun. discriminate Hrun.
Defined.

(** ** The General Ledger pass *)

Lemma add_to_entries_keys by_id line x :
  In x (map fst (add_to_entries by_id line)) ->
  In x (map fst by_id) \/ x = GLLine.id line.
Proof.
  induction by_id as [| [k entry] rest IH]; simpl.
  - intros [<- | []]. now right.
  - destruct (String.eqb (GLLine.id line) k); simpl.
    + intros H. now left.
    + intros [<- | H]; [left; now left |].
      destruct (IH H) as [Hin | ->]; [left; now right | now right].
Qed.

Lemma add_to_entries_keeps_keys_apart by_id line :
  NoDup (map fst by_id) -> NoDup (map fst (add_to_entries by_id line)).
Proof.
  induction by_id as [| [k entry] rest IH]; simpl; intros Hnodup.
  - apply NoDup_cons; [intros [] | apply NoDup_nil].
  - inversion Hnodup as [| k' keys Hnotin Hrest]; subst.
    destruct (String.eqb (GLLine.id line) k) eqn:Hk; simpl.
    + apply NoDup_cons; assumption.
    + apply NoDup_cons; [| now apply IH].
      intros Hin. apply add_to_entries_keys in Hin. destruct Hin as [Hin | ->].
      * now apply Hnotin.
      * rewrite String.eqb_refl in Hk. discriminate Hk.
Qed.

Lemma add_line_keeps_keys_apart ledger line :
  Forall (fun p => NoDup (map fst (snd p))) ledger ->
  Forall (fun p => NoDup (map fst (snd p))) (add_line ledger line).
Proof.
  induction ledger as [| [k by_id] rest IH]; simpl; intros Hall.
  - apply Forall_cons; [| apply Forall_nil]. simpl.
    apply NoDup_cons; [intros [] | apply NoDup_nil].
  - inversion Hall as [| p ps Hhead Hrest]; subst. simpl in Hhead.
    destruct (String.eqb (GLLine.type line) k).
    + apply Forall_cons; [| exact Hrest]. simpl.
      now apply add_to_entries_keeps_keys_apart.
    + apply Forall_cons; [exact Hhead | now apply IH].
Qed.

Lemma regrouped_keys_apart lines :
  forall ledger,
    Forall (fun p => NoDup (map fst (snd p))) ledger ->
    Forall (fun p => NoDup (map fst (snd p))) (fold_left add_line lines ledger).
Proof.
  induction lines as [| line lines IH]; intros ledger Hall; simpl.
  - exact Hall.
  - apply IH. now apply add_line_keeps_keys_apart.
Qed.

Lemma dict_get_in {V : Type} (d : list (string * V)) k v :
  dict_get d k = Some v -> In (k, v) d.
Proof.
  induction d as [| [k' v'] d IH]; simpl; [discriminate |].
  destruct (String.eqb k k') eqn:Hk.
  - apply String.eqb_eq in Hk. subst k'. intros [= <-]. now left.
  - intros H. right. now apply IH.
Qed.

Lemma in_dict_get {V : Type} (d : list (string * V)) k v :
  NoDup (map fst d) -> In (k, v) d -> dict_get d k = Some v.
Proof.
  induction d as [| [k' v'] d IH]; simpl; intros Hnodup Hin; [destruct Hin |].
  inversion Hnodup as [| k0 keys Hnotin Hrest]; subst.
  destruct Hin as [[= -> ->] | Hin].
  - now rewrite String.eqb_refl.
  - destruct (String.eqb k k') eqn:Hk.
    + apply String.eqb_eq in Hk. subst k'. exfalso. apply Hnotin.
      apply in_map_iff. exists (k, v). now split.
    + now apply IH.
Qed.

(** X18.  The pass over one entity type hands every transaction of that
    type in the report to the transformer exactly once, with all the lines
    the report has for it: the entries it walks are those of pairwise
    different transaction ids, an id is among them exactly when some
    collected line has the type and the id, and the entry of an id holds
    the lines of that transaction.  A type the report does not mention is
    passed over without a call. *)
Theorem gl_pass_handles_each_transaction_once {storage : StorageCollaborator}
    (self : QuickBooksMigrator) (gl : GlEntries) (entity : string) (db : Database) :
  exists ids entries,
    NoDup ids
    /\ (forall id_, In id_ ids <-> lines_of_transaction entity id_ gl <> [])
    /\ map Some entries
       = map (fun id_ => entry_of_lines id_ (lines_of_transaction entity id_ gl)) ids
    /\ _migrate_entries_from_gl (with_general_ledger (regroup gl) self) entity db
       = for_entries
           (_save_entity_as_je (with_general_ledger (regroup gl) self) entity)
           entries db.
Proof.
  pose proof (fun id_ => regrouped_lookup (concat (map snd gl)) entity id_) as Hlookup.
  fold (regroup gl) in Hlookup.
  assert (Hlines : forall id_,
            lookup_entry (regroup gl) entity id_
            = entry_of_lines id_ (lines_of_transaction entity id_ gl))
    by exact Hlookup.
  clear Hlookup.
  pose proof (regrouped_keys_apart (concat (map snd gl)) [] (Forall_nil _)) as Hapart.
  fold (regroup gl) in Hapart.
  unfold _migrate_entries_from_gl, with_general_ledger. cbn [general_ledger].
  unfold lookup_entry in Hlines.
  destruct (dict_get (regroup gl) entity) as [by_id |] eqn:Hget.
  - apply dict_get_in in Hget.
    assert (Hnodup : NoDup (map fst by_id)).
    { rewrite Forall_forall in Hapart. exact (Hapart _ Hget). }
    exists (map fst by_id), (map snd by_id).
    split; [exact Hnodup |]. split; [| split; [| reflexivity]].
    + intros id_. split.
      * intros Hin Hnone. apply in_map_iff in Hin.
        destruct Hin as [[k v] [Hk Hin]]. simpl in Hk. subst k.
        pose proof (in_dict_get by_id id_ v Hnodup Hin) as Hv.
        rewrite Hlines, Hnone in Hv. discriminate Hv.
      * intros Hsome. specialize (Hlines id_).
        destruct (lines_of_transaction entity id_ gl) as [| l ls];
          [now elim Hsome |].
        simpl in Hlines. apply dict_get_in in Hlines.
        apply in_map_iff. eexists. split; [| exact Hlines]. reflexivity.
    + rewrite !map_map. apply map_ext_in. intros [k v] Hin. simpl.
      rewrite <- Hlines. symmetry. now apply in_dict_get.
  - exists [], []. split; [apply NoDup_nil |]. split; [| split; reflexivity].
    intros id_. split; [intros [] |].
    intros Hsome. specialize (Hlines id_).
    destruct (lines_of_transaction entity id_ gl); [now elim Hsome | discriminate Hlines].
Qed.
